(** * Conversation-bound workflow execution engine

    A shallow embedding of the workflow engines of the chat backend:

    - [LoopDetector]  : lib/workflowLoopDetector  (WorkflowLoopDetector)
    - [Executor]      : services/workflowExecutor.service.ts, the persisted,
                        suspendable engine, with lib/workflowStateManager and
                        lib/redisLock
    - [Service]       : services/workflow.service.ts, the synchronous engine
                        with its retry loop
    - [StateManager], [Guard] : the rest of lib/workflowStateManager and of
                        lib/workflowLoopDetector
    - [Chat]          : services/chat.service, the workflow step of
                        sendMessage
    - [Strict]        : the condition evaluator and the router of the
                        persisted engine with the TypeError of a conversion
                        that fails
    - [TimedLock]     : lib/redisLock with the expiry of its key and the
                        waits of withLock

    JavaScript values are modelled as JSON data.  What the code obtains from
    the JavaScript runtime or from external services (RegExp, URL, Number(),
    OpenAI, fetch, ...) is collected in the class [Runtime]; every statement
    below holds for every runtime. *)

From stdpp Require Import gmap strings list pretty.
From Stdlib Require Import ZArith Lia Ascii Sorted.

Set Warnings "-register-all".
Set Default Proof Using "Type".

(** ** JavaScript values *)

Module Js.

Inductive JsValue : Type :=
  | JUndefined
  | JNull
  | JBool (b : bool)
  | JNum (z : Z)
  | JStr (s : string)
  | JArr (xs : list JsValue)
  | JObj (fields : gmap string JsValue).

(** ToBoolean: what [if (v)], [!v] and [v || d] look at. *)
Definition truthy (v : JsValue) : bool :=
  match v with
  | JUndefined | JNull => false
  | JBool b => b
  | JNum z => negb (z =? 0)%Z
  | JStr s => negb (String.eqb s "")
  | JArr _ | JObj _ => true
  end.

(** [a || d] *)
Definition orElse (a d : JsValue) : JsValue := if truthy a then a else d.

(** [a === b].  Arrays and objects are compared by reference; the two sides
    of every comparison in the engine come from different JSON documents
    (condition and variables), so they are never the same reference. *)
Definition strictEq (a b : JsValue) : bool :=
  match a, b with
  | JUndefined, JUndefined => true
  | JNull, JNull => true
  | JBool x, JBool y => Bool.eqb x y
  | JNum x, JNum y => (x =? y)%Z
  | JStr x, JStr y => String.eqb x y
  | _, _ => false
  end.

(** [String(v)] on JSON data that does not shadow [toString]. *)
Fixpoint toStr (v : JsValue) : string :=
  match v with
  | JUndefined => "undefined"
  | JNull => "null"
  | JBool true => "true"
  | JBool false => "false"
  | JNum z => pretty z
  | JStr s => s
  | JArr xs =>
      String.concat ","
        (map (fun x => match x with
                       | JUndefined | JNull => ""
                       | _ => toStr x
                       end) xs)
  | JObj _ => "[object Object]"
  end.

(** [o.k] and [o[k]] on own properties of JSON objects (configs, conditions
    and variables are JSON objects); a primitive has none of the properties
    the engine reads. *)
Definition getProp (o : JsValue) (k : string) : JsValue :=
  match o with
  | JObj fields => default JUndefined (fields !! k)
  | _ => JUndefined
  end.

(** [vars[k]] where [k] is any value: the key is [k] converted to a string. *)
Definition getVar (vars : gmap string JsValue) (k : JsValue) : JsValue :=
  default JUndefined (vars !! toStr k).

(** [s.includes(sub)] *)
Definition includes (s sub : string) : bool :=
  match String.index 0 sub s with
  | Some _ => true
  | None => false
  end.

(** [s.startsWith(p)] *)
Definition startsWith (s p : string) : bool := String.prefix p s.

Definition lowerAscii (a : Ascii.ascii) : Ascii.ascii :=
  let n := Ascii.nat_of_ascii a in
  if (65 <=? n)%nat && (n <=? 90)%nat then Ascii.ascii_of_nat (n + 32) else a.

(** [s.toLowerCase()] on ASCII text (host names are ASCII). *)
Fixpoint toLowerCase (s : string) : string :=
  match s with
  | EmptyString => EmptyString
  | String a r => String (lowerAscii a) (toLowerCase r)
  end.

(** [xs.includes(s)] for an array of strings. *)
Definition arrayIncludes (xs : list string) (s : string) : bool :=
  existsb (String.eqb s) xs.

End Js.

Export Js.

Abbreviation Vars := (gmap string JsValue).

(** ** Results of code that can throw *)

(** A thrown [Error]: the [name] of its class and its [message]. *)
Record Error : Type := mkError { name : string; message : string }.

(** How a call ends: it returns, it throws, or (for a promise followed with
    bounded fuel) it has not settled yet. *)
Inductive Result (A : Type) : Type :=
  | Ok (a : A)
  | Throw (e : Error)
  | Pending.
Arguments Ok {A} a.
Arguments Throw {A} e.
Arguments Pending {A}.

(** [new Error(m)], [new WorkflowExecutorError(m)], [new WorkflowError(m)],
    [new WorkflowLoopError(m)] *)
Definition plainError (m : string) : Error := mkError "Error" m.
Definition executorError (m : string) : Error := mkError "WorkflowExecutorError" m.
Definition workflowError (m : string) : Error := mkError "WorkflowError" m.
Definition loopError (m : string) : Error := mkError "WorkflowLoopError" m.

(** ** Code that reads and writes a store and can throw *)

Definition St (S A : Type) : Type := S -> Result A * S.

Definition ret {S A} (a : A) : St S A := fun w => (Ok a, w).

Definition throw {S A} (e : Error) : St S A := fun w => (Throw e, w).

Definition pending {S A} : St S A := fun w => (Pending, w).

Definition bind {S A B} (m : St S A) (k : A -> St S B) : St S B :=
  fun w =>
    match m w with
    | (Ok a, w') => k a w'
    | (Throw e, w') => (Throw e, w')
    | (Pending, w') => (Pending, w')
    end.

(** [try { m } catch (e) { h e }] *)
Definition tryCatch {S A} (m : St S A) (h : Error -> St S A) : St S A :=
  fun w =>
    match m w with
    | (Throw e, w') => h e w'
    | other => other
    end.

(** a store update that cannot fail *)
Definition modify {S} (f : S -> S) : St S unit := fun w => (Ok (), f w).

Definition gets {S A} (f : S -> A) : St S A := fun w => (Ok (f w), w).

Notation "'let!' x ':=' m 'in' k" := (bind m (fun x => k))
  (at level 10, x pattern, m at level 100, k at level 200).
Notation "m ';;;' k" := (bind m (fun _ => k))
  (at level 100, k at level 200, right associativity).

(** ** The JavaScript runtime and the external collaborators *)

Record Url : Type := mkUrl { protocol : string; hostname : string }.

(** What one node handler that only receives [config], [variables] and the
    conversation id does: the messages it sends to the visitor and the object
    it returns, or the error it throws. *)
Record HandlerEffect : Type := mkEffect {
  sent : list string;
  returned : Result Vars
}.

(** workflow.types: NodeExecutionResult *)
Record NodeExecutionResult : Type := mkResult {
  success : bool;
  data : option Vars;
  error : option string;
  shouldContinue : bool
}.

(** How one call of an executor of workflow.executors ends, and after how
    many milliseconds. *)
Record Settled : Type := mkSettled {
  outcome : Result NodeExecutionResult;
  after : Z
}.

Class Runtime : Type := {
  (** [Number(a) < Number(b)] (IEEE doubles, NaN included) *)
  numberLt : JsValue -> JsValue -> bool;
  (** [new RegExp(pattern).test(input)]; [None] when the pattern does not
      compile (SyntaxError) *)
  regexTest : string -> string -> option bool;
  (** [new URL(url)]; [None] when the constructor throws *)
  parseUrl : string -> option Url;
  (** [interpolateVariables(text, variables)]: the body replaces each
      [{{key}}] through a RegExp built from the key.  The field gives the
      text it returns; for a variable whose name does not compile as the
      source of a RegExp, or whose value does not convert to a string, the
      code throws instead, which the handlers below do not show. *)
  interpolateVariables : string -> Vars -> string;
  (** [fetch(url, {method, headers, body})] followed by [response.json()],
      as seen by executeActionApiCall: the object it returns in either
      branch of its try/catch, for the URL, the config and the variables *)
  fetchJson : string -> JsValue -> Vars -> Vars;
  (** the handlers of the persisted engine that only receive
      [(config, variables)] or [(config, conversationId, variables)] and
      consult OpenAI, the database, the mailer, the clock or a timer *)
  external : string -> JsValue -> string -> Vars -> HandlerEffect;
  (** the executors of workflow.executors, used by the synchronous engine:
      node type, config, variables and the number of executor calls made
      before this one in the run *)
  executors : string -> JsValue -> Vars -> nat -> Settled
}.

(** ** Workflow definitions (prisma rows, as included in the context) *)

Record Node : Type := mkNode {
  node_id : string;
  node_type : string;
  node_config : JsValue;
  node_label : string
}.

Record Edge : Type := mkEdge {
  edge_id : string;
  sourceNodeId : string;
  targetNodeId : string;
  condition : JsValue
}.

Record Workflow : Type := mkWorkflow {
  nodes : list Node;
  edges : list Edge;
  startNodeIds : list string
}.

(** [workflow.nodes.find(n => n.id === id)] *)
Definition findNode (wf : Workflow) (id : string) : option Node :=
  List.find (fun n => String.eqb (node_id n) id) (nodes wf).

(** [workflow.edges.filter(e => e.sourceNodeId === id)] *)
Definition outgoingEdgesOf (wf : Workflow) (id : string) : list Edge :=
  List.filter (fun e => String.eqb (sourceNodeId e) id) (edges wf).

(** ** lib/workflowLoopDetector: WorkflowLoopDetector *)

Module LoopDetector.

Record NodeVisit : Type := mkVisit {
  nodeId : string;
  timestamp : Z;
  count : Z
}.

Record Detector : Type := mkDetector {
  visits : gmap string NodeVisit;
  maxVisitsPerNode : Z;
  maxTotalNodes : Z;
  startTime : Z;
  maxExecutionTime : Z
}.

Record Options : Type := mkOptions {
  opt_maxVisitsPerNode : option Z;
  opt_maxTotalNodes : option Z;
  opt_maxExecutionTimeMs : option Z
}.

(** [new WorkflowLoopDetector(options)] at time [now] *)
Definition create (options : option Options) (now : Z) : Detector :=
  {| visits := ∅;
     maxVisitsPerNode := default 10%Z (options ≫= opt_maxVisitsPerNode);
     maxTotalNodes := default 100%Z (options ≫= opt_maxTotalNodes);
     startTime := now;
     maxExecutionTime := default 300000%Z (options ≫= opt_maxExecutionTimeMs) |}.

Definition dq : string := String (Ascii.ascii_of_nat 34) EmptyString.

Definition withVisits (d : Detector) (v : gmap string NodeVisit) : Detector :=
  {| visits := v;
     maxVisitsPerNode := maxVisitsPerNode d;
     maxTotalNodes := maxTotalNodes d;
     startTime := startTime d;
     maxExecutionTime := maxExecutionTime d |}.

(** [visitNode(nodeId)] at time [now].  [existing.count++] updates the entry
    held by the map, also when the method then throws. *)
Definition visitNode (d : Detector) (id : string) (now : Z)
  : Result unit * Detector :=
  let elapsed := (now - startTime d)%Z in
  if (maxExecutionTime d <? elapsed)%Z then
    (Throw (loopError ("Workflow execution timeout: exceeded "
                         +:+ pretty (maxExecutionTime d) +:+ "ms")), d)
  else if (maxTotalNodes d <=? Z.of_nat (size (visits d)))%Z then
    (Throw (loopError ("Workflow node limit exceeded: visited "
                         +:+ pretty (size (visits d)) +:+ " nodes")), d)
  else
    match visits d !! id with
    | Some existing =>
        let existing' :=
          {| nodeId := nodeId existing; timestamp := now;
             count := (count existing + 1)%Z |} in
        let d' := withVisits d (<[id := existing']> (visits d)) in
        if (maxVisitsPerNode d <? count existing')%Z then
          (Throw (loopError ("Infinite loop detected: node " +:+ dq +:+ id
                               +:+ dq +:+ " visited "
                               +:+ pretty (count existing') +:+ " times")), d')
        else (Ok (), d')
    | None =>
        (Ok (), withVisits d
                  (<[id := {| nodeId := id; timestamp := now; count := 1 |}]>
                     (visits d)))
    end.

(** The visit count the detector holds for a node ([0] when never seen). *)
Definition visitCount (d : Detector) (id : string) : Z :=
  match visits d !! id with
  | Some v => count v
  | None => 0%Z
  end.

(** Calling [visitNode] for each id of a list in turn, stopping at the first
    throw; the number of calls that returned is reported with the error. *)
Fixpoint visitAll (d : Detector) (ids : list string) (now : Z) (done : nat)
  : Result unit * nat * Detector :=
  match ids with
  | [] => (Ok (), done, d)
  | id :: rest =>
      match visitNode d id now with
      | (Ok _, d') => visitAll d' rest now (S done)
      | (r, d') => (r, done, d')
      end
  end.

End LoopDetector.

(** prisma: ExecutionStatus *)
Inductive ExecutionStatus : Type := RUNNING | COMPLETED | FAILED.

(** ** services/workflowExecutor.service.ts: the persisted engine *)

Module Executor.

(** *** lib/workflowStateManager: ConversationExecutionContext *)

Record Validation : Type := mkValidation {
  v_type : option string;
  v_pattern : option string;
  v_errorMessage : option string
}.

Record ConversationExecutionContext : Type := mkContext {
  conversationId : string;
  workflowId : string;
  executionId : string;
  currentNodeId : option string;          (* string | null *)
  variables : Vars;
  waitingForInput : bool;
  expectedInputType : option string;
  expectedInputValidation : option Validation;
  workflow : Workflow
}.

Definition setCurrentNodeId (c : ConversationExecutionContext) (n : option string) :=
  mkContext (conversationId c) (workflowId c) (executionId c) n (variables c)
    (waitingForInput c) (expectedInputType c) (expectedInputValidation c) (workflow c).

Definition setVariables (c : ConversationExecutionContext) (v : Vars) :=
  mkContext (conversationId c) (workflowId c) (executionId c) (currentNodeId c) v
    (waitingForInput c) (expectedInputType c) (expectedInputValidation c) (workflow c).

Definition setWaitingForInput (c : ConversationExecutionContext) (b : bool) :=
  mkContext (conversationId c) (workflowId c) (executionId c) (currentNodeId c)
    (variables c) b (expectedInputType c) (expectedInputValidation c) (workflow c).

Definition setExpectedInputType (c : ConversationExecutionContext) (t : option string) :=
  mkContext (conversationId c) (workflowId c) (executionId c) (currentNodeId c)
    (variables c) (waitingForInput c) t (expectedInputValidation c) (workflow c).

Definition setExpectedInputValidation (c : ConversationExecutionContext)
    (v : option Validation) :=
  mkContext (conversationId c) (workflowId c) (executionId c) (currentNodeId c)
    (variables c) (waitingForInput c) (expectedInputType c) v (workflow c).

(** *** The stores the engine reads and writes *)

(** A row of [prisma.workflowExecution]. *)
Record WorkflowExecution : Type := mkExecution {
  status : ExecutionStatus;
  exec_error : option string;
  logs : list string
}.

(** A row of [prisma.workflow] with its nodes and edges included. *)
Record WorkflowRow : Type := mkRow {
  definition : Workflow;
  isActive : bool;
  deleted : bool                           (* deletedAt is not null *)
}.

Record World : Type := mkWorld {
  (** Redis, keys [workflow:state:<conversationId>] *)
  redisState : gmap string ConversationExecutionContext;
  (** Redis, keys [lock:<resource>], each holding its owner's token *)
  redisLocks : gmap string string;
  workflowTable : gmap string WorkflowRow;
  executionTable : gmap string WorkflowExecution;
  (** rows written by sendMessageToUser: conversation and content *)
  messageTable : list (string * string);
  (** the URLs handed to [fetch] *)
  fetched : list string;
  (** every call of executeNode: conversation and node *)
  dispatched : list (string * string);
  (** source of execution ids and lock tokens *)
  counter : nat
}.

Definition setRedisState (w : World) (s : gmap string ConversationExecutionContext) :=
  mkWorld s (redisLocks w) (workflowTable w) (executionTable w) (messageTable w)
    (fetched w) (dispatched w) (counter w).

Definition setRedisLocks (w : World) (l : gmap string string) :=
  mkWorld (redisState w) l (workflowTable w) (executionTable w) (messageTable w)
    (fetched w) (dispatched w) (counter w).

Definition setExecutionTable (w : World) (t : gmap string WorkflowExecution) :=
  mkWorld (redisState w) (redisLocks w) (workflowTable w) t (messageTable w)
    (fetched w) (dispatched w) (counter w).

Definition setMessageTable (w : World) (m : list (string * string)) :=
  mkWorld (redisState w) (redisLocks w) (workflowTable w) (executionTable w) m
    (fetched w) (dispatched w) (counter w).

Definition setFetched (w : World) (f : list string) :=
  mkWorld (redisState w) (redisLocks w) (workflowTable w) (executionTable w)
    (messageTable w) f (dispatched w) (counter w).

Definition setDispatched (w : World) (d : list (string * string)) :=
  mkWorld (redisState w) (redisLocks w) (workflowTable w) (executionTable w)
    (messageTable w) (fetched w) d (counter w).

Definition setCounter (w : World) (n : nat) :=
  mkWorld (redisState w) (redisLocks w) (workflowTable w) (executionTable w)
    (messageTable w) (fetched w) (dispatched w) n.

(** *** Code that reads and writes the stores and can throw *)

Abbreviation M := (St World).

(** *** WorkflowStateManager *)

Definition saveContext (c : ConversationExecutionContext) : M unit :=
  modify (fun w => setRedisState w (<[conversationId c := c]> (redisState w))).

Definition getContext (id : string) : M (option ConversationExecutionContext) :=
  gets (fun w => redisState w !! id).

Definition deleteContext (id : string) : M unit :=
  modify (fun w => setRedisState w (delete id (redisState w))).

(** *** RedisLock *)

Definition lockKey (resource : string) : string := "lock:" +:+ resource.

(** [acquire()]: [SET key token EX ttl NX], while no key expires: the
    engine's bursts are followed within the 30 s of its lock.  The lock
    with its expiry and the waits of [withLock] is [TimedLock] below. *)
Definition acquire (key token : string) : M bool :=
  fun w =>
    match redisLocks w !! key with
    | Some _ => (Ok false, w)
    | None => (Ok true, setRedisLocks w (<[key := token]> (redisLocks w)))
    end.

(** [release()]: delete the key only if it still holds our token *)
Definition release (key token : string) : M unit :=
  modify (fun w =>
    match redisLocks w !! key with
    | Some t => if String.eqb t token
                then setRedisLocks w (delete key (redisLocks w)) else w
    | None => w
    end).

(** the acquisition loop of [withLock]: [for (i = 0; i < retries; i++)];
    the waits between the attempts are not modelled *)
Fixpoint acquireLoop (key token : string) (retries : nat) : M bool :=
  match retries with
  | O => ret false
  | S n =>
      let! acquired := acquire key token in
      if acquired : bool then ret true else acquireLoop key token n
  end.

(** [nanoid()] *)
Definition freshToken : M string :=
  fun w => (Ok ("token-" +:+ pretty (counter w)), setCounter w (S (counter w))).

(** [RedisLock.withLock(resource, fn, {retries})] *)
Definition withLock {A} (resource : string) (fn : M A) (retries : nat) : M A :=
  let! token := freshToken in
  let! acquired := acquireLoop (lockKey resource) token retries in
  if acquired : bool then
    fun w =>
      match fn w with
      | (r, w') => (r, snd (release (lockKey resource) token w'))
      end
  else throw (plainError ("Failed to acquire lock for resource: " +:+ resource)).

(** *** prisma.workflowExecution and prisma.message *)

(** [prisma.workflowExecution.update({where: {id}, data})] rejects when the
    row does not exist. *)
Definition updateExecution (id : string) (f : WorkflowExecution -> WorkflowExecution)
  : M unit :=
  fun w =>
    match executionTable w !! id with
    | Some e => (Ok (), setExecutionTable w (<[id := f e]> (executionTable w)))
    | None => (Throw (mkError "PrismaClientKnownRequestError"
                        "Record to update not found"), w)
    end.

Definition markExecutionCompleted (id : string) : M unit :=
  updateExecution id (fun e => mkExecution COMPLETED (exec_error e) (logs e)).

Definition markExecutionFailed (id : string) (error : string) : M unit :=
  updateExecution id (fun e => mkExecution FAILED (Some error) (logs e)).

Definition addExecutionLog (id : string) (msg : string) : M unit :=
  fun w =>
    match executionTable w !! id with
    | None => (Ok (), w)
    | Some e =>
        updateExecution id
          (fun e => mkExecution (status e) (exec_error e) (logs e ++ [msg])) w
    end.

Definition sendMessageToUser (conversation : string) (text : string) : M unit :=
  modify (fun w => setMessageTable w (messageTable w ++ [(conversation, text)])).

Section Engine.
Context `{rt : Runtime}.

(** *** Edge routing *)

Definition isNullish (v : JsValue) : bool :=
  match v with
  | JUndefined | JNull => true
  | _ => false
  end.

(** [evaluateCondition(condition, variables)], on conditions and variables
    whose values convert to strings and numbers and on fields that name a
    variable or nothing that objects inherit; with the TypeError of a
    conversion that fails and with the inherited names it is
    [Strict.evaluateCondition] below. *)
Definition evaluateCondition (condition : JsValue) (variables : Vars) : bool :=
  let field := getProp condition "field" in
  let operator := getProp condition "operator" in
  let value := getProp condition "value" in
  if negb (truthy field) || negb (truthy operator) then true
  else
    let fieldValue := getVar variables field in
    match operator with
    | JStr op =>
        if String.eqb op "equals" then strictEq fieldValue value
        else if String.eqb op "notEquals" then negb (strictEq fieldValue value)
        else if String.eqb op "contains" then
          includes (toStr fieldValue) (toStr value)
        else if String.eqb op "notContains" then
          negb (includes (toStr fieldValue) (toStr value))
        else if String.eqb op "greaterThan" then numberLt value fieldValue
        else if String.eqb op "lessThan" then numberLt fieldValue value
        else if String.eqb op "exists" then negb (isNullish fieldValue)
        else if String.eqb op "notExists" then isNullish fieldValue
        else true
    | _ => true
    end.

(** the [for (const edge of outgoingEdges)] loop of findNextNode *)
Fixpoint firstMatch (outgoingEdges : list Edge) (variables : Vars) : option string :=
  match outgoingEdges with
  | [] => None
  | edge :: rest =>
      if truthy (condition edge) then
        if evaluateCondition (condition edge) variables
        then Some (targetNodeId edge)
        else firstMatch rest variables
      else Some (targetNodeId edge)
  end.

(** [findNextNode(currentNode, context)] *)
Definition findNextNode (currentNode : Node) (context : ConversationExecutionContext)
  : option string :=
  let outgoingEdges := outgoingEdgesOf (workflow context) (node_id currentNode) in
  if (length outgoingEdges =? 0)%nat then None
  else firstMatch outgoingEdges (variables context).

(** *** Node handlers *)

Definition jTrue : JsValue := JBool true.

(** [executeTriggerUserInput(config, context)] *)
Definition executeTriggerUserInput (config : JsValue)
    (context : ConversationExecutionContext)
  : M (Vars * ConversationExecutionContext) :=
  let context := setWaitingForInput context true in
  (if truthy (getProp config "prompt")
   then sendMessageToUser (conversationId context) (toStr (getProp config "prompt"))
   else ret ()) ;;;
  ret ({["waitingForInput" := jTrue]}, context).

(** [isNextNodeCondition(context)] *)
Definition isNextNodeCondition (context : ConversationExecutionContext) : bool :=
  match currentNodeId context with
  | None => false
  | Some cur =>
      match findNode (workflow context) cur with
      | None => false
      | Some currentNode =>
          existsb
            (fun edge =>
               match findNode (workflow context) (targetNodeId edge) with
               | Some targetNode => startsWith (node_type targetNode) "CONDITION_"
               | None => false
               end)
            (outgoingEdgesOf (workflow context) (node_id currentNode))
      end
  end.

(** [executeActionMessage(config, conversationId, variables, context)] *)
Definition executeActionMessage (config : JsValue)
    (context : ConversationExecutionContext)
  : M (Vars * ConversationExecutionContext) :=
  let message :=
    interpolateVariables (toStr (orElse (getProp config "message") (JStr "")))
      (variables context) in
  sendMessageToUser (conversationId context) message ;;;
  let waitForResponse := getProp config "waitForResponse" in
  let shouldWait :=
    strictEq waitForResponse (JBool true)
    || (negb (strictEq waitForResponse (JBool false)) && isNextNodeCondition context) in
  if shouldWait then
    ret (<["messageSent" := jTrue]> {["waitingForInput" := jTrue]},
         setWaitingForInput context true)
  else ret ({["messageSent" := jTrue]}, context).

(** [executeActionWaitForInput(config, context)] *)
Definition executeActionWaitForInput (config : JsValue)
    (context : ConversationExecutionContext)
  : M (Vars * ConversationExecutionContext) :=
  let context := setWaitingForInput context true in
  let context :=
    setExpectedInputType context
      (Some (toStr (orElse (getProp config "inputType") (JStr "text")))) in
  (if truthy (getProp config "prompt")
   then sendMessageToUser (conversationId context)
          (interpolateVariables (toStr (getProp config "prompt")) (variables context))
   else ret ()) ;;;
  ret ({["waitingForInput" := jTrue]}, context).

(** [executeActionSetVariable(config, variables)] *)
Definition executeActionSetVariable (config : JsValue) (variables : Vars) : Vars :=
  let variableName := orElse (getProp config "variableName") (JStr "customVar") in
  let value := orElse (getProp config "value") (JStr "") in
  {[ toStr variableName := JStr (interpolateVariables (toStr value) variables) ]}.

(** [executeConditionVariable(config, variables)] *)
Definition executeConditionVariable (config : JsValue) (variables : Vars) : Vars :=
  let variableName := orElse (getProp config "variable") (JStr "") in
  {[ "conditionMet" := JBool (negb (isNullish (getVar variables variableName))) ]}.

(** the test [/^172\.(1[6-9]|2[0-9]|3[0-1])\./] of validateApiUrl *)
Definition private172 (host : string) : bool :=
  match host with
  | String "1"%char (String "7"%char (String "2"%char (String "."%char
      (String a (String b (String "."%char _)))))) =>
      let d := Ascii.nat_of_ascii b in
      (Ascii.eqb a "1"%char && (54 <=? d)%nat && (d <=? 57)%nat)
      || (Ascii.eqb a "2"%char && (48 <=? d)%nat && (d <=? 57)%nat)
      || (Ascii.eqb a "3"%char && (48 <=? d)%nat && (d <=? 49)%nat)
  | _ => false
  end.

Definition blockedHosts : list string := ["localhost"; "127.0.0.1"; "0.0.0.0"; "::1"].

(** [validateApiUrl(url)]: the value is the error it throws, if any.  Errors
    raised inside the [try] whose message does not start with [Cannot] are
    replaced by [Invalid URL format]. *)
Definition validateApiUrl (url : string) : option Error :=
  match parseUrl url with
  | None => Some (plainError "Invalid URL format")
  | Some parsed =>
      if arrayIncludes blockedHosts (toLowerCase (hostname parsed)) then
        Some (plainError "Cannot call localhost or internal addresses")
      else if startsWith (hostname parsed) "192.168."
              || startsWith (hostname parsed) "10."
              || private172 (hostname parsed)
              || startsWith (hostname parsed) "169.254." then
        Some (plainError "Cannot call private networks")
      else if negb (arrayIncludes ["http:"; "https:"] (protocol parsed)) then
        Some (plainError "Invalid URL format")
      else None
  end.

(** [executeActionApiCall(config, variables)] *)
Definition executeActionApiCall (config : JsValue) (variables : Vars) : M Vars :=
  let url :=
    interpolateVariables (toStr (orElse (getProp config "url") (JStr ""))) variables in
  match validateApiUrl url with
  | Some e => throw e
  | None =>
      modify (fun w => setFetched w (fetched w ++ [url])) ;;;
      ret (fetchJson url config variables)
  end.

(** The handlers that get neither the context nor anything modelled above:
    their sends and their result come from the runtime. *)
Definition externalTypes : list string :=
  [ "TRIGGER_WAIT"; "TRIGGER_MESSAGE"; "TRIGGER_INTENT";
    "CONDITION_KEYWORD"; "CONDITION_REGEX"; "CONDITION_EQUALS";
    "CONDITION_CONTAINS"; "CONDITION_SENTIMENT"; "CONDITION_TIME";
    "ACTION_VALIDATE_INPUT"; "ACTION_EMAIL"; "ACTION_ASSIGN_HUMAN";
    "ACTION_END_CONVERSATION";
    "AI_RESPONSE"; "AI_SEARCH_KB"; "AI_CLASSIFY_INTENT"; "AI_EXTRACT_INFO";
    "AI_VALIDATE_FORMAT" ].

Fixpoint sendAll (conversation : string) (texts : list string) : M unit :=
  match texts with
  | [] => ret ()
  | t :: rest => sendMessageToUser conversation t ;;; sendAll conversation rest
  end.

Definition executeExternal (type : string) (config : JsValue)
    (context : ConversationExecutionContext) : M Vars :=
  let effect := external type config (conversationId context) (variables context) in
  sendAll (conversationId context) (sent effect) ;;;
  fun w => (returned effect, w).

(** the case labels of the [switch (node.type)] of executeNode *)
Definition recognizedTypes : list string :=
  [ "TRIGGER_USER_INPUT"; "ACTION_MESSAGE"; "ACTION_WAIT_FOR_INPUT";
    "ACTION_SET_VARIABLE"; "ACTION_API_CALL"; "CONDITION_VARIABLE" ]
  ++ externalTypes.

(** [executeNode(node, context)]: the handler's result and the context as
    the handler left it. *)
Definition executeNode (node : Node) (context : ConversationExecutionContext)
  : M (Vars * ConversationExecutionContext) :=
  let config := node_config node in
  let type := node_type node in
  modify (fun w =>
    setDispatched w (dispatched w ++ [(conversationId context, node_id node)])) ;;;
  if String.eqb type "TRIGGER_USER_INPUT" then executeTriggerUserInput config context
  else if String.eqb type "ACTION_MESSAGE" then executeActionMessage config context
  else if String.eqb type "ACTION_WAIT_FOR_INPUT" then
    executeActionWaitForInput config context
  else if String.eqb type "ACTION_SET_VARIABLE" then
    ret (executeActionSetVariable config (variables context), context)
  else if String.eqb type "ACTION_API_CALL" then
    let! r := executeActionApiCall config (variables context) in ret (r, context)
  else if String.eqb type "CONDITION_VARIABLE" then
    ret (executeConditionVariable config (variables context), context)
  else if arrayIncludes externalTypes type then
    let! r := executeExternal type config context in ret (r, context)
  else
    (* default: logger.warn('Unknown node type'); return {} *)
    ret (∅, context).

(** *** The orchestrator *)

(** [!id] for [id : string | null] *)
Definition noNode (id : option string) : bool :=
  match id with
  | None => true
  | Some s => String.eqb s ""
  end.

(** [processNextNode(context)]; [fuel] bounds the depth of its recursion *)
Fixpoint processNextNode (fuel : nat) (context : ConversationExecutionContext)
  : M unit :=
  match fuel with
  | O => pending
  | S fuel' =>
      if noNode (currentNodeId context) then
        markExecutionCompleted (executionId context) ;;;
        deleteContext (conversationId context)
      else
        let currentNodeId := default "" (currentNodeId context) in
        match findNode (workflow context) currentNodeId with
        | None => throw (executorError ("Node " +:+ currentNodeId +:+ " not found"))
        | Some node =>
            addExecutionLog (executionId context)
              ("Executing: " +:+ node_label node +:+ " (" +:+ node_type node +:+ ")") ;;;
            tryCatch
              (let! (result, context) := executeNode node context in
               let context := setVariables context (result ∪ variables context) in
               if waitingForInput context then
                 addExecutionLog (executionId context) "Waiting for user input" ;;;
                 saveContext context
               else
                 let nextNodeId := findNextNode node context in
                 if noNode nextNodeId then
                   markExecutionCompleted (executionId context) ;;;
                   deleteContext (conversationId context)
                 else
                   let context := setCurrentNodeId context nextNodeId in
                   saveContext context ;;;
                   processNextNode fuel' context)
              (fun error =>
                 addExecutionLog (executionId context)
                   ("Error: " +:+ message error) ;;;
                 throw error)
        end
  end.

(** [processNextNode(context).catch(error => markExecutionFailed(...))]:
    the burst is not awaited by its caller; here it is run to its end. *)
Definition detached (fuel : nat) (context : ConversationExecutionContext) : M unit :=
  tryCatch (processNextNode fuel context)
    (fun error =>
       fun w => (Ok (), snd (markExecutionFailed (executionId context) (message error) w))).

(** *** Resuming on a visitor message *)

Record ValidationResult : Type := mkValidationResult {
  valid : bool;
  errorMessage : option string;
  extractedData : JsValue
}.

(** [a || d] on [string | undefined] *)
Definition orText (a : option string) (d : string) : string :=
  match a with
  | Some s => if String.eqb s "" then d else s
  | None => d
  end.

Definition emailPattern : string := "^[^\s@]+@[^\s@]+\.[^\s@]+$".
Definition phonePattern : string := "^\+?[\d\s\-()]+$".

(** [regex.test(input)] for [regex = new RegExp(pattern)] *)
Definition testRegExp (pattern input : string) : M bool :=
  match regexTest pattern input with
  | Some b => ret b
  | None => throw (mkError "SyntaxError" "Invalid regular expression")
  end.

(** [validateInput(input, validation)] *)
Definition validateInput (input : string) (validation : Validation)
  : M ValidationResult :=
  let type := default "" (v_type validation) in
  if String.eqb type "regex" then
    (* new RegExp(undefined) is the empty pattern *)
    let! ok := testRegExp (default "(?:)" (v_pattern validation)) input in
    ret (mkValidationResult ok
           (Some (orText (v_errorMessage validation) "Invalid format"))
           (JStr input))
  else if String.eqb type "email" then
    let! ok := testRegExp emailPattern input in
    ret (mkValidationResult ok
           (Some (orText (v_errorMessage validation)
                    "Please enter a valid email address"))
           (JStr input))
  else if String.eqb type "phone" then
    let! ok := testRegExp phonePattern input in
    ret (mkValidationResult ok
           (Some (orText (v_errorMessage validation)
                    "Please enter a valid phone number"))
           (JStr input))
  else ret (mkValidationResult true None (JStr input)).

(** what handleMessageInWorkflow returns when it does not return [null] *)
Record MessageResult : Type := mkMessageResult {
  shouldRespond : bool;
  response : option string;
  continueWorkflow : bool
}.

(** [handleMessageInWorkflow(conversationId, message, messageMetadata)];
    [None] is [null] *)
Definition handleMessageInWorkflow (fuel : nat) (conversation : string)
    (message : string) (messageMetadata : JsValue) : M (option MessageResult) :=
  withLock ("workflow:exec:" +:+ conversation)
    (let! found := getContext conversation in
     match found with
     | None => ret None
     | Some context =>
         if negb (waitingForInput context) then ret None
         else
           let context :=
             setVariables context
               (<["lastMessageMetadata" := messageMetadata]>
                  (<["lastUserMessage" := JStr message]> (variables context))) in
           let resume (context : ConversationExecutionContext) :=
             let context := setWaitingForInput context false in
             let context := setExpectedInputType context None in
             let context := setExpectedInputValidation context None in
             saveContext context ;;;
             detached fuel context ;;;
             ret (Some (mkMessageResult false None true)) in
           match expectedInputValidation context with
           | Some expected =>
               let! validation := validateInput message expected in
               if negb (valid validation) then
                 ret (Some (mkMessageResult true
                              (Some (orText (errorMessage validation)
                                       "Invalid input. Please try again."))
                              false))
               else
                 resume (setVariables context
                           (<["validatedInput" := extractedData validation]>
                              (variables context)))
           | None => resume context
           end
     end)
    5.

(** *** Starting a run *)

(** [prisma.workflowExecution.create({data: {status: "RUNNING", logs: []}})] *)
Definition createExecution : M string :=
  fun w =>
    let id := "exec-" +:+ pretty (counter w) in
    (Ok id,
     setCounter
       (setExecutionTable w (<[id := mkExecution RUNNING None []]> (executionTable w)))
       (S (counter w))).

(** [workflow.nodes.find(node => !workflow.edges.some(e => e.targetNodeId === node.id))] *)
Definition findEntryNode (wf : Workflow) : option Node :=
  List.find
    (fun node =>
       negb (existsb (fun edge => String.eqb (targetNodeId edge) (node_id node))
               (edges wf)))
    (nodes wf).

(** what initializeWorkflowForConversation returns *)
Inductive Initialized : Type :=
  | AlreadyRunning (existingContext : ConversationExecutionContext)
  | Started (execution : string).

(** [initializeWorkflowForConversation(conversationId, workflowId, initialData)] *)
Definition initializeWorkflowForConversation (fuel : nat) (conversation : string)
    (workflowId : string) (initialData : option Vars) : M Initialized :=
  let! existingContext := getContext conversation in
  match existingContext with
  | Some existing => ret (AlreadyRunning existing)
  | None =>
      let! row := gets (fun w => workflowTable w !! workflowId) in
      match row with
      | Some (mkRow workflow true false) =>
          let! execution := createExecution in
          match findEntryNode workflow with
          | None => throw (executorError "No entry node found in workflow")
          | Some entryNode =>
              let context :=
                {| conversationId := conversation;
                   workflowId := workflowId;
                   executionId := execution;
                   currentNodeId := Some (node_id entryNode);
                   variables := default ∅ initialData;
                   waitingForInput := false;
                   expectedInputType := None;
                   expectedInputValidation := None;
                   workflow := workflow |} in
              saveContext context ;;;
              detached fuel context ;;;
              ret (Started execution)
          end
      | _ => throw (executorError "Workflow not found or inactive")
      end
  end.

(** [stopWorkflowForConversation(conversationId)] *)
Definition stopWorkflowForConversation (conversation : string) : M unit :=
  deleteContext conversation.

(** [getWorkflowState(conversationId)] *)
Definition getWorkflowState (conversation : string)
  : M (option ConversationExecutionContext) :=
  getContext conversation.

End Engine.

End Executor.

(** ** services/workflow.service.ts: the synchronous engine *)

Module Service.

Inductive Event : Type :=
  | Attempt (node : string) (attempt : Z)   (* a call of executeNodeByType *)
  | Wait (ms : Z)                           (* the back-off timer *)
  | Skipped (node : string).                (* executeWhen not met *)

(** The execution row and the WorkflowExecutionContext of one run. *)
Record Run : Type := mkRun {
  variables : Vars;
  currentNodeId : option string;
  status : ExecutionStatus;
  events : list Event;
  calls : nat
}.

Definition setVariables (r : Run) (v : Vars) :=
  mkRun v (currentNodeId r) (status r) (events r) (calls r).
Definition setCurrentNodeId (r : Run) (n : option string) :=
  mkRun (variables r) n (status r) (events r) (calls r).
Definition setStatus (r : Run) (s : ExecutionStatus) :=
  mkRun (variables r) (currentNodeId r) s (events r) (calls r).
Definition addEvent (e : Event) (r : Run) :=
  mkRun (variables r) (currentNodeId r) (status r) (events r ++ [e]) (calls r).
Definition countCall (r : Run) :=
  mkRun (variables r) (currentNodeId r) (status r) (events r) (S (calls r)).

Abbreviation M := (St Run).

Section Engine.
Context `{rt : Runtime}.

(** [path.split('.')] *)
Fixpoint splitDots (path : string) : list string :=
  match path with
  | EmptyString => [EmptyString]
  | String c rest =>
      if Ascii.eqb c "."%char then EmptyString :: splitDots rest
      else
        match splitDots rest with
        | [] => [String c EmptyString]
        | k :: ks => String c k :: ks
        end
  end.

(** [value[key]] when [key in value], on own properties: the names that
    objects and arrays inherit ([constructor], [toString], ...) are seen by
    [in] as well and lead to values that are no data *)
Definition member (value : JsValue) (key : string) : option JsValue :=
  match value with
  | JObj fields => fields !! key
  | JArr xs =>
      if String.eqb key "length" then Some (JNum (Z.of_nat (length xs)))
      else
        snd <$> List.find (fun '(i, _) => String.eqb (pretty (Z.of_nat i)) key)
                  (imap (fun i x => (i, x)) xs)
  | _ => None
  end.

Fixpoint walk (value : JsValue) (keys : list string) : JsValue :=
  match keys with
  | [] => value
  | key :: rest =>
      match member value key with
      | Some v => walk v rest
      | None => JUndefined
      end
  end.

(** [getVariableValue(variables, path)] *)
Definition getVariableValue (variables : Vars) (path : string) : JsValue :=
  walk (JObj variables) (splitDots path).

(** [evaluateCondition(condition, variables)] *)
Definition evaluateCondition (condition : JsValue) (variables : Vars) : bool :=
  if negb (truthy condition) then true
  else
    let field := getProp condition "field" in
    let operator := getProp condition "operator" in
    let value := getProp condition "value" in
    let variable := getProp condition "variable" in
    let negate := getProp condition "negate" in
    let varName := orElse variable field in
    if negb (truthy varName) || negb (truthy operator) then true
    else
      let fieldValue := getVariableValue variables (toStr varName) in
      let result :=
        match operator with
        | JStr op =>
            if String.eqb op "equals" then strictEq fieldValue value
            else if String.eqb op "notEquals" then negb (strictEq fieldValue value)
            else if String.eqb op "contains" then
              includes (toStr fieldValue) (toStr value)
            else if String.eqb op "greaterThan" then numberLt value fieldValue
            else if String.eqb op "lessThan" then numberLt fieldValue value
            else if String.eqb op "exists" then
              negb (Executor.isNullish fieldValue)
            else if String.eqb op "matches" then
              default false
                (regexTest (match value with
                            | JUndefined => "(?:)"
                            | v => toStr v
                            end) (toStr fieldValue))
            else true
        | _ => true
        end in
      if truthy negate then negb result else result.

(** the case labels of the [switch (node.type)] of executeNodeByType *)
Definition knownTypes : list string :=
  [ "TRIGGER_WAIT"; "TRIGGER_INACTIVITY";
    "CONDITION_KEYWORD"; "CONDITION_SENTIMENT"; "CONDITION_TIME";
    "CONDITION_COMPARE";
    "ACTION_MESSAGE"; "ACTION_EMAIL"; "ACTION_API_CALL"; "ACTION_ASSIGN_HUMAN";
    "ACTION_VARIABLE_SET"; "ACTION_DELAY";
    "AI_RESPONSE"; "AI_SEARCH_KB"; "AI_CLASSIFY_INTENT"; "AI_SUMMARIZE";
    "FLOW_LOOP"; "DATA_TRANSFORM"; "DATA_VALIDATE" ].

(** [executeNodeByType(node, context)]: how the promise settles and when *)
Definition executeNodeByType (node : Node) (variables : Vars) (call : nat) : Settled :=
  if arrayIncludes knownTypes (node_type node) then
    executors (node_type node) (node_config node) variables call
  else
    mkSettled (Throw (workflowError ("Unknown node type: " +:+ node_type node))) 0.

(** a [number] field of the config *)
Definition asNumber (v : JsValue) : Z :=
  match v with
  | JNum z => z
  | _ => 0%Z
  end.

(** One attempt: [Promise.race([executeNodeByType(..), timer])] when
    [config.timeout] is set, else [executeNodeByType(..)] alone. *)
Definition attemptNode (node : Node) (config : JsValue) (attempt : Z)
  : M NodeExecutionResult :=
  fun r =>
    let settled := executeNodeByType node (variables r) (calls r) in
    let r := countCall (addEvent (Attempt (node_id node) attempt) r) in
    if truthy (getProp config "timeout") then
      let timeout := asNumber (getProp config "timeout") in
      match outcome settled with
      | Pending =>
          (Throw (workflowError ("Node timeout after " +:+ pretty timeout +:+ "ms")), r)
      | o =>
          if (after settled <? timeout)%Z then (o, r)
          else
            (Throw (workflowError ("Node timeout after " +:+ pretty timeout +:+ "ms")), r)
      end
    else (outcome settled, r).

(** what the [try] block does with the result of a successful attempt *)
Definition storeResult (config : JsValue) (nodeResult : NodeExecutionResult) : M unit :=
  modify (fun r =>
    match data nodeResult with
    | Some d =>
        let saved :=
          if truthy (getProp config "saveResultAs")
          then <[toStr (getProp config "saveResultAs") := JObj d]> (variables r)
          else variables r in
        setVariables r (d ∪ saved)
    | None => r
    end).

(** the [while (attempts < maxRetries)] loop of executeNode; the value is
    [nodeResult] at the exit of the loop, [None] when it was never assigned *)
Fixpoint retryLoop (fuel : nat) (node : Node) (config : JsValue)
    (maxRetries attempts : Z) (nodeResult : option NodeExecutionResult)
  : M (option NodeExecutionResult) :=
  if (attempts <? maxRetries)%Z then
    match fuel with
    | O => pending
    | S fuel' =>
        let attempts := (attempts + 1)%Z in
        fun r =>
          match attemptNode node config attempts r with
          | (Ok result, r') =>
              (* break *)
              (storeResult config result ;;; ret (Some result)) r'
          | (Throw error, r') =>
              let isLastAttempt := (maxRetries <=? attempts)%Z in
              if isLastAttempt then
                if truthy (getProp config "continueOnError") then
                  (* break *)
                  (Ok (Some (mkResult false None (Some (message error)) true)), r')
                else (Throw error, r')
              else
                retryLoop fuel' node config maxRetries attempts nodeResult
                  (addEvent (Wait (1000 * attempts)) r')
          | (Pending, r') => (Pending, r')
          end
    end
  else ret nodeResult.

(** [config.retryOnError ? (config.maxRetries || 3) : 1] *)
Definition maxRetriesOf (config : JsValue) : Z :=
  if truthy (getProp config "retryOnError")
  then asNumber (orElse (getProp config "maxRetries") (JNum 3))
  else 1%Z.

(** the [for (const edge of outgoingEdges)] loop of executeNode, [run] being
    the recursive call *)
Fixpoint forEdges (run : string -> M unit) (outgoingEdges : list Edge) : M unit :=
  match outgoingEdges with
  | [] => ret ()
  | edge :: rest =>
      let! variables := gets variables in
      if truthy (condition edge) && negb (evaluateCondition (condition edge) variables)
      then forEdges run rest                        (* continue *)
      else run (targetNodeId edge) ;;; forEdges run rest
  end.

(** [executeNode(nodeId, workflow, context, workflowLogger)]; [fuel] bounds
    the depth of its recursion *)
Fixpoint executeNode (fuel : nat) (nodeId : string) (workflow : Workflow) : M unit :=
  match fuel with
  | O => pending
  | S fuel' =>
      match findNode workflow nodeId with
      | None => throw (workflowError ("Node " +:+ nodeId +:+ " not found"))
      | Some node =>
          let config := orElse (node_config node) (JObj ∅) in
          let! variables := gets variables in
          if truthy (getProp config "executeWhen")
             && negb (evaluateCondition (getProp config "executeWhen") variables)
          then modify (addEvent (Skipped nodeId))
          else
            modify (fun r => setCurrentNodeId r (Some nodeId)) ;;;
            let maxRetries := maxRetriesOf config in
            let! nodeResult :=
              retryLoop (Z.to_nat maxRetries) node config maxRetries 0 None in
            match nodeResult with
            | None =>
                (* nodeResult!.shouldContinue on undefined *)
                throw (mkError "TypeError" "Cannot read properties of undefined")
            | Some nodeResult =>
                if negb (shouldContinue nodeResult) then ret ()
                else
                  forEdges (fun target => executeNode fuel' target workflow)
                    (outgoingEdgesOf workflow nodeId)
            end
      end
  end.

(** the [try]/[catch] of executeWorkflow around the run of the entry nodes *)
Fixpoint forEntries (run : string -> M unit) (entryNodes : list Node) : M unit :=
  match entryNodes with
  | [] => ret ()
  | entryNode :: rest => run (node_id entryNode) ;;; forEntries run rest
  end.

Definition entryNodes (workflow : Workflow) : list Node :=
  List.filter
    (fun node =>
       if (0 <? length (startNodeIds workflow))%nat
       then arrayIncludes (startNodeIds workflow) (node_id node)
       else negb (existsb (fun edge => String.eqb (targetNodeId edge) (node_id node))
                    (edges workflow)))
    (nodes workflow).

(** [executeWorkflow], from the creation of the context on *)
Definition executeWorkflow (fuel : nat) (workflow : Workflow) : M unit :=
  tryCatch
    (if (length (entryNodes workflow) =? 0)%nat
     then throw (workflowError "No entry node found in workflow")
     else
       forEntries (fun id => executeNode fuel id workflow) (entryNodes workflow) ;;;
       modify (fun r => setStatus r COMPLETED))
    (fun error => modify (fun r => setStatus r FAILED) ;;; throw error).

End Engine.

End Service.

(** ** Vocabulary of the statements *)

Module Spec.

Import Executor.

Section Engine.
Context `{rt : Runtime}.


(** the operator names with a [case] in the persisted evaluateCondition *)
Definition implementedOperators : list string :=
  [ "equals"; "notEquals"; "contains"; "notContains";
    "greaterThan"; "lessThan"; "exists"; "notExists" ].

(** A message qualifies for a waiting context when the context expects no
    validation or validateInput accepts the message. *)
Definition qualifies (message : string) (context : ConversationExecutionContext)
    (w : World) : Prop :=
  match expectedInputValidation context with
  | None => True
  | Some expected =>
      exists v, fst (validateInput message expected w) = Ok v /\ valid v = true
  end.

(** The entry points of the engine, as its collaborators call them. *)
Inductive Call : Type :=
  | Initialize (conversation workflowId : string) (initialData : option Vars)
  | InboundMessage (conversation message : string) (messageMetadata : JsValue)
  | GetState (conversation : string)
  | Stop (conversation : string).

Definition conversationOf (c : Call) : string :=
  match c with
  | Initialize conversation _ _ => conversation
  | InboundMessage conversation _ _ => conversation
  | GetState conversation => conversation
  | Stop conversation => conversation
  end.

(** the stores after a call *)
Definition perform (fuel : nat) (c : Call) (w : World) : World :=
  match c with
  | Initialize conversation workflowId initialData =>
      snd (initializeWorkflowForConversation fuel conversation workflowId initialData w)
  | InboundMessage conversation message messageMetadata =>
      snd (handleMessageInWorkflow fuel conversation message messageMetadata w)
  | GetState conversation => snd (getWorkflowState conversation w)
  | Stop conversation => snd (stopWorkflowForConversation conversation w)
  end.

(** [workflowResult?.continueWorkflow], as services/chat.service reads the
    value of handleMessageInWorkflow *)
Definition workflowIsHandling (r : Result (option MessageResult)) : bool :=
  match r with
  | Ok (Some m) => continueWorkflow m
  | _ => false
  end.

(** the Redis key of the conversation's lock *)
Definition lockOf (conversation : string) : string :=
  lockKey ("workflow:exec:" +:+ conversation).

End Engine.

(** the stores once processNextNode has logged that it executes [node] *)
Definition announced (context : ConversationExecutionContext) (node : Node)
    (w : World) : World :=
  snd (addExecutionLog (executionId context)
         ("Executing: " +:+ node_label node +:+ " (" +:+ node_type node +:+ ")") w).

(** the context as processNextNode holds it after merging a handler's result *)
Definition merged (result : Vars) (context : ConversationExecutionContext)
  : ConversationExecutionContext :=
  setVariables context (result ∪ variables context).

(** the status of an execution row *)
Definition statusOf (w : World) (execution : string) : option ExecutionStatus :=
  status <$> executionTable w !! execution.

(** the context handleMessageInWorkflow hands to processNextNode once a
    message has been accepted; [validated] is the extracted data when the
    context asked for validation *)
Definition cleared (message : string) (messageMetadata : JsValue)
    (validated : option JsValue) (context : ConversationExecutionContext)
  : ConversationExecutionContext :=
  let variables :=
    <["lastMessageMetadata" := messageMetadata]>
      (<["lastUserMessage" := JStr message]> (variables context)) in
  let variables :=
    match validated with
    | Some extracted => <["validatedInput" := extracted]> variables
    | None => variables
    end in
  setExpectedInputValidation
    (setExpectedInputType (setWaitingForInput (setVariables context variables) false)
       None)
    None.

(** the stores while [withLock] holds the conversation's lock *)
Definition locked (conversation : string) (w : World) : World :=
  setRedisLocks (setCounter w (S (counter w)))
    (<[lockKey ("workflow:exec:" +:+ conversation)
       := "token-" +:+ pretty (counter w)]> (redisLocks w)).

(** [n] dispatches for one conversation that alternate between two nodes,
    starting with [a] *)
Fixpoint alternating (conversation a b : string) (n : nat) : list (string * string) :=
  match n with
  | O => []
  | S m => (conversation, a) :: alternating conversation b a m
  end.

(** the back-off waits and the attempts among the events of a run *)
Definition waits (events : list Service.Event) : list Z :=
  omap (fun e => match e with Service.Wait ms => Some ms | _ => None end) events.

(** the events of [n] failed attempts in a row on [node], the first one
    numbered [from + 1], with the waits between them *)
Fixpoint failedAttempts (node : string) (from : Z) (n : nat) : list Service.Event :=
  match n with
  | O => []
  | S m =>
      Service.Attempt node (from + 1)
      :: match m with
         | O => []
         | S _ => Service.Wait (1000 * (from + 1)) :: failedAttempts node (from + 1) m
         end
  end.

Definition attemptsOn (node : string) (events : list Service.Event) : list Z :=
  omap (fun e => match e with
                 | Service.Attempt n k => if String.eqb n node then Some k else None
                 | _ => None
                 end) events.

End Spec.

(** ** A concrete runtime and concrete workflows *)

Module Sample.

Import Executor.

Definition isSpace (c : ascii) : bool :=
  let n := Ascii.nat_of_ascii c in
  (n =? 32)%nat || ((9 <=? n)%nat && (n <=? 13)%nat).

Definition isDigit (c : ascii) : bool :=
  let n := Ascii.nat_of_ascii c in (48 <=? n)%nat && (n <=? 57)%nat.

Fixpoint chars (s : string) : list ascii :=
  match s with
  | EmptyString => []
  | String c r => c :: chars r
  end.

(** the part before the first occurrence of [c] and the part after it *)
Fixpoint splitAt (c : ascii) (s : string) : option (string * string) :=
  match s with
  | EmptyString => None
  | String a r =>
      if Ascii.eqb a c then Some (EmptyString, r)
      else match splitAt c r with
           | Some (x, y) => Some (String a x, y)
           | None => None
           end
  end.

Definition plainPart (s : string) : bool :=
  negb (String.eqb s "")
  && forallb (fun c => negb (isSpace c) && negb (Ascii.eqb c "@"%char)) (chars s).

(** does some dot of [s] have a non-empty part on both sides *)
Fixpoint innerDot (seen : bool) (s : string) : bool :=
  match s with
  | EmptyString => false
  | String c r =>
      (seen && Ascii.eqb c "."%char && negb (String.eqb r "")) || innerDot true r
  end.

(** [/^[^\s@]+@[^\s@]+\.[^\s@]+$/] on ASCII text *)
Definition emailLike (s : string) : bool :=
  match splitAt "@"%char s with
  | Some (user, rest) => plainPart user && plainPart rest && innerDot false rest
  | None => false
  end.

(** [/^\+?[\d\s\-()]+$/] on ASCII text *)
Definition phoneLike (s : string) : bool :=
  let body := match s with
              | String "+"%char r => r
              | _ => s
              end in
  negb (String.eqb body "")
  && forallb (fun c => isDigit c || isSpace c || Ascii.eqb c "-"%char
                       || Ascii.eqb c "("%char || Ascii.eqb c ")"%char)
       (chars body).

(** [xs] up to the first [c] *)
Fixpoint upTo (c : ascii) (s : string) : string :=
  match s with
  | EmptyString => EmptyString
  | String a r => if Ascii.eqb a c then EmptyString else String a (upTo c r)
  end.

(** [xs] through the first [c] *)
Fixpoint through (c : ascii) (s : string) : string :=
  match s with
  | EmptyString => EmptyString
  | String a r => if Ascii.eqb a c then String a EmptyString else String a (through c r)
  end.

(** [new URL(url)] on URLs of the shape [scheme://host/path] and
    [scheme://host:port/path]; a host in square brackets is an IPv6 literal
    and [hostname] keeps the brackets. *)
Definition basicParseUrl (url : string) : option Url :=
  match splitAt ":"%char url with
  | Some (scheme, String "/"%char (String "/"%char rest)) =>
      let authority := upTo "/"%char rest in
      let host :=
        match authority with
        | String "["%char _ => through "]"%char authority
        | _ => upTo ":"%char authority
        end in
      if String.eqb host "" then None
      else Some (mkUrl (scheme +:+ ":") (toLowerCase host))
  | _ => None
  end.

Definition numberOf (v : JsValue) : option Z :=
  match v with
  | JNum z => Some z
  | JBool true => Some 1%Z
  | JBool false | JNull => Some 0%Z
  | _ => None
  end.

(** A runtime for closed examples.  Its [interpolateVariables] is the
    identity, which is what the real one is on text without placeholders;
    its external services answer with empty results. *)
#[local] Instance runtime : Runtime := {|
  numberLt a b :=
    match numberOf a, numberOf b with
    | Some x, Some y => (x <? y)%Z
    | _, _ => false
    end;
  regexTest pattern input :=
    if String.eqb pattern emailPattern then Some (emailLike input)
    else if String.eqb pattern phonePattern then Some (phoneLike input)
    else None;
  parseUrl := basicParseUrl;
  interpolateVariables text _ := text;
  fetchJson _ _ _ := {[ "apiSuccess" := JBool true ]};
  external _ _ _ _ := mkEffect [] (Ok ∅);
  executors _ _ _ _ := mkSettled (Ok (mkResult true None None true)) 1
|}.

Definition object (fields : list (string * JsValue)) : JsValue :=
  JObj (list_to_map fields).

Definition emptyWorld : World :=
  mkWorld ∅ ∅ ∅ ∅ [] [] [] 0.

Definition withWorkflow (id : string) (wf : Workflow) (w : World) : World :=
  mkWorld (redisState w) (redisLocks w)
    (<[id := mkRow wf true false]> (workflowTable w))
    (executionTable w) (messageTable w) (fetched w) (dispatched w) (counter w).

(** A -> B -> A, both setting a variable, no condition on either edge. *)
Definition cycle : Workflow :=
  mkWorkflow
    [ mkNode "A" "ACTION_SET_VARIABLE"
        (object [("variableName", JStr "seen"); ("value", JStr "yes")]) "first";
      mkNode "B" "ACTION_SET_VARIABLE"
        (object [("variableName", JStr "seen"); ("value", JStr "yes")]) "second" ]
    [ mkEdge "e1" "A" "B" JNull; mkEdge "e2" "B" "A" JNull ]
    [].

(** One API call to a loopback address. *)
Definition loopbackCall : Workflow :=
  mkWorkflow
    [ mkNode "call" "ACTION_API_CALL"
        (object [("url", JStr "http://127.0.0.1/admin")]) "call admin" ]
    [] [].

(** A node of a type the persisted engine has no case for, followed by a
    node that sets a variable. *)
Definition delayThenSet : Workflow :=
  mkWorkflow
    [ mkNode "X" "ACTION_DELAY" (object [("duration", JNum 1000)]) "delay";
      mkNode "Y" "ACTION_SET_VARIABLE"
        (object [("variableName", JStr "reached"); ("value", JStr "yes")]) "set" ]
    [ mkEdge "e1" "X" "Y" JNull ]
    [].

(** A prompt for an e-mail address, waiting with validation. *)
Definition askEmail : Workflow :=
  mkWorkflow
    [ mkNode "ask" "ACTION_WAIT_FOR_INPUT"
        (object [("prompt", JStr "Your e-mail?"); ("inputType", JStr "email")]) "ask";
      mkNode "thanks" "ACTION_MESSAGE" (object [("message", JStr "Thanks")]) "thanks" ]
    [ mkEdge "e1" "ask" "thanks" JNull ]
    [].

Definition waitingContext : ConversationExecutionContext :=
  mkContext "c1" "wf" "exec-0" (Some "ask") ∅ true (Some "email")
    (Some (mkValidation (Some "email") None None)) askEmail.

Definition waitingWorld : World :=
  mkWorld {[ "c1" := waitingContext ]} ∅ {[ "wf" := mkRow askEmail true false ]}
    {[ "exec-0" := mkExecution RUNNING None [] ]} [("c1", "Your e-mail?")] []
    [("c1", "ask")] 1.

Definition freshRun : Service.Run := Service.mkRun ∅ None RUNNING [] 0.

(** One node with three outgoing edges: a guarded one, then two plain ones. *)
Definition planGuard : JsValue :=
  object [("field", JStr "plan"); ("operator", JStr "equals"); ("value", JStr "pro")].

Definition branching : Workflow :=
  mkWorkflow
    [ mkNode "start" "ACTION_SET_VARIABLE"
        (object [("variableName", JStr "greeted"); ("value", JStr "yes")]) "start";
      mkNode "pro" "ACTION_MESSAGE" (object [("message", JStr "pro")]) "pro";
      mkNode "basic" "ACTION_MESSAGE" (object [("message", JStr "basic")]) "basic";
      mkNode "other" "ACTION_MESSAGE" (object [("message", JStr "other")]) "other" ]
    [ mkEdge "e1" "start" "pro" planGuard;
      mkEdge "e2" "start" "basic" JNull;
      mkEdge "e3" "start" "other" JNull ]
    [].

Definition startNode : Node :=
  mkNode "start" "ACTION_SET_VARIABLE"
    (object [("variableName", JStr "greeted"); ("value", JStr "yes")]) "start".


(** a guard whose operator the persisted evaluator has no case for *)
Definition matchesGuard : JsValue :=
  object [("field", JStr "plan"); ("operator", JStr "matches"); ("value", JStr "^p")].

(** the stores holding one running context and its execution row *)
Definition worldOf (context : ConversationExecutionContext) : World :=
  mkWorld {[ conversationId context := context ]} ∅ ∅
    {[ executionId context := mkExecution RUNNING None [] ]} [] [] [] 1.


Definition lastStep : ConversationExecutionContext :=
  mkContext "c1" "wf" "exec-0" (Some "Y") ∅ false None None delayThenSet.

Definition askNode : Node :=
  mkNode "ask" "ACTION_WAIT_FOR_INPUT"
    (object [("prompt", JStr "Your e-mail?"); ("inputType", JStr "email")]) "ask".

Definition asking : ConversationExecutionContext :=
  mkContext "c1" "wf" "exec-0" (Some "ask") ∅ false None None askEmail.

End Sample.

(** ** The rest of the state manager and of the loop detector *)

Module StateManager.

Import Executor.

(** [WorkflowStateManager.hasContext(conversationId)]:
    [redis.exists(key) === 1] *)
Definition hasContext (id : string) : M bool :=
  gets (fun w => bool_decide (is_Some (redisState w !! id))).

(** [WorkflowStateManager.getActiveConversations()]: the keys that SCAN
    finds under the state prefix, with the prefix removed; SCAN promises no
    order *)
Definition getActiveConversations : M (list string) :=
  gets (fun w => (map_to_list (redisState w)).*1).

End StateManager.

Module Guard.

Import LoopDetector.

(** [reset()] at time [now] *)
Definition reset (d : Detector) (now : Z) : Detector :=
  {| visits := ∅;
     maxVisitsPerNode := maxVisitsPerNode d;
     maxTotalNodes := maxTotalNodes d;
     startTime := now;
     maxExecutionTime := maxExecutionTime d |}.

(** Calls of [visitNode], each at its own time, up to the first one that
    throws; the number of calls that returned is reported with the result. *)
Fixpoint replay (d : Detector) (calls : list (string * Z)) (done : nat)
  : Result unit * nat * Detector :=
  match calls with
  | [] => (Ok (), done, d)
  | (id, now) :: rest =>
      match visitNode d id now with
      | (Ok _, d') => replay d' rest (S done)
      | (r, d') => (r, done, d')
      end
  end.

(** the sum of the visit counts the detector holds *)
Definition visitsMade (d : Detector) : Z :=
  map_fold (fun _ v acc => (count v + acc)%Z) 0%Z (visits d).

End Guard.

(** ** services/chat.service: the workflow step of sendMessage *)

Module Chat.

Import Executor.

(** what sendMessage reads of the conversation row *)
Record Conversation : Type := mkConversation {
  conversation_id : string;
  agentWorkflowId : option string;           (* conversation.agent?.workflowId *)
  visitorName : JsValue;
  visitorEmail : JsValue;
  source : JsValue
}.

(** how the workflow step of sendMessage ends *)
Inductive Disposition : Type :=
  | Replied (content : string)     (* the workflow's reply is stored and returned *)
  | HandledByWorkflow              (* no AI response is generated *)
  | NotHandled.                    (* sendMessage goes on to the AI response *)

Section Engine.
Context `{rt : Runtime}.

(** The block of sendMessage from [Check if workflow is handling this
    message] to the two [return]s that follow it. *)
Definition workflowStep (fuel : nat) (conversation : Conversation)
    (content : string) (currentPageUrl : JsValue) (isUserMessage : bool)
  : M Disposition :=
  match agentWorkflowId conversation with
  | Some workflowId =>
      if isUserMessage && negb (String.eqb workflowId "") then
        let metadata := JObj {[ "currentPageUrl" := currentPageUrl ]} in
        let! first :=
          handleMessageInWorkflow fuel (conversation_id conversation) content metadata in
        let! workflowResult :=
          match first with
          | None =>
              tryCatch
                (initializeWorkflowForConversation fuel (conversation_id conversation)
                   workflowId
                   (Some (<["visitorName" := visitorName conversation]>
                            (<["visitorEmail" := visitorEmail conversation]>
                               (<["source" := source conversation]>
                                  {[ "recoveryMode" := JBool true ]})))) ;;;
                 handleMessageInWorkflow fuel (conversation_id conversation) content
                   metadata)
                (fun _ => ret None)
          | Some _ => ret first
          end in
        match workflowResult with
        | Some result =>
            if shouldRespond result then
              ret (Replied (orText (response result) "Error processing your request"))
            else if continueWorkflow result then ret HandledByWorkflow
            else ret NotHandled
        | None => ret NotHandled
        end
      else ret NotHandled
  | None => ret NotHandled
  end.

End Engine.

End Chat.

(** ** The conversions of JavaScript that can throw *)

Module Strict.

Import Executor.

(** [TypeError: Cannot convert object to primitive value] *)
Definition cannotConvert : Error :=
  mkError "TypeError" "Cannot convert object to primitive value".

(** [String(v)], [Number(v)] and the use of [v] as a property key return.
    They throw for an object with an own [toString] property: in JSON data
    the property holds no function, and the [valueOf] that the conversion
    falls back on is shadowed too or returns the object itself.  An array
    converts by [join], which converts its elements, [null] and
    [undefined] apart. *)
Fixpoint convertible (v : JsValue) : bool :=
  match v with
  | JObj fields =>
      match fields !! "toString" with
      | Some _ => false
      | None => true
      end
  | JArr xs => forallb convertible xs
  | _ => true
  end.

(** the names every object inherits from [Object.prototype] *)
Definition objectPrototypeNames : list string :=
  [ "constructor"; "hasOwnProperty"; "isPrototypeOf"; "propertyIsEnumerable";
    "toLocaleString"; "toString"; "valueOf"; "__proto__";
    "__defineGetter__"; "__defineSetter__"; "__lookupGetter__"; "__lookupSetter__" ].

(** [variables[key]] is inherited: [variables] has no such property of its
    own and the name is one of [Object.prototype] *)
Definition inherits (variables : Vars) (key : string) : bool :=
  match variables !! key with
  | Some _ => false
  | None => arrayIncludes objectPrototypeNames key
  end.

(** [String(variables[key])] for an inherited name: the text of a native
    function, and of the prototype itself for [__proto__] *)
Definition inheritedText (key : string) : string :=
  if String.eqb key "__proto__" then "[object Object]"
  else
    "function " +:+ (if String.eqb key "constructor" then "Object" else key)
    +:+ "() { [native code] }".

Section Engine.
Context `{rt : Runtime}.

(** [evaluateCondition(condition, variables)] of workflowExecutor.service,
    with the TypeError of [variables[field]], [String(..)] and [Number(..)]
    and with the properties that [variables] inherits: a native function,
    or the prototype, is no JSON value, equals none, is neither [undefined]
    nor [null], and [Number] of it is NaN *)
Definition evaluateCondition (condition : JsValue) (variables : Vars) : Result bool :=
  let field := getProp condition "field" in
  let operator := getProp condition "operator" in
  let value := getProp condition "value" in
  if negb (truthy field) || negb (truthy operator) then Ok true
  else if negb (convertible field) then Throw cannotConvert
  else if inherits variables (toStr field) then
    let converted (b : bool) : Result bool :=
      if convertible value then Ok b else Throw cannotConvert in
    match operator with
    | JStr op =>
        if String.eqb op "equals" then Ok false
        else if String.eqb op "notEquals" then Ok true
        else if String.eqb op "contains" then
          converted (includes (inheritedText (toStr field)) (toStr value))
        else if String.eqb op "notContains" then
          converted (negb (includes (inheritedText (toStr field)) (toStr value)))
        else if String.eqb op "greaterThan" then converted false
        else if String.eqb op "lessThan" then converted false
        else if String.eqb op "exists" then Ok true
        else if String.eqb op "notExists" then Ok false
        else Ok true
    | _ => Ok true
    end
  else
    let fieldValue := getVar variables field in
    let converted (b : bool) : Result bool :=
      if convertible fieldValue && convertible value then Ok b
      else Throw cannotConvert in
    match operator with
    | JStr op =>
        if String.eqb op "equals" then Ok (strictEq fieldValue value)
        else if String.eqb op "notEquals" then Ok (negb (strictEq fieldValue value))
        else if String.eqb op "contains" then
          converted (includes (toStr fieldValue) (toStr value))
        else if String.eqb op "notContains" then
          converted (negb (includes (toStr fieldValue) (toStr value)))
        else if String.eqb op "greaterThan" then converted (numberLt value fieldValue)
        else if String.eqb op "lessThan" then converted (numberLt fieldValue value)
        else if String.eqb op "exists" then Ok (negb (isNullish fieldValue))
        else if String.eqb op "notExists" then Ok (isNullish fieldValue)
        else Ok true
    | _ => Ok true
    end.

(** the [for (const edge of outgoingEdges)] loop of findNextNode *)
Fixpoint firstMatch (outgoingEdges : list Edge) (variables : Vars)
  : Result (option string) :=
  match outgoingEdges with
  | [] => Ok None
  | edge :: rest =>
      if truthy (condition edge) then
        match evaluateCondition (condition edge) variables with
        | Ok true => Ok (Some (targetNodeId edge))
        | Ok false => firstMatch rest variables
        | Throw e => Throw e
        | Pending => Pending
        end
      else Ok (Some (targetNodeId edge))
  end.

(** [findNextNode(currentNode, context)] *)
Definition findNextNode (currentNode : Node) (context : ConversationExecutionContext)
  : Result (option string) :=
  let outgoingEdges := outgoingEdgesOf (workflow context) (node_id currentNode) in
  if (length outgoingEdges =? 0)%nat then Ok None
  else firstMatch outgoingEdges (variables context).

End Engine.

End Strict.

(** ** lib/redisLock with the expiry of its key and the waits of withLock *)

Module TimedLock.

(** what Redis holds under a key: the value and the time, in ms, at which
    the key expires *)
Record Entry : Type := mkEntry { value : string; expiresAt : Z }.

(** Redis, the clock, the source of [nanoid()], and how long each of the
    coming [await]s takes beyond its nominal time: the round trip of a
    command, the lateness of a timer *)
Record Redis : Type := mkRedis {
  entries : gmap string Entry;
  clock : Z;
  tokens : nat;
  lags : list Z
}.

Abbreviation M := (St Redis).

Definition setEntries (s : Redis) (e : gmap string Entry) : Redis :=
  mkRedis e (clock s) (tokens s) (lags s).

(** time passes *)
Definition elapse (ms : Z) (s : Redis) : Redis :=
  mkRedis (entries s) (clock s + Z.max 0 ms) (tokens s) (lags s).

(** an [await]: its lag elapses *)
Definition reach (s : Redis) : Redis :=
  match lags s with
  | [] => s
  | lag :: rest => mkRedis (entries s) (clock s + Z.max 0 lag) (tokens s) rest
  end.

(** [GET key]: a key whose time has come is gone *)
Definition get (key : string) (s : Redis) : option string :=
  match entries s !! key with
  | Some e => if (clock s <? expiresAt e)%Z then Some (value e) else None
  | None => None
  end.

(** a RedisLock object *)
Record Lock : Type := mkLock { lockKey : string; lockValue : string; ttl : Z }.

(** [new RedisLock(resource, ttlSeconds)] *)
Definition create (resource : string) (ttlSeconds : Z) : M Lock :=
  fun s =>
    (Ok (mkLock ("lock:" +:+ resource) ("token-" +:+ pretty (tokens s)) ttlSeconds),
     mkRedis (entries s) (clock s) (S (tokens s)) (lags s)).

(** [acquire()]: [SET key value EX ttl NX].  Redis refuses a ttl that is
    not positive; the [catch] of acquire turns the error into [false]. *)
Definition acquire (lock : Lock) : M bool :=
  fun s =>
    let s := reach s in
    if (ttl lock <=? 0)%Z then (Ok false, s)
    else
      match get (lockKey lock) s with
      | Some _ => (Ok false, s)
      | None =>
          (Ok true,
           setEntries s
             (<[lockKey lock := mkEntry (lockValue lock) (clock s + 1000 * ttl lock)]>
                (entries s)))
      end.

(** [release()]: the script deletes the key if it holds our value *)
Definition release (lock : Lock) : M unit :=
  fun s =>
    let s := reach s in
    match get (lockKey lock) s with
    | Some v =>
        if String.eqb v (lockValue lock)
        then (Ok (), setEntries s (delete (lockKey lock) (entries s)))
        else (Ok (), s)
    | None => (Ok (), s)
    end.

(** [extend(additionalSeconds)]: the script sets the key's time to live to
    [ttl + additionalSeconds] if it holds our value ([EXPIRE] with a time
    that is not positive deletes the key); the object then remembers the
    new ttl *)
Definition extend (lock : Lock) (additionalSeconds : Z) : M (bool * Lock) :=
  fun s =>
    let s := reach s in
    let newTTL := (ttl lock + additionalSeconds)%Z in
    match get (lockKey lock) s with
    | Some v =>
        if String.eqb v (lockValue lock) then
          (Ok (true, mkLock (lockKey lock) (lockValue lock) newTTL),
           setEntries s
             (if (newTTL <=? 0)%Z then delete (lockKey lock) (entries s)
              else <[lockKey lock := mkEntry v (clock s + 1000 * newTTL)]> (entries s)))
        else (Ok (false, lock), s)
    | None => (Ok (false, lock), s)
    end.

(** [await new Promise(resolve => setTimeout(resolve, ms))] *)
Definition sleep (ms : Z) : M unit := modify (fun s => elapse ms (reach s)).

(** the [options] of withLock; a field that is not given is [None] *)
Record Options : Type := mkOptions {
  o_ttl : option Z;
  o_waitMs : option Z;
  o_retries : option Z
}.

(** the loop [for (let i = 0; i < retries; i++)] of withLock from its round
    [i] on, with [rounds] rounds to go *)
Fixpoint acquireLoop (lock : Lock) (waitMs retries : Z) (rounds : nat) (i : Z) : M bool :=
  match rounds with
  | O => ret false
  | S rest =>
      let! acquired := acquire lock in
      if acquired : bool then ret true                 (* break *)
      else
        (if (i <? retries - 1)%Z then sleep (waitMs * (i + 1)) else ret ()) ;;;
        acquireLoop lock waitMs retries rest (i + 1)
  end.

(** [RedisLock.withLock(resource, fn, options)], with
    [{ ttl = 30, waitMs = 100, retries = 3 } = options]; the [finally] runs
    when [fn] has settled *)
Definition withLock {A} (resource : string) (fn : M A) (options : Options) : M A :=
  let ttl := default 30%Z (o_ttl options) in
  let waitMs := default 100%Z (o_waitMs options) in
  let retries := default 3%Z (o_retries options) in
  let! lock := create resource ttl in
  let! acquired := acquireLoop lock waitMs retries (Z.to_nat retries) 0 in
  if acquired : bool then
    fun s =>
      match fn s with
      | (Pending, s') => (Pending, s')
      | (r, s') => (r, snd (release lock s'))
      end
  else throw (plainError ("Failed to acquire lock for resource: " +:+ resource)).

End TimedLock.

(** ** Vocabulary of the further statements *)

Module Survey.

Import Executor.

Section Engine.
Context `{rt : Runtime}.

(** the body of the [try] of validateApiUrl: the error it throws, if any *)
Definition validateApiUrlTry (url : string) : option Error :=
  match parseUrl url with
  | None => Some (mkError "TypeError" "Invalid URL")
  | Some parsed =>
      if arrayIncludes blockedHosts (toLowerCase (hostname parsed)) then
        Some (plainError "Cannot call localhost or internal addresses")
      else if startsWith (hostname parsed) "192.168."
              || startsWith (hostname parsed) "10."
              || private172 (hostname parsed)
              || startsWith (hostname parsed) "169.254." then
        Some (plainError "Cannot call private networks")
      else if negb (arrayIncludes ["http:"; "https:"] (protocol parsed)) then
        Some (plainError "Only HTTP(S) URLs allowed")
      else None
  end.

(** the [catch] of validateApiUrl: the error it throws for the one caught *)
Definition validateApiUrlCatch (error : Error) : Error :=
  if startsWith (message error) "Cannot" then error
  else plainError "Invalid URL format".

(** [w'] differs from [w] only in what belongs to one conversation and its
    execution: its context, its execution row, dispatches and messages
    appended for it, and fetched URLs, each of which passed validateApiUrl. *)
Definition touchesOnly (conversation execution : string) (w w' : World) : Prop :=
  (forall c, c <> conversation -> redisState w' !! c = redisState w !! c)
  /\ redisLocks w' = redisLocks w
  /\ workflowTable w' = workflowTable w
  /\ counter w' = counter w
  /\ (forall e, e <> execution -> executionTable w' !! e = executionTable w !! e)
  /\ (forall e, is_Some (executionTable w !! e) -> is_Some (executionTable w' !! e))
  /\ (exists ids, dispatched w' = dispatched w ++ map (pair conversation) ids)
  /\ (exists texts, messageTable w' = messageTable w ++ map (pair conversation) texts)
  /\ (exists urls, fetched w' = fetched w ++ urls
                   /\ Forall (fun u => validateApiUrl u = None) urls).

(** [w'] differs from [w] only in what belongs to one conversation, in the
    execution rows, of which none is removed, in the locks and in the
    source of fresh ids. *)
Definition confined (conversation : string) (w w' : World) : Prop :=
  (forall c, c <> conversation -> redisState w' !! c = redisState w !! c)
  /\ workflowTable w' = workflowTable w
  /\ (forall e, is_Some (executionTable w !! e) -> is_Some (executionTable w' !! e))
  /\ (exists ids, dispatched w' = dispatched w ++ map (pair conversation) ids)
  /\ (exists texts, messageTable w' = messageTable w ++ map (pair conversation) texts)
  /\ (exists urls, fetched w' = fetched w ++ urls
                   /\ Forall (fun u => validateApiUrl u = None) urls).

(** the router gets as far as [edge]: each of the outgoing edges before it
    carries a condition, and the condition evaluates to false *)
Definition reaches (currentNode : Node) (context : ConversationExecutionContext)
    (edge : Edge) : Prop :=
  exists before after,
    outgoingEdgesOf (workflow context) (node_id currentNode) = before ++ edge :: after
    /\ Forall (fun e => truthy (condition e) = true
                        /\ Strict.evaluateCondition (condition e) (variables context)
                           = Ok false) before.

(** the handler of the node returns at once and leaves the context as it
    was: nothing but its dispatch is recorded *)
Definition returnsAtOnce (node : Node) : Prop :=
  forall (context : ConversationExecutionContext) (w : World),
    exists result,
      executeNode node context w
      = (Ok (result, context),
         setDispatched w (dispatched w ++ [(conversationId context, node_id node)])).

(** the stores after a series of visitor messages, each with its metadata,
    handed to handleMessageInWorkflow one after the other *)
Fixpoint deliverAll (fuel : nat) (conversation : string)
    (messages : list (string * JsValue)) (w : World) : World :=
  match messages with
  | [] => w
  | (message, messageMetadata) :: rest =>
      deliverAll fuel conversation rest
        (Spec.perform fuel (Spec.InboundMessage conversation message messageMetadata) w)
  end.

End Engine.

(** [b] is a context of the run of [a]: same conversation, workflow and
    execution, and the same expected validation *)
Definition sameRun (a b : ConversationExecutionContext) : Prop :=
  conversationId b = conversationId a
  /\ workflowId b = workflowId a
  /\ executionId b = executionId a
  /\ workflow b = workflow a
  /\ expectedInputValidation b = expectedInputValidation a.

(** every context in Redis, with the conversation it is stored for *)
Definition everyContext (P : string -> ConversationExecutionContext -> Prop)
    (w : World) : Prop :=
  forall conversation context,
    redisState w !! conversation = Some context -> P conversation context.

(** every context in Redis is stored for its own conversation *)
Definition wellKeyed (w : World) : Prop :=
  everyContext (fun conversation context => conversationId context = conversation) w.

(** no context in Redis asks for its input to be validated *)
Definition noValidationAsked (w : World) : Prop :=
  forall conversation context,
    redisState w !! conversation = Some context ->
    expectedInputValidation context = None.

(** the nodes whose handler asks to wait whatever the variables hold *)
Definition alwaysWaits (node : Node) : bool :=
  String.eqb (node_type node) "TRIGGER_USER_INPUT"
  || String.eqb (node_type node) "ACTION_WAIT_FOR_INPUT"
  || (String.eqb (node_type node) "ACTION_MESSAGE"
      && strictEq (getProp (node_config node) "waitForResponse") (JBool true)).

(** the nodes whose handler calls nothing that can throw or wait: a
    CONDITION_VARIABLE with a config (not [null]) whose [variable] converts
    to a property key, and the types without a case *)
Definition inert (node : Node) : bool :=
  (String.eqb (node_type node) "CONDITION_VARIABLE"
   && negb (isNullish (node_config node))
   && Strict.convertible (orElse (getProp (node_config node) "variable") (JStr "")))
  || negb (arrayIncludes recognizedTypes (node_type node)).

(** [region] is a set of nodes of the workflow that a run cannot leave:
    the first outgoing edge of each of them carries no condition and leads
    to a node of the set. *)
Definition closedRegion (wf : Workflow) (region : Node -> Prop) : Prop :=
  forall node, region node ->
    node_id node <> ""
    /\ findNode wf (node_id node) = Some node
    /\ exists edge rest next,
         outgoingEdgesOf wf (node_id node) = edge :: rest
         /\ truthy (condition edge) = false
         /\ targetNodeId edge = node_id next
         /\ region next.

(** the first [n] nodes on the way that starts at [id] and follows the
    first outgoing edge of each node *)
Fixpoint firstEdgePath (wf : Workflow) (id : string) (n : nat) : list string :=
  match n with
  | O => []
  | S m =>
      id :: match outgoingEdgesOf wf id with
            | edge :: _ => firstEdgePath wf (targetNodeId edge) m
            | [] => []
            end
  end.

(** a set of nodes that a run cannot leave and whose handlers are inert *)
Definition inertRegion (wf : Workflow) (region : Node -> Prop) : Prop :=
  closedRegion wf region /\ forall node, region node -> inert node = true.

(** the time the lags to come take together *)
Definition pendingLags (s : TimedLock.Redis) : Z :=
  foldr (fun lag rest => (Z.max 0 lag + rest)%Z) 0%Z (TimedLock.lags s).

(** the time the waits of [TimedLock.acquireLoop] take when every round is
    refused *)
Fixpoint sleepsFrom (waitMs retries : Z) (rounds : nat) (i : Z) : Z :=
  match rounds with
  | O => 0
  | S rest =>
      (if (i <? retries - 1)%Z then Z.max 0 (waitMs * (i + 1)) else 0)
      + sleepsFrom waitMs retries rest (i + 1)
  end.

(** the same from the first round on, for given options *)
Definition sleeps (options : TimedLock.Options) : Z :=
  let retries := default 3%Z (TimedLock.o_retries options) in
  sleepsFrom (default 100%Z (TimedLock.o_waitMs options)) retries (Z.to_nat retries) 0.

(** [typeof v !== 'object'] or [v === null]: getVariableValue does not look
    into such a value *)
Definition primitive (v : JsValue) : bool :=
  match v with
  | JArr _ | JObj _ => false
  | _ => true
  end.


(** no [.] in the text *)
Fixpoint dotFree (s : string) : bool :=
  match s with
  | EmptyString => true
  | String c rest => negb (Ascii.eqb c "."%char) && dotFree rest
  end.

(** the operators that the two evaluateCondition functions both implement *)
Definition sharedOperators : list string :=
  [ "equals"; "notEquals"; "contains"; "greaterThan"; "lessThan"; "exists" ].

(** the most visits of one node that the detector lets return *)
Definition visitsAllowed (d : LoopDetector.Detector) : Z :=
  Z.max 1 (LoopDetector.maxVisitsPerNode d).

(** the events of [n] attempts on [node] in a row, the first one numbered
    [from + 1], with the back-off wait after each of them but the last *)
Definition attemptsInARow (node : string) (from : Z) (n : nat)
  : list Service.Event :=
  Spec.failedAttempts node from n.

(** every node of the workflow is the target of some edge *)
Definition allTargeted (wf : Workflow) : Prop :=
  forall node, In node (nodes wf) ->
    exists edge, In edge (edges wf) /\ targetNodeId edge = node_id node.

End Survey.

(** ** Further concrete workflows *)

Module Cases.

Import Executor.

(** S -> A -> B -> A: an entry node that leads into a cycle *)
Definition leadIn : Workflow :=
  mkWorkflow
    [ mkNode "S" "CONDITION_VARIABLE" (Sample.object [("variable", JStr "vip")]) "check";
      mkNode "A" "ACTION_SET_VARIABLE"
        (Sample.object [("variableName", JStr "seen"); ("value", JStr "yes")]) "first";
      mkNode "B" "ACTION_DELAY" (Sample.object [("duration", JNum 1000)]) "pause" ]
    [ mkEdge "e0" "S" "A" JNull; mkEdge "e1" "A" "B" JNull; mkEdge "e2" "B" "A" JNull ]
    [].

(** a context that is not waiting, as a failed burst leaves it *)
Definition stale : ConversationExecutionContext :=
  mkContext "c1" "wf" "exec-0" (Some "call") ∅ false None None Sample.loopbackCall.

(** a prompt for free text *)
Definition askName : Workflow :=
  mkWorkflow
    [ mkNode "name" "TRIGGER_USER_INPUT" (Sample.object [("prompt", JStr "Your name?")])
        "name";
      mkNode "bye" "ACTION_MESSAGE" (Sample.object [("message", JStr "Bye")]) "bye" ]
    [ mkEdge "e1" "name" "bye" JNull ]
    [].

Definition waitingForName : ConversationExecutionContext :=
  mkContext "c1" "wf" "exec-0" (Some "name") ∅ true None None askName.





(** a conversation of an agent with a workflow *)
Definition visitor : Chat.Conversation :=
  Chat.mkConversation "c1" (Some "wf") JNull JNull (JStr "widget").

(** Sample.runtime with executors that reject the first two calls of a run
    and answer every later one *)
Definition flaky : Runtime := {|
  numberLt := @numberLt Sample.runtime;
  regexTest := @regexTest Sample.runtime;
  parseUrl := @parseUrl Sample.runtime;
  interpolateVariables := @interpolateVariables Sample.runtime;
  fetchJson := @fetchJson Sample.runtime;
  external := @external Sample.runtime;
  executors _ _ _ call :=
    if (call <? 2)%nat
    then mkSettled (Throw (workflowError "upstream unavailable")) 1
    else mkSettled (Ok (mkResult true (Some {[ "answer" := JNum 42 ]}) None true)) 1
|}.

(** S -> P -> Q -> P: an entry node that leads into a cycle of nodes whose
    types the persisted engine has no case for *)
Definition idle : Workflow :=
  mkWorkflow
    [ mkNode "S" "CONDITION_VARIABLE" (Sample.object [("variable", JStr "vip")]) "check";
      mkNode "P" "ACTION_DELAY" (Sample.object [("duration", JNum 1000)]) "pause";
      mkNode "Q" "FLOW_LOOP" (Sample.object []) "again" ]
    [ mkEdge "e0" "S" "P" JNull; mkEdge "e1" "P" "Q" JNull; mkEdge "e2" "Q" "P" JNull ]
    [].

(** a guard with an operator the persisted evaluator does not implement,
    on a field that does not convert to a property key *)
Definition shadowed : JsValue :=
  Sample.object
    [("field", Sample.object [("toString", JNum 1)]); ("operator", JStr "matches")].

(** one node whose only outgoing edge carries that guard *)
Definition guarded : Workflow :=
  mkWorkflow
    [ Sample.startNode;
      mkNode "pro" "ACTION_MESSAGE" (Sample.object [("message", JStr "pro")]) "pro" ]
    [ mkEdge "e1" "start" "pro" shadowed ]
    [].

Definition guardedContext : ConversationExecutionContext :=
  mkContext "c1" "wf" "exec-0" (Some "start") {[ "plan" := JStr "free" ]}
    false None None guarded.

(** A call of a status API that is retried three times, and the message
    that follows it. *)
Definition statusConfig (continueOnError : bool) : JsValue :=
  Sample.object
    [("url", JStr "https://status.example.com/health"); ("method", JStr "GET");
     ("retryOnError", JBool true); ("maxRetries", JNum 3);
     ("continueOnError", JBool continueOnError)].

Definition statusNode (continueOnError : bool) : Node :=
  mkNode "N" "ACTION_API_CALL" (statusConfig continueOnError) "call".

Definition statusCheck (continueOnError : bool) : Workflow :=
  mkWorkflow
    [ statusNode continueOnError;
      mkNode "after" "ACTION_MESSAGE"
        (Sample.object [("message", JStr "We will get back to you")]) "after" ]
    [ mkEdge "e1" "N" "after" JNull ]
    [].

(** what executeActionMessage returns for a run without conversation *)
Definition messageInTestMode (config : JsValue) : NodeExecutionResult :=
  mkResult true
    (Some (<["messageSent" := JBool false]>
             (<["message" := getProp config "message"]>
                {[ "testMode" := JBool true ]})))
    None true.

(** Sample.runtime with an API that cannot be reached: [fetch] rejects, and
    so does the executor of ACTION_API_CALL; messages are not sent (the run
    has no conversation) *)
Definition apiDown : Runtime := {|
  numberLt := @numberLt Sample.runtime;
  regexTest := @regexTest Sample.runtime;
  parseUrl := @parseUrl Sample.runtime;
  interpolateVariables := @interpolateVariables Sample.runtime;
  fetchJson := @fetchJson Sample.runtime;
  external := @external Sample.runtime;
  executors type config _ _ :=
    if String.eqb type "ACTION_API_CALL"
    then mkSettled (Throw (mkError "TypeError" "fetch failed")) 1
    else mkSettled (Ok (messageInTestMode config)) 1
|}.

(** Sample.runtime with an API that answers 500: the executor of
    ACTION_API_CALL returns [{success: false, data, shouldContinue: false}],
    as executeActionApiCall does for a response that is not ok *)
Definition apiRefuses : Runtime := {|
  numberLt := @numberLt Sample.runtime;
  regexTest := @regexTest Sample.runtime;
  parseUrl := @parseUrl Sample.runtime;
  interpolateVariables := @interpolateVariables Sample.runtime;
  fetchJson := @fetchJson Sample.runtime;
  external := @external Sample.runtime;
  executors type config _ _ :=
    if String.eqb type "ACTION_API_CALL"
    then mkSettled
           (Ok (mkResult false
                  (Some (<["apiCallCompleted" := JBool true]>
                           (<["statusCode" := JNum 500]>
                              {[ "response" := JStr "Internal Server Error" ]})))
                  None false)) 1
    else mkSettled (Ok (messageInTestMode config)) 1
|}.

End Cases.

(** * Properties *)

Import Executor Spec.

(** ** Edge routing *)

Section Routing.
Context `{rt : Runtime}.





Lemma findNextNode_firstMatch (node : Node) (context : ConversationExecutionContext) :
  findNextNode node context
  = firstMatch (outgoingEdgesOf (workflow context) (node_id node)) (variables context).
Proof.
  unfold findNextNode.
  destruct (outgoingEdgesOf (workflow context) (node_id node)); reflexivity.
Qed.




End Routing.

(** ** The stores under the node handlers *)

Ltac unfold_monad :=
  unfold bind, ret, modify, gets, throw, pending, tryCatch in *; simpl in *.

Section Handlers.
Context `{rt : Runtime}.

Lemma sendAll_ok (conversation : string) (texts : list string) (w : World) :
  sendAll conversation texts w
  = (Ok (), setMessageTable w (messageTable w ++ map (pair conversation) texts)).
Proof.
  revert w. induction texts as [|t ts IH]; intros w; simpl.
  - unfold ret, setMessageTable. rewrite app_nil_r. by destruct w.
  - unfold bind, sendMessageToUser, modify. rewrite IH. simpl.
    by rewrite <- app_assoc.
Qed.

(** A handler leaves Redis, the execution rows and the id counter alone and
    is recorded as exactly one dispatch. *)
Lemma executeNode_stores (node : Node) (context : ConversationExecutionContext)
    (w : World) :
  let w' := snd (executeNode node context w) in
  redisState w' = redisState w
  /\ redisLocks w' = redisLocks w
  /\ workflowTable w' = workflowTable w
  /\ executionTable w' = executionTable w
  /\ counter w' = counter w
  /\ dispatched w' = dispatched w ++ [(conversationId context, node_id node)].
Proof.
  unfold executeNode.
  repeat match goal with
  | |- context [if String.eqb ?a ?b then _ else _] => destruct (String.eqb a b)
  | |- context [if arrayIncludes ?a ?b then _ else _] => destruct (arrayIncludes a b)
  end;
  unfold executeTriggerUserInput, executeActionMessage, executeActionWaitForInput,
    executeActionApiCall, executeExternal, sendMessageToUser;
  unfold_monad;
  repeat match goal with
  | |- context [sendAll ?c ?t ?w] => rewrite (sendAll_ok c t w); simpl
  | |- context [if ?b then _ else _] => destruct b; simpl
  | |- context [match validateApiUrl ?u with _ => _ end] =>
      destruct (validateApiUrl u); simpl
  | |- context [match returned ?e with _ => _ end] => destruct (returned e); simpl
  end; auto 10.
Qed.

(** A handler changes nothing of the context but the waiting flag and the
    expected input type. *)
Lemma executeNode_context (node : Node) (context context' : ConversationExecutionContext)
    (w w' : World) (result : Vars) :
  executeNode node context w = (Ok (result, context'), w') ->
  conversationId context' = conversationId context
  /\ workflowId context' = workflowId context
  /\ executionId context' = executionId context
  /\ currentNodeId context' = currentNodeId context
  /\ variables context' = variables context
  /\ expectedInputValidation context' = expectedInputValidation context
  /\ workflow context' = workflow context.
Proof.
  unfold executeNode.
  repeat match goal with
  | |- context [if String.eqb ?a ?b then _ else _] => destruct (String.eqb a b)
  | |- context [if arrayIncludes ?a ?b then _ else _] => destruct (arrayIncludes a b)
  end;
  unfold executeTriggerUserInput, executeActionMessage, executeActionWaitForInput,
    executeActionApiCall, executeExternal, sendMessageToUser;
  unfold_monad;
  repeat match goal with
  | |- context [sendAll ?c ?t ?w] => rewrite (sendAll_ok c t w); simpl
  | |- context [if ?b then _ else _] => destruct b; simpl
  | |- context [match validateApiUrl ?u with _ => _ end] =>
      destruct (validateApiUrl u); simpl
  | |- context [match returned ?e with _ => _ end] => destruct (returned e); simpl
  end;
  intros [= <- <- <-] || intros [= <- <-] || intros [=]; auto 10.
Qed.

(** The node types with no [case] fall to [default]: an empty result, the
    context as it was, and nothing but the record of the dispatch. *)
Lemma executeNode_default (node : Node) (context : ConversationExecutionContext)
    (w : World) :
  arrayIncludes recognizedTypes (node_type node) = false ->
  executeNode node context w
  = (Ok (∅, context),
     setDispatched w (dispatched w ++ [(conversationId context, node_id node)])).
Proof.
  unfold recognizedTypes, arrayIncludes. rewrite existsb_app. simpl existsb at 1.
  intros H. rewrite !orb_false_iff in H.
  destruct H as [(H1 & H2 & H3 & H4 & H5 & H6 & _) Hext].
  unfold executeNode, arrayIncludes. rewrite Hext.
  rewrite H1, H2, H3, H4, H5, H6. reflexivity.
Qed.

End Handlers.

(** ** One step of the orchestrator *)

Section Orchestrator.
Context `{rt : Runtime}.

Lemma addExecutionLog_ok (id msg : string) (w : World) :
  addExecutionLog id msg w = (Ok (), snd (addExecutionLog id msg w)).
Proof.
  unfold addExecutionLog, updateExecution.
  destruct (executionTable w !! id); reflexivity.
Qed.

Lemma addExecutionLog_stores (id msg : string) (w : World) :
  let w' := snd (addExecutionLog id msg w) in
  redisState w' = redisState w
  /\ redisLocks w' = redisLocks w
  /\ workflowTable w' = workflowTable w
  /\ messageTable w' = messageTable w
  /\ fetched w' = fetched w
  /\ dispatched w' = dispatched w
  /\ counter w' = counter w
  /\ (forall execution, statusOf w' execution = statusOf w execution).
Proof.
  unfold addExecutionLog, updateExecution, statusOf.
  destruct (executionTable w !! id) as [e|] eqn:He; simpl; repeat split; auto.
  intros execution. destruct (decide (id = execution)) as [->|Hne].
  - by rewrite lookup_insert_eq, He.
  - by rewrite lookup_insert_ne.
Qed.

Lemma noNode_some (id : string) : id <> "" -> noNode (Some id) = false.
Proof. intros H. simpl. by destruct (String.eqb_spec id ""). Qed.

(** The handler asked to wait: the context is saved and the burst returns. *)
Lemma processNextNode_suspends (fuel : nat) (context context' : ConversationExecutionContext)
    (w w2 : World) (id : string) (node : Node) (result : Vars) :
  currentNodeId context = Some id ->
  id <> "" ->
  findNode (workflow context) id = Some node ->
  executeNode node context (announced context node w) = (Ok (result, context'), w2) ->
  waitingForInput context' = true ->
  processNextNode (S fuel) context w
  = (Ok (),
     snd (saveContext (merged result context')
            (snd (addExecutionLog (executionId context') "Waiting for user input" w2)))).
Proof.
  intros Hcur Hne Hfind Hexec Hwait.
  simpl. rewrite Hcur, (noNode_some id Hne). simpl. rewrite Hfind.
  unfold bind at 1. rewrite addExecutionLog_ok.
  unfold tryCatch, bind. fold (announced context node w). rewrite Hexec.
  simpl. rewrite Hwait. rewrite addExecutionLog_ok. reflexivity.
Qed.


(** The handler threw: the error is logged and rethrown; the burst's
    [catch] marks the run FAILED.  Nothing deletes the context. *)
Lemma processNextNode_throws (fuel : nat) (context : ConversationExecutionContext)
    (w w2 : World) (id : string) (node : Node) (e : Error) :
  currentNodeId context = Some id ->
  id <> "" ->
  findNode (workflow context) id = Some node ->
  executeNode node context (announced context node w) = (Throw e, w2) ->
  processNextNode (S fuel) context w
  = (Throw e,
     snd (addExecutionLog (executionId context) ("Error: " +:+ message e) w2)).
Proof.
  intros Hcur Hne Hfind Hexec.
  simpl. rewrite Hcur, (noNode_some id Hne). simpl. rewrite Hfind.
  unfold bind at 1. rewrite addExecutionLog_ok.
  unfold tryCatch, bind. fold (announced context node w). rewrite Hexec.
  rewrite addExecutionLog_ok. reflexivity.
Qed.

End Orchestrator.

(** ** The conversation lock and the resume path *)

Section Resume.
Context `{rt : Runtime}.

Lemma acquireLoop_free (key token : string) (retries : nat) (w : World) :
  redisLocks w !! key = None ->
  acquireLoop key token (S retries) w
  = (Ok true, setRedisLocks w (<[key := token]> (redisLocks w))).
Proof.
  intros Hfree. simpl. unfold bind, acquire. rewrite Hfree. reflexivity.
Qed.

Lemma acquireLoop_held (key token : string) (retries : nat) (w : World) :
  is_Some (redisLocks w !! key) ->
  acquireLoop key token retries w = (Ok false, w).
Proof.
  intros [owner Hheld]. induction retries as [|n IH]; [reflexivity|].
  simpl. unfold bind, acquire. rewrite Hheld. exact IH.
Qed.

(** With the lock free, [withLock] runs [fn] on the stores with the lock
    taken and hands the lock back. *)
Lemma withLock_free {A} (resource : string) (fn : M A) (retries : nat) (w : World) :
  redisLocks w !! lockKey resource = None ->
  let token := "token-" +:+ pretty (counter w) in
  let inside :=
    setRedisLocks (setCounter w (S (counter w)))
      (<[lockKey resource := token]> (redisLocks w)) in
  withLock resource fn (S retries) w
  = (let '(r, w') := fn inside in (r, snd (release (lockKey resource) token w'))).
Proof.
  intros Hfree token inside. unfold withLock, bind at 1, freshToken.
  unfold bind. rewrite acquireLoop_free by exact Hfree. reflexivity.
Qed.

Lemma withLock_held {A} (resource : string) (fn : M A) (retries : nat) (w : World) :
  is_Some (redisLocks w !! lockKey resource) ->
  withLock resource fn retries w
  = (Throw (plainError ("Failed to acquire lock for resource: " +:+ resource)),
     setCounter w (S (counter w))).
Proof.
  intros Hheld. unfold withLock, bind at 1, freshToken.
  unfold bind. rewrite acquireLoop_held by exact Hheld. reflexivity.
Qed.

(** validateInput neither reads nor writes the stores. *)
Lemma validateInput_pure (input : string) (expected : Validation) :
  exists r, forall w, validateInput input expected w = (r, w).
Proof.
  unfold validateInput, testRegExp.
  repeat match goal with
  | |- context [if String.eqb ?a ?b then _ else _] => destruct (String.eqb a b)
  end; unfold bind, ret, throw;
  try match goal with
  | |- context [regexTest ?p ?i] => destruct (regexTest p i)
  end; eexists; intros w; reflexivity.
Qed.

Lemma release_own (key token : string) (w : World) (locks : gmap string string) :
  locks !! key = None ->
  redisLocks w = <[key := token]> locks ->
  redisLocks (snd (release key token w)) = locks.
Proof.
  intros Hfree Hw. unfold release, modify. simpl.
  rewrite Hw, lookup_insert_eq, String.eqb_refl. simpl.
  rewrite delete_insert_eq. by apply delete_id.
Qed.

Lemma release_stores (key token : string) (w : World) :
  let w' := snd (release key token w) in
  redisState w' = redisState w
  /\ workflowTable w' = workflowTable w
  /\ executionTable w' = executionTable w
  /\ messageTable w' = messageTable w
  /\ fetched w' = fetched w
  /\ dispatched w' = dispatched w
  /\ counter w' = counter w.
Proof.
  unfold release, modify. simpl.
  destruct (redisLocks w !! key) as [t|]; [destruct (String.eqb t token)|];
    simpl; auto 10.
Qed.

(** handleMessageInWorkflow when Redis holds no context for the conversation *)
Lemma handleMessage_no_context (fuel : nat) (conversation message : string)
    (messageMetadata : JsValue) (w : World) :
  redisState w !! conversation = None ->
  redisLocks w !! lockOf conversation = None ->
  handleMessageInWorkflow fuel conversation message messageMetadata w
  = (Ok None, setCounter w (S (counter w))).
Proof.
  intros Hnone Hfree. unfold handleMessageInWorkflow.
  rewrite withLock_free by exact Hfree.
  unfold bind, getContext, gets. simpl. rewrite Hnone. simpl.
  unfold release, modify. simpl.
  unfold lockOf in Hfree.
  rewrite lookup_insert_eq, String.eqb_refl. simpl.
  rewrite delete_insert_eq, delete_id by exact Hfree.
  by destruct w.
Qed.

Lemma handleMessage_lock_busy (fuel : nat) (conversation message : string)
    (messageMetadata : JsValue) (w : World) :
  is_Some (redisLocks w !! lockOf conversation) ->
  handleMessageInWorkflow fuel conversation message messageMetadata w
  = (Throw (plainError ("Failed to acquire lock for resource: "
                          +:+ ("workflow:exec:" +:+ conversation))),
     setCounter w (S (counter w))).
Proof.
  intros Hheld. unfold handleMessageInWorkflow. by rewrite withLock_held.
Qed.

(** handleMessageInWorkflow on a waiting context whose validation rejects
    the message *)
Lemma handleMessage_invalid (fuel : nat) (conversation message : string)
    (messageMetadata : JsValue) (w : World)
    (context : ConversationExecutionContext) (expected : Validation)
    (v : ValidationResult) :
  redisState w !! conversation = Some context ->
  waitingForInput context = true ->
  expectedInputValidation context = Some expected ->
  redisLocks w !! lockOf conversation = None ->
  fst (validateInput message expected w) = Ok v ->
  valid v = false ->
  handleMessageInWorkflow fuel conversation message messageMetadata w
  = (Ok (Some (mkMessageResult true
                 (Some (orText (errorMessage v) "Invalid input. Please try again."))
                 false)),
     setCounter w (S (counter w))).
Proof.
  intros Hctx Hwait Hexp Hfree Hval Hinvalid. unfold handleMessageInWorkflow.
  rewrite withLock_free by exact Hfree.
  destruct (validateInput_pure message expected) as [r Hr].
  rewrite Hr in Hval. simpl in Hval. subst r.
  unfold bind, getContext, gets. simpl. rewrite Hctx. simpl.
  rewrite Hwait. simpl. rewrite Hexp. rewrite Hr. simpl. rewrite Hinvalid. simpl.
  unfold release, modify. simpl.
  unfold lockOf in Hfree.
  rewrite lookup_insert_eq, String.eqb_refl. simpl.
  rewrite delete_insert_eq, delete_id by exact Hfree.
  by destruct w.
Qed.

(** ... and when validateInput itself throws (a pattern that does not
    compile): the error leaves [withLock], the stores are as before. *)
Lemma handleMessage_validation_throws (fuel : nat) (conversation message : string)
    (messageMetadata : JsValue) (w : World)
    (context : ConversationExecutionContext) (expected : Validation) :
  redisState w !! conversation = Some context ->
  waitingForInput context = true ->
  expectedInputValidation context = Some expected ->
  redisLocks w !! lockOf conversation = None ->
  (forall v, fst (validateInput message expected w) <> Ok v) ->
  snd (handleMessageInWorkflow fuel conversation message messageMetadata w)
  = setCounter w (S (counter w)).
Proof.
  intros Hctx Hwait Hexp Hfree Hval. unfold handleMessageInWorkflow.
  rewrite withLock_free by exact Hfree.
  destruct (validateInput_pure message expected) as [r Hr].
  rewrite Hr in Hval. simpl in Hval.
  unfold bind, getContext, gets. simpl. rewrite Hctx. simpl.
  rewrite Hwait. simpl. rewrite Hexp. rewrite Hr.
  unfold lockOf in Hfree.
  destruct r as [v|e|]; [by destruct (Hval v)| |];
    simpl; unfold release, modify; simpl;
    rewrite lookup_insert_eq, String.eqb_refl; simpl;
    rewrite delete_insert_eq, delete_id by exact Hfree;
    by destruct w.
Qed.

End Resume.

Section Waiting.
Context `{rt : Runtime}.

(** handleMessageInWorkflow on a waiting context that accepts the message:
    the flag is cleared and saved, then the burst runs. *)
Lemma handleMessage_resumes (fuel : nat) (conversation message : string)
    (messageMetadata : JsValue) (w : World)
    (context : ConversationExecutionContext) (validated : option JsValue) :
  redisState w !! conversation = Some context ->
  waitingForInput context = true ->
  redisLocks w !! lockOf conversation = None ->
  match expectedInputValidation context with
  | None => validated = None
  | Some expected =>
      exists v, fst (validateInput message expected w) = Ok v
                /\ valid v = true /\ validated = Some (extractedData v)
  end ->
  let next := cleared message messageMetadata validated context in
  let burst := detached fuel next (snd (saveContext next (locked conversation w))) in
  handleMessageInWorkflow fuel conversation message messageMetadata w
  = (match fst burst with
     | Ok _ => Ok (Some (mkMessageResult false None true))
     | Throw e => Throw e
     | Pending => Pending
     end,
     snd (release (lockOf conversation) ("token-" +:+ pretty (counter w)) (snd burst))).
Proof.
  intros Hctx Hwait Hfree Hqual next burst. unfold handleMessageInWorkflow.
  rewrite withLock_free by exact Hfree. fold (locked conversation w).
  unfold lockOf.
  unfold bind at 1. unfold getContext at 1, gets. cbv beta iota.
  change (redisState (locked conversation w) !! conversation)
    with (redisState w !! conversation).
  rewrite Hctx. cbn [fst snd]. cbv beta iota. rewrite Hwait. cbn [negb]. cbv iota.
  change (expectedInputValidation (setVariables context _))
    with (expectedInputValidation context).
  destruct (expectedInputValidation context) as [expected|] eqn:Hexp.
  - destruct Hqual as (v & Hv & Hvalid & ->).
    destruct (validateInput_pure message expected) as [r Hr].
    rewrite Hr in Hv. simpl in Hv. subst r.
    unfold bind at 1. cbv beta. rewrite Hr. cbv beta iota.
    rewrite Hvalid. cbn [negb]. cbv iota.
    unfold bind, saveContext, modify, ret. cbv beta iota.
    repeat match goal with
    | |- context [detached ?f ?c ?x] => change (detached f c x) with burst
    end.
    destruct burst as [[u|e|] wb]; reflexivity.
  - subst validated.
    unfold bind, saveContext, modify, ret. cbv beta iota.
    repeat match goal with
    | |- context [detached ?f ?c ?x] => change (detached f c x) with burst
    end.
    destruct burst as [[u|e|] wb]; reflexivity.
Qed.

(** While a context waits, no entry point dispatches a node for its
    conversation, except an inbound message that qualifies. *)
Lemma waiting_forbids_dispatch (fuel : nat) (call : Call) (w : World)
    (context : ConversationExecutionContext) :
  redisState w !! conversationOf call = Some context ->
  waitingForInput context = true ->
  dispatched (perform fuel call w) <> dispatched w ->
  exists message messageMetadata,
    call = InboundMessage (conversationOf call) message messageMetadata
    /\ qualifies message context w.
Proof.
  intros Hctx Hwait Hnew.
  destruct call as [conversation wf initialData|conversation message meta
                   |conversation|conversation]; simpl in *.
  - exfalso. apply Hnew.
    unfold initializeWorkflowForConversation, bind, getContext, gets. simpl.
    by rewrite Hctx.
  - exists message, meta. split; [reflexivity|].
    unfold qualifies.
    destruct (expectedInputValidation context) as [expected|] eqn:Hexp; [|exact I].
    destruct (redisLocks w !! lockOf conversation) as [owner|] eqn:Hlock.
    { exfalso. apply Hnew. by rewrite handleMessage_lock_busy. }
    destruct (validateInput_pure message expected) as [r Hr].
    destruct r as [v|e|].
    + destruct (valid v) eqn:Hvalid.
      * exists v. by rewrite Hr.
      * exfalso. apply Hnew.
        rewrite (handleMessage_invalid fuel conversation message meta w context
                   expected v); auto.
        by rewrite Hr.
    + exfalso. apply Hnew.
      rewrite (handleMessage_validation_throws fuel conversation message meta w
                 context expected); auto.
      intros v. by rewrite Hr.
    + exfalso. apply Hnew.
      rewrite (handleMessage_validation_throws fuel conversation message meta w
                 context expected); auto.
      intros v. by rewrite Hr.
  - by destruct Hnew.
  - by destruct Hnew.
Qed.

End Waiting.

(** ** How a burst ends *)

Section Endings.
Context `{rt : Runtime}.


(** A burst whose handler asks to wait ends with the context saved, still
    at the same node and marked as waiting, after that one dispatch. *)
Lemma run_suspends (fuel : nat)
    (context context' : ConversationExecutionContext) (w w2 : World)
    (node : Node) (result : Vars) :
  currentNodeId context = Some (node_id node) ->
  node_id node <> "" ->
  findNode (workflow context) (node_id node) = Some node ->
  executeNode node context (announced context node w) = (Ok (result, context'), w2) ->
  waitingForInput context' = true ->
  exists w' saved,
    processNextNode (S fuel) context w = (Ok (), w')
    /\ redisState w' !! conversationId context = Some saved
    /\ waitingForInput saved = true
    /\ currentNodeId saved = Some (node_id node)
    /\ dispatched w' = dispatched w ++ [(conversationId context, node_id node)].
Proof.
  intros Hcur Hne Hfind Hexec Hwait.
  destruct (executeNode_context _ _ _ _ _ _ Hexec) as (Hc & _ & _ & Hn & _).
  pose proof (executeNode_stores node context (announced context node w)) as Hst.
  rewrite Hexec in Hst. simpl in Hst.
  destruct Hst as (_ & _ & _ & _ & _ & Hdisp).
  pose proof (addExecutionLog_stores (executionId context)
    ("Executing: " +:+ node_label node +:+ " (" +:+ node_type node +:+ ")") w)
    as (_ & _ & _ & _ & _ & Hd & _).
  fold (announced context node w) in Hd.
  pose proof (addExecutionLog_stores (executionId context')
    "Waiting for user input" w2) as (_ & _ & _ & _ & _ & Hd2 & _).
  eexists. exists (merged result context'). split.
  { eapply processNextNode_suspends; eauto. }
  unfold saveContext, modify. simpl.
  rewrite Hc. split; [apply lookup_insert_eq|].
  split; [exact Hwait|]. split; [by rewrite Hn|].
  by rewrite Hd2, Hdisp, Hd.
Qed.

(** A burst whose handler throws: the run is marked FAILED, and Redis is
    what it was before the burst. *)
Lemma run_fails_keeping_context (fuel : nat)
    (context : ConversationExecutionContext) (w w2 : World)
    (node : Node) (e : Error) :
  currentNodeId context = Some (node_id node) ->
  node_id node <> "" ->
  findNode (workflow context) (node_id node) = Some node ->
  is_Some (executionTable w !! executionId context) ->
  executeNode node context (announced context node w) = (Throw e, w2) ->
  let w' := snd (detached (S fuel) context w) in
  fst (detached (S fuel) context w) = Ok ()
  /\ statusOf w' (executionId context) = Some FAILED
  /\ redisState w' = redisState w.
Proof.
  intros Hcur Hne Hfind [row Hrow] Hexec.
  unfold detached, tryCatch.
  rewrite (processNextNode_throws fuel context w w2 (node_id node) node e); auto.
  pose proof (executeNode_stores node context (announced context node w)) as Hst.
  rewrite Hexec in Hst. simpl in Hst.
  destruct Hst as (Hredis & _ & _ & Htab & _).
  pose proof (addExecutionLog_stores (executionId context)
    ("Executing: " +:+ node_label node +:+ " (" +:+ node_type node +:+ ")") w)
    as (Hr1 & _ & _ & _ & _ & _ & _ & Hstat).
  fold (announced context node w) in Hr1, Hstat.
  pose proof (addExecutionLog_stores (executionId context)
    ("Error: " +:+ message e) w2) as (Hr2 & _ & _ & _ & _ & _ & _ & Hstat2).
  specialize (Hstat (executionId context)).
  specialize (Hstat2 (executionId context)).
  unfold statusOf in *. rewrite Htab in Hstat2. rewrite Hstat in Hstat2.
  rewrite Hrow in Hstat2. simpl in Hstat2.
  unfold markExecutionFailed, updateExecution. simpl.
  destruct (executionTable
              (snd (addExecutionLog (executionId context) ("Error: " +:+ message e) w2))
              !! executionId context) as [row2|] eqn:Hrow2; [|discriminate].
  simpl. split; [reflexivity|]. split.
  - by rewrite lookup_insert_eq.
  - by rewrite Hr2, Hredis, Hr1.
Qed.

End Endings.

(** ** The claims on routing, suspension and resumption *)

Section Claims.
Context `{rt : Runtime}.


(** C5.  When a dispatch leaves [waitingForInput] set, processNextNode
    saves the context and returns: the burst has dispatched that node and no
    other.  While the saved context waits, no entry point dispatches a node
    for the conversation unless it is an inbound message that qualifies;
    such a message clears the flag and saves the context before the burst
    resumes. *)
Theorem C5_waiting_stops_the_burst :
  (forall (fuel : nat) (context context' : ConversationExecutionContext)
     (w w2 : World) (node : Node) (result : Vars),
     currentNodeId context = Some (node_id node) ->
     node_id node <> "" ->
     findNode (workflow context) (node_id node) = Some node ->
     executeNode node context (announced context node w)
       = (Ok (result, context'), w2) ->
     waitingForInput context' = true ->
     exists w' saved,
       processNextNode (S fuel) context w = (Ok (), w')
       /\ redisState w' !! conversationId context = Some saved
       /\ waitingForInput saved = true
       /\ currentNodeId saved = Some (node_id node)
       /\ dispatched w' = dispatched w ++ [(conversationId context, node_id node)])
  /\ (forall (fuel : nat) (call : Call) (w : World)
        (context : ConversationExecutionContext),
        redisState w !! conversationOf call = Some context ->
        waitingForInput context = true ->
        dispatched (perform fuel call w) <> dispatched w ->
        exists message messageMetadata,
          call = InboundMessage (conversationOf call) message messageMetadata
          /\ qualifies message context w)
  /\ (forall (fuel : nat) (conversation message : string)
        (messageMetadata : JsValue) (w : World)
        (context : ConversationExecutionContext) (validated : option JsValue),
        redisState w !! conversation = Some context ->
        waitingForInput context = true ->
        redisLocks w !! lockOf conversation = None ->
        match expectedInputValidation context with
        | None => validated = None
        | Some expected =>
            exists v, fst (validateInput message expected w) = Ok v
                      /\ valid v = true /\ validated = Some (extractedData v)
        end ->
        let next := cleared message messageMetadata validated context in
        let saved := snd (saveContext next (locked conversation w)) in
        waitingForInput next = false
        /\ redisState saved !! conversationId context = Some next
        /\ dispatched saved = dispatched w
        /\ snd (handleMessageInWorkflow fuel conversation message messageMetadata w)
           = snd (release (lockOf conversation) ("token-" +:+ pretty (counter w))
                    (snd (detached fuel next saved)))).
Proof.
  split; [|split].
  - intros. by eapply run_suspends.
  - apply waiting_forbids_dispatch.
  - intros fuel conversation message meta w context validated Hctx Hwait Hfree Hq
      next saved.
    split; [reflexivity|]. split; [apply lookup_insert_eq|]. split; [reflexivity|].
    by rewrite (handleMessage_resumes fuel conversation message meta w context
                  validated Hctx Hwait Hfree Hq).
Qed.

(** C7.  A message that fails the validation a waiting context expects is
    answered directly, with the validation's error message, and nothing
    advances: Redis, and with it the saved context, its [waitingForInput]
    and its [currentNodeId], is as before; the execution rows are as before,
    so the run has not become FAILED; no node is dispatched and the engine
    itself sends nothing. *)
Theorem C7_invalid_input_keeps_suspended (fuel : nat) (conversation message : string)
    (messageMetadata : JsValue) (w : World)
    (context : ConversationExecutionContext) (expected : Validation)
    (v : ValidationResult) :
  redisState w !! conversation = Some context ->
  waitingForInput context = true ->
  expectedInputValidation context = Some expected ->
  redisLocks w !! lockOf conversation = None ->
  fst (validateInput message expected w) = Ok v ->
  valid v = false ->
  let '(r, w') := handleMessageInWorkflow fuel conversation message messageMetadata w in
  r = Ok (Some (mkMessageResult true
                  (Some (orText (errorMessage v) "Invalid input. Please try again."))
                  false))
  /\ errorMessage v <> None
  /\ redisState w' = redisState w
  /\ redisState w' !! conversation = Some context
  /\ executionTable w' = executionTable w
  /\ dispatched w' = dispatched w
  /\ messageTable w' = messageTable w
  /\ redisLocks w' = redisLocks w.
Proof.
  intros Hctx Hwait Hexp Hfree Hval Hinvalid.
  rewrite (handleMessage_invalid fuel conversation message messageMetadata w
             context expected v); auto.
  simpl. repeat split; auto.
  intros Hnone. revert Hval Hinvalid. unfold validateInput, testRegExp.
  repeat match goal with
  | |- context [if String.eqb ?a ?b then _ else _] => destruct (String.eqb a b)
  end; unfold bind, ret, throw;
  try match goal with
  | |- context [regexTest ?p ?i] => destruct (regexTest p i)
  end; simpl; intros Heq Hinv; inversion Heq; subst; simpl in *; congruence.
Qed.

(** C8.  With no context in Redis for the conversation,
    handleMessageInWorkflow changes no store but the conversation's lock,
    which it hands back: it writes no context, dispatches no node and sends
    no message.  It returns [null] (so [workflowIsHandling] is false) when it
    gets the lock, and throws the lock error when it does not. *)
Theorem C8_no_context_is_noop (fuel : nat) (conversation message : string)
    (messageMetadata : JsValue) (w : World) :
  redisState w !! conversation = None ->
  let '(r, w') := handleMessageInWorkflow fuel conversation message messageMetadata w in
  workflowIsHandling r = false
  /\ (redisLocks w !! lockOf conversation = None -> r = Ok None)
  /\ (is_Some (redisLocks w !! lockOf conversation) -> exists e, r = Throw e)
  /\ redisState w' = redisState w
  /\ dispatched w' = dispatched w
  /\ messageTable w' = messageTable w
  /\ executionTable w' = executionTable w
  /\ fetched w' = fetched w
  /\ redisLocks w' = redisLocks w.
Proof.
  intros Hnone.
  destruct (redisLocks w !! lockOf conversation) as [owner|] eqn:Hlock.
  - rewrite handleMessage_lock_busy by (rewrite Hlock; eauto).
    simpl. repeat split; auto; [discriminate|eauto].
  - rewrite handleMessage_no_context by assumption.
    simpl. repeat split; auto. intros [? [=]].
Qed.

Lemma Strict_findNextNode_firstMatch (node : Node)
    (context : ConversationExecutionContext) :
  Strict.findNextNode node context
  = Strict.firstMatch (outgoingEdgesOf (workflow context) (node_id node))
      (variables context).
Proof.
  unfold Strict.findNextNode.
  destruct (outgoingEdgesOf (workflow context) (node_id node)); reflexivity.
Qed.


Lemma Strict_evaluateCondition_missing (condition : JsValue) (variables : Vars) :
  truthy (getProp condition "field") = false
  \/ truthy (getProp condition "operator") = false ->
  Strict.evaluateCondition condition variables = Ok true.
Proof.
  unfold Strict.evaluateCondition. intros [-> | ->]; simpl; [done|].
  by rewrite orb_true_r.
Qed.

Lemma Strict_evaluateCondition_unrecognized (condition : JsValue) (variables : Vars) :
  Strict.convertible (getProp condition "field") = true ->
  (forall op, getProp condition "operator" = JStr op -> op ∉ implementedOperators) ->
  Strict.evaluateCondition condition variables = Ok true.
Proof.
  intros Hfield Hop. unfold Strict.evaluateCondition.
  destruct (negb (truthy (getProp condition "field"))
            || negb (truthy (getProp condition "operator"))); [done|].
  rewrite Hfield. cbn [negb].
  destruct (getProp condition "operator") as [| | | |op| |] eqn:Hoper;
    try (by destruct (Strict.inherits _ _)).
  specialize (Hop op eq_refl).
  destruct (Strict.inherits _ _);
    repeat match goal with
    | |- context [String.eqb op ?s] =>
        destruct (String.eqb_spec op s) as [->|_];
        [exfalso; apply Hop; unfold implementedOperators; set_solver|]
    end;
    reflexivity.
Qed.

Lemma Strict_evaluateCondition_shadowed (condition : JsValue) (variables : Vars) :
  truthy (getProp condition "field") = true ->
  truthy (getProp condition "operator") = true ->
  Strict.convertible (getProp condition "field") = false ->
  Strict.evaluateCondition condition variables = Throw Strict.cannotConvert.
Proof.
  intros Hfield Hop Hconv. unfold Strict.evaluateCondition.
  by rewrite Hfield, Hop, Hconv.
Qed.

(** On values that convert the evaluator returns; and it returns what
    [Executor.evaluateCondition] gives unless the field names a property
    that the variables inherit. *)
Lemma Strict_evaluateCondition_returns (condition : JsValue) (variables : Vars) :
  Strict.convertible (getProp condition "field") = true ->
  Strict.convertible (getVar variables (getProp condition "field")) = true ->
  Strict.convertible (getProp condition "value") = true ->
  (exists b, Strict.evaluateCondition condition variables = Ok b)
  /\ (Strict.inherits variables (toStr (getProp condition "field")) = false ->
      Strict.evaluateCondition condition variables
      = Ok (evaluateCondition condition variables)).
Proof.
  intros Hfield Hvar Hvalue. unfold Strict.evaluateCondition, evaluateCondition.
  destruct (negb (truthy (getProp condition "field"))
            || negb (truthy (getProp condition "operator"))); [by eauto|].
  rewrite Hfield, Hvar, Hvalue. cbn [negb andb].
  destruct (Strict.inherits _ _).
  - split; [|discriminate].
    destruct (getProp condition "operator") as [| | | |op| |]; try by eauto.
    repeat match goal with
    | |- context [String.eqb op ?s] => destruct (String.eqb op s); [by eauto|]
    end.
    by eauto.
  - destruct (getProp condition "operator") as [| | | |op| |]; try by eauto.
    repeat match goal with
    | |- context [String.eqb op ?s] => destruct (String.eqb op s); [by eauto|]
    end.
    by eauto.
Qed.

Lemma Strict_firstMatch_reached (before after : list Edge) (edge : Edge)
    (variables : Vars) :
  Forall (fun e => truthy (condition e) = true
                   /\ Strict.evaluateCondition (condition e) variables = Ok false)
    before ->
  Strict.firstMatch (before ++ edge :: after) variables
  = Strict.firstMatch (edge :: after) variables.
Proof.
  induction 1 as [|e es [Hc He] _ IH]; [reflexivity|].
  simpl app. cbn [Strict.firstMatch]. by rewrite Hc, He.
Qed.

(** C10.  A guard that lacks its field or its operator evaluates to true,
    and so does a guard whose operator is none of the names the persisted
    evaluator implements, provided its field converts to a property key;
    the edge that carries such a guard behaves as an edge without condition
    and is taken when the router reaches it.  A guard with a field and an
    operator whose field does not convert, an object with a [toString]
    property of its own, makes the evaluator throw a TypeError, whatever
    the operator, and the router with it.  On a field, a variable and a
    [value] that convert the evaluator returns, and unless the field names
    a property that the variables inherit it returns what
    [Executor.evaluateCondition] gives. *)
Theorem C10_malformed_guard_is_true (guard : JsValue) (variables : Vars) :
  let field := getProp guard "field" in
  let operator := getProp guard "operator" in
  (truthy field = false
   \/ truthy operator = false
   \/ (Strict.convertible field = true
       /\ forall op, operator = JStr op -> op ∉ implementedOperators) ->
   Strict.evaluateCondition guard variables = Ok true
   /\ forall (node : Node) (context : ConversationExecutionContext) (edge : Edge),
        condition edge = guard ->
        Executor.variables context = variables ->
        Survey.reaches node context edge ->
        Strict.findNextNode node context = Ok (Some (targetNodeId edge)))
  /\ (truthy field = true ->
      truthy operator = true ->
      Strict.convertible field = false ->
      Strict.evaluateCondition guard variables = Throw Strict.cannotConvert
      /\ forall (node : Node) (context : ConversationExecutionContext) (edge : Edge),
           condition edge = guard ->
           Executor.variables context = variables ->
           Survey.reaches node context edge ->
           Strict.findNextNode node context = Throw Strict.cannotConvert)
  /\ (Strict.convertible field = true ->
      Strict.convertible (getVar variables field) = true ->
      Strict.convertible (getProp guard "value") = true ->
      (exists b, Strict.evaluateCondition guard variables = Ok b)
      /\ (Strict.inherits variables (toStr field) = false ->
          Strict.evaluateCondition guard variables
          = Ok (evaluateCondition guard variables))).
Proof.
  intros field operator. split; [|split].
  - intros Hbad.
    assert (Strict.evaluateCondition guard variables = Ok true) as Htrue.
    { destruct Hbad as [H|[H|[Hconv H]]].
      - apply Strict_evaluateCondition_missing. by left.
      - apply Strict_evaluateCondition_missing. by right.
      - by apply Strict_evaluateCondition_unrecognized. }
    split; [exact Htrue|].
    intros node context edge Hguard <- (before & after & Hsplit & Hclosed).
    rewrite Strict_findNextNode_firstMatch, Hsplit.
    rewrite (Strict_firstMatch_reached before after edge _ Hclosed).
    cbn [Strict.firstMatch]. rewrite Hguard, Htrue.
    by destruct (truthy guard).
  - intros Hfield Hop Hconv.
    assert (Strict.evaluateCondition guard variables = Throw Strict.cannotConvert)
      as Hthrow by by apply Strict_evaluateCondition_shadowed.
    split; [exact Hthrow|].
    intros node context edge Hguard <- (before & after & Hsplit & Hclosed).
    rewrite Strict_findNextNode_firstMatch, Hsplit.
    rewrite (Strict_firstMatch_reached before after edge _ Hclosed).
    cbn [Strict.firstMatch]. rewrite Hguard, Hthrow.
    assert (truthy guard = true) as ->; [|reflexivity].
    unfold field in Hfield. by destruct guard.
  - apply Strict_evaluateCondition_returns.
Qed.

End Claims.

(** ** The claims at concrete workflows *)


Lemma C5_waiting_stops_the_burst_witness :
  (exists w' saved,
     processNextNode (rt := Sample.runtime) 1 Sample.asking
       (Sample.worldOf Sample.asking) = (Ok (), w')
     /\ redisState w' !! "c1" = Some saved
     /\ waitingForInput saved = true
     /\ currentNodeId saved = Some "ask"
     /\ dispatched w' = [("c1", "ask")])
  /\ (exists message messageMetadata,
        InboundMessage "c1" "a@b.co" JNull = InboundMessage "c1" message messageMetadata
        /\ qualifies (rt := Sample.runtime) message Sample.waitingContext
             Sample.waitingWorld).
Proof.
  destruct (C5_waiting_stops_the_burst (rt := Sample.runtime)) as (Hstop & Hwait & _).
  split.
  - apply (Hstop 0 Sample.asking
             (setExpectedInputType (setWaitingForInput Sample.asking true) (Some "email"))
             (Sample.worldOf Sample.asking)
             (snd (executeNode (rt := Sample.runtime) Sample.askNode Sample.asking
                     (announced Sample.asking Sample.askNode
                        (Sample.worldOf Sample.asking))))
             Sample.askNode {[ "waitingForInput" := JBool true ]}).
    + reflexivity.
    + discriminate.
    + reflexivity.
    + vm_compute. reflexivity.
    + reflexivity.
  - apply (Hwait 1 (InboundMessage "c1" "a@b.co" JNull) Sample.waitingWorld
             Sample.waitingContext).
    + vm_compute. reflexivity.
    + reflexivity.
    + vm_compute. discriminate.
Defined.

Lemma C7_invalid_input_keeps_suspended_witness :
  let '(r, w') :=
    handleMessageInWorkflow (rt := Sample.runtime) 1 "c1" "not an address" JNull
      Sample.waitingWorld in
  r = Ok (Some (mkMessageResult true (Some "Please enter a valid email address") false))
  /\ redisState w' !! "c1" = Some Sample.waitingContext
  /\ executionTable w' = executionTable Sample.waitingWorld
  /\ dispatched w' = dispatched Sample.waitingWorld.
Proof.
  pose proof (C7_invalid_input_keeps_suspended (rt := Sample.runtime) 1 "c1"
                "not an address" JNull Sample.waitingWorld Sample.waitingContext
                (mkValidation (Some "email") None None)
                (mkValidationResult false (Some "Please enter a valid email address")
                   (JStr "not an address"))) as H.
  destruct (handleMessageInWorkflow 1 "c1" "not an address" JNull Sample.waitingWorld)
    as [r w'].
  destruct H as (Hr & _ & _ & Hctx & Hexec & Hdisp & _).
  - vm_compute. reflexivity.
  - reflexivity.
  - reflexivity.
  - vm_compute. reflexivity.
  - vm_compute. reflexivity.
  - reflexivity.
  - repeat split; assumption.
Defined.

Lemma C8_no_context_is_noop_witness :
  let '(r, w') :=
    handleMessageInWorkflow (rt := Sample.runtime) 1 "c2" "hello" JNull
      Sample.waitingWorld in
  r = Ok None
  /\ redisState w' = redisState Sample.waitingWorld
  /\ dispatched w' = dispatched Sample.waitingWorld
  /\ messageTable w' = messageTable Sample.waitingWorld.
Proof.
  pose proof (C8_no_context_is_noop (rt := Sample.runtime) 1 "c2" "hello" JNull
                Sample.waitingWorld) as H.
  destruct (handleMessageInWorkflow 1 "c2" "hello" JNull Sample.waitingWorld)
    as [r w'].
  destruct H as (_ & Hr & _ & Hredis & Hdisp & Hmsg & _).
  - vm_compute. reflexivity.
  - repeat split; try assumption. apply Hr. vm_compute. reflexivity.
Defined.

(** C10 as the specification states it fails: the operator [matches] is
    none that the persisted evaluator implements, yet on a guard whose
    field is [{toString: 1}] the evaluator does not return true: the use of
    the field as a property key throws a TypeError, and the router, which
    has no [try] around the call, throws it on. *)
Lemma C10_shadowed_field_counterexample :
  bool_decide ("matches" ∈ implementedOperators) = false
  /\ Strict.evaluateCondition (rt := Sample.runtime) Cases.shadowed
       {[ "plan" := JStr "free" ]}
     = Throw (mkError "TypeError" "Cannot convert object to primitive value")
  /\ Strict.findNextNode (rt := Sample.runtime) Sample.startNode Cases.guardedContext
     = Throw (mkError "TypeError" "Cannot convert object to primitive value").
Proof. vm_compute. repeat split; reflexivity. Qed.

Lemma C10_malformed_guard_is_true_witness :
  Strict.evaluateCondition (rt := Sample.runtime) Sample.matchesGuard
    {[ "plan" := JStr "free" ]}
  = Ok true
  /\ Strict.evaluateCondition (rt := Sample.runtime) Cases.shadowed
       {[ "plan" := JStr "free" ]}
     = Throw Strict.cannotConvert.
Proof.
  destruct (C10_malformed_guard_is_true (rt := Sample.runtime) Sample.matchesGuard
              {[ "plan" := JStr "free" ]}) as (Hopen & _ & _).
  destruct (C10_malformed_guard_is_true (rt := Sample.runtime) Cases.shadowed
              {[ "plan" := JStr "free" ]}) as (_ & Hthrow & _).
  split.
  - apply Hopen. right. right. split; [reflexivity|].
    intros op Hop. vm_compute in Hop. injection Hop as <-.
    unfold implementedOperators. intros Hin.
    repeat (apply elem_of_cons in Hin as [Heq|Hin]; [discriminate Heq|]).
    by apply elem_of_nil in Hin.
  - apply Hthrow; reflexivity.
Defined.

(** ** Bursts that go on *)

Section Continuing.
Context `{rt : Runtime}.

(** The handler returned, does not wait, and the router found a successor:
    the context moves there, is saved, and processNextNode calls itself; an
    error of the rest of the burst is logged once more on its way out. *)
Lemma processNextNode_continues (fuel : nat)
    (context context' : ConversationExecutionContext) (w w2 : World)
    (node : Node) (result : Vars) (next : string) :
  currentNodeId context = Some (node_id node) ->
  node_id node <> "" ->
  findNode (workflow context) (node_id node) = Some node ->
  executeNode node context (announced context node w) = (Ok (result, context'), w2) ->
  waitingForInput context' = false ->
  findNextNode node (merged result context') = Some next ->
  next <> "" ->
  let moved := setCurrentNodeId (merged result context') (Some next) in
  processNextNode (S fuel) context w
  = match processNextNode fuel moved (snd (saveContext moved w2)) with
    | (Throw e, w') =>
        (Throw e, snd (addExecutionLog (executionId context) ("Error: " +:+ message e) w'))
    | other => other
    end.
Proof.
  intros Hcur Hne Hfind Hexec Hwait Hnext Hnext' moved.
  simpl. rewrite Hcur, (noNode_some _ Hne). simpl. rewrite Hfind.
  unfold bind at 1. rewrite addExecutionLog_ok.
  unfold tryCatch. unfold bind at 1. fold (announced context node w). rewrite Hexec.
  simpl. rewrite Hwait. fold (merged result context'). rewrite Hnext.
  rewrite (noNode_some _ Hnext'). fold moved.
  unfold bind, saveContext, modify. simpl.
  destruct (processNextNode fuel moved _) as [[u|e|] w']; try reflexivity.
  by rewrite addExecutionLog_ok.
Qed.

(** A run inside a closed region of nodes whose handlers return at once
    never settles: each unit of fuel dispatches the next node on the way
    along the first edges, and nothing else is written but contexts and
    log lines. *)
Lemma closed_region_never_settles (region : Node -> Prop) (fuel : nat) :
  forall (context : ConversationExecutionContext) (w : World) (node : Node),
    Survey.closedRegion (workflow context) region ->
    (forall n, region n -> Survey.returnsAtOnce n) ->
    region node ->
    currentNodeId context = Some (node_id node) ->
    waitingForInput context = false ->
    exists w',
      processNextNode fuel context w = (Pending, w')
      /\ dispatched w'
         = dispatched w
           ++ map (pair (conversationId context))
                (Survey.firstEdgePath (workflow context) (node_id node) fuel)
      /\ messageTable w' = messageTable w
      /\ fetched w' = fetched w
      /\ (forall execution, statusOf w' execution = statusOf w execution).
Proof.
  induction fuel as [|fuel IH]; intros context w node Hclosed Hreturns Hin Hcur Hwait.
  { exists w. split; [reflexivity|]. simpl. rewrite app_nil_r. auto. }
  destruct (Hclosed node Hin)
    as (Hne & Hfind & edge & rest & next & Hout & Hopen & Htarget & Hnext).
  destruct (Hclosed next Hnext) as (Hne' & _).
  destruct (Hreturns node Hin context (announced context node w)) as (result & Hexec).
  set (recorded :=
         setDispatched (announced context node w)
           (dispatched (announced context node w)
            ++ [(conversationId context, node_id node)])) in Hexec.
  rewrite (processNextNode_continues fuel context context w recorded node result
             (node_id next)); auto.
  - set (moved := setCurrentNodeId (merged result context) (Some (node_id next))).
    destruct (IH moved (snd (saveContext moved recorded)) next)
      as (w' & Hrun & Hdisp & Hmsg & Hfetch & Hstatus); auto.
    exists w'. rewrite Hrun. split; [reflexivity|].
    pose proof (addExecutionLog_stores (executionId context)
      ("Executing: " +:+ node_label node +:+ " (" +:+ node_type node +:+ ")") w)
      as (_ & _ & _ & Hm & Hf & Hd & _ & Hs).
    fold (announced context node w) in Hm, Hf, Hd, Hs.
    rewrite Hdisp, Hmsg, Hfetch. simpl. rewrite Hm, Hf, Hd, Hout, Htarget.
    rewrite <- app_assoc. repeat split; auto.
    intros execution. rewrite Hstatus. apply Hs.
  - rewrite findNextNode_firstMatch. simpl workflow. rewrite Hout. simpl.
    by rewrite Hopen, Htarget.
Qed.

(** An inert node returns at once. *)
Lemma inert_returnsAtOnce (node : Node) :
  Survey.inert node = true -> Survey.returnsAtOnce node.
Proof.
  unfold Survey.inert. intros Hinert context w.
  destruct (String.eqb_spec (node_type node) "CONDITION_VARIABLE") as [Htype|_].
  { eexists. unfold executeNode. rewrite Htype. reflexivity. }
  simpl in Hinert. apply negb_true_iff in Hinert.
  eexists. by apply executeNode_default.
Qed.

End Continuing.

Lemma alternating_length (n : nat) (c a b : string) : length (alternating c a b n) = n.
Proof. revert a b. induction n as [|n IH]; intros a b; simpl; [reflexivity|]. by rewrite IH. Qed.

Lemma leadIn_closed :
  Survey.closedRegion Cases.leadIn (fun node => In node (nodes Cases.leadIn)).
Proof.
  intros node Hin. simpl in Hin.
  destruct Hin as [<-|[<-|[<-|[]]]];
    (split; [discriminate|]; split; [reflexivity|]).
  - exists (mkEdge "e0" "S" "A" JNull), [],
      (mkNode "A" "ACTION_SET_VARIABLE"
         (Sample.object [("variableName", JStr "seen"); ("value", JStr "yes")]) "first").
    repeat split; try reflexivity. simpl. tauto.
  - exists (mkEdge "e1" "A" "B" JNull), [],
      (mkNode "B" "ACTION_DELAY" (Sample.object [("duration", JNum 1000)]) "pause").
    repeat split; try reflexivity. simpl. tauto.
  - exists (mkEdge "e2" "B" "A" JNull), [],
      (mkNode "A" "ACTION_SET_VARIABLE"
         (Sample.object [("variableName", JStr "seen"); ("value", JStr "yes")]) "first").
    repeat split; try reflexivity. simpl. tauto.
Qed.

Lemma leadIn_path (n : nat) :
  map (pair "c1") (Survey.firstEdgePath Cases.leadIn "A" n) = alternating "c1" "A" "B" n
  /\ map (pair "c1") (Survey.firstEdgePath Cases.leadIn "B" n) = alternating "c1" "B" "A" n.
Proof.
  induction n as [|n [IHa IHb]]; [split; reflexivity|].
  split; simpl.
  - change (outgoingEdgesOf Cases.leadIn "A") with [mkEdge "e1" "A" "B" JNull].
    simpl. by rewrite IHb.
  - change (outgoingEdgesOf Cases.leadIn "B") with [mkEdge "e2" "B" "A" JNull].
    simpl. by rewrite IHa.
Qed.

(** ** The retry loop of the synchronous engine *)

Section Retry.
Context `{rt : Runtime}.

Import Service.

Lemma attemptNode_run (node : Node) (config : JsValue) (attempt : Z) (r : Run) :
  snd (attemptNode node config attempt r)
  = countCall (addEvent (Attempt (node_id node) attempt) r).
Proof.
  unfold attemptNode.
  destruct (truthy (getProp config "timeout")); [|reflexivity].
  destruct (outcome _); try reflexivity;
    destruct (after _ <? _)%Z; reflexivity.
Qed.

(** One failed attempt of the loop. *)
Lemma retryLoop_failed_attempt (fuel : nat) (node : Node) (config : JsValue)
    (maxRetries attempts : Z) (nodeResult : option NodeExecutionResult)
    (r : Run) (e : Error) :
  (attempts < maxRetries)%Z ->
  fst (attemptNode node config (attempts + 1) r) = Throw e ->
  let r1 := countCall (addEvent (Attempt (node_id node) (attempts + 1)) r) in
  retryLoop (S fuel) node config maxRetries attempts nodeResult r
  = if (maxRetries <=? attempts + 1)%Z then
      if truthy (getProp config "continueOnError")
      then (Ok (Some (mkResult false None (Some (message e)) true)), r1)
      else (Throw e, r1)
    else
      retryLoop fuel node config maxRetries (attempts + 1) nodeResult
        (addEvent (Wait (1000 * (attempts + 1))) r1).
Proof.
  intros Hlt Hfail r1. simpl.
  destruct (Z.ltb_spec attempts maxRetries) as [_|]; [|lia].
  pose proof (attemptNode_run node config (attempts + 1) r) as Hrun.
  destruct (attemptNode node config (attempts + 1) r) as [o r'].
  simpl in Hfail, Hrun. subst o r'. reflexivity.
Qed.

(** A node whose every attempt fails is attempted [maxRetries] times, with
    a wait of [1000 * k] ms after the failed attempt [k], and the loop ends
    on the error of the last attempt. *)
Lemma retryLoop_always_failing (node : Node) (config : JsValue) (maxRetries : Z)
    (nodeResult : option NodeExecutionResult) :
  (forall attempt r, exists e, fst (attemptNode node config attempt r) = Throw e) ->
  forall (n fuel : nat) (attempts : Z) (r : Run),
    (1 <= n)%nat ->
    (n <= fuel)%nat ->
    maxRetries = (attempts + Z.of_nat n)%Z ->
    exists e r',
      retryLoop fuel node config maxRetries attempts nodeResult r
      = (if truthy (getProp config "continueOnError")
         then Ok (Some (mkResult false None (Some (message e)) true))
         else Throw e, r')
      /\ events r' = events r ++ failedAttempts (node_id node) attempts n
      /\ variables r' = variables r
      /\ currentNodeId r' = currentNodeId r
      /\ status r' = status r
      /\ calls r' = (calls r + n)%nat.
Proof.
  intros Hfails n. induction n as [|n IH]; intros fuel attempts r Hn Hfuel Hmax; [lia|].
  destruct fuel as [|fuel]; [lia|].
  destruct (Hfails (attempts + 1)%Z r) as [e He].
  rewrite (retryLoop_failed_attempt fuel node config maxRetries attempts nodeResult r e)
    by (auto; lia).
  destruct n as [|n].
  - destruct (Z.leb_spec maxRetries (attempts + 1)) as [_|]; [|lia].
    exists e. eexists. split; [destruct (truthy _); reflexivity|].
    simpl. repeat split; auto. lia.
  - destruct (Z.leb_spec maxRetries (attempts + 1)) as [|_]; [lia|].
    destruct (IH fuel (attempts + 1)%Z
                (addEvent (Wait (1000 * (attempts + 1)))
                   (countCall (addEvent (Attempt (node_id node) (attempts + 1)) r))))
      as (e' & r' & Hloop & Hev & Hvars & Hcur & Hstat & Hcalls); [lia|lia|lia|].
    exists e', r'. split; [exact Hloop|].
    rewrite Hev, Hvars, Hcur, Hstat, Hcalls. simpl.
    split; [by rewrite <- !app_assoc|].
    repeat split; auto; lia.
Qed.

Lemma findNode_id (workflow : Workflow) (id : string) (node : Node) :
  findNode workflow id = Some node -> node_id node = id.
Proof.
  unfold findNode. intros H. apply find_some in H as [_ H].
  by apply String.eqb_eq.
Qed.

(** executeNode around the loop, once the loop's outcome is known *)
Lemma executeNode_after_loop (fuel : nat) (nodeId : string) (workflow : Workflow)
    (node : Node) (r r' : Run) (loop : Result (option NodeExecutionResult)) :
  findNode workflow nodeId = Some node ->
  let config := orElse (node_config node) (JObj ∅) in
  truthy (getProp config "executeWhen")
    && negb (Service.evaluateCondition (getProp config "executeWhen") (variables r))
  = false ->
  retryLoop (Z.to_nat (maxRetriesOf config)) node config (maxRetriesOf config) 0 None
    (setCurrentNodeId r (Some nodeId)) = (loop, r') ->
  Service.executeNode (S fuel) nodeId workflow r
  = match loop with
    | Ok (Some nodeResult) =>
        if negb (shouldContinue nodeResult) then (Ok (), r')
        else forEdges (fun target => Service.executeNode fuel target workflow)
               (outgoingEdgesOf workflow nodeId) r'
    | Ok None => (Throw (mkError "TypeError" "Cannot read properties of undefined"), r')
    | Throw e => (Throw e, r')
    | Pending => (Pending, r')
    end.
Proof.
  intros Hfind config Hwhen Hloop. simpl. rewrite Hfind.
  unfold bind at 1. unfold gets at 1. fold config. cbv beta iota. rewrite Hwhen.
  unfold bind at 1. unfold modify at 1. cbv beta iota.
  unfold bind at 1. rewrite Hloop.
  destruct loop as [[nodeResult|]|e|]; try reflexivity.
  by destruct (shouldContinue nodeResult).
Qed.

Lemma run_eq (r r' : Run) :
  variables r' = variables r -> currentNodeId r' = currentNodeId r ->
  status r' = status r -> events r' = events r -> calls r' = calls r -> r' = r.
Proof. destruct r, r'. simpl. by intros -> -> -> -> ->. Qed.

(** An attempt that returns ends the loop, whatever the result says. *)
Lemma retryLoop_returned_attempt (fuel : nat) (node : Node) (config : JsValue)
    (maxRetries attempts : Z) (nodeResult : option NodeExecutionResult)
    (r : Run) (result : NodeExecutionResult) :
  (attempts < maxRetries)%Z ->
  fst (attemptNode node config (attempts + 1) r) = Ok result ->
  retryLoop (S fuel) node config maxRetries attempts nodeResult r
  = (Ok (Some result),
     snd (storeResult config result
            (countCall (addEvent (Attempt (node_id node) (attempts + 1)) r)))).
Proof.
  intros Hlt Hok. simpl.
  destruct (Z.ltb_spec attempts maxRetries) as [_|]; [|lia].
  pose proof (attemptNode_run node config (attempts + 1) r) as Hrun.
  destruct (attemptNode node config (attempts + 1) r) as [o r'].
  simpl in Hok, Hrun. subst o r'. reflexivity.
Qed.

End Retry.

Section RetryClaim.
Context `{rt : Runtime}.

Import Service.

(** C6.  On a node with [retryOnError = true] and [maxRetries = 3] the
    loop of executeNode retries the attempts that throw.  If every attempt
    throws or times out, the node is attempted exactly three times, with
    waits of 1000 ms and 2000 ms between the attempts (non-decreasing);
    after the third the error is thrown, so executeNode throws it and
    executeWorkflow marks the run FAILED; or, with [continueOnError] set,
    the loop yields [{success: false, error, shouldContinue: true}] and
    executeNode goes through the outgoing edges: it executes the target of
    an edge without condition and then turns to the edges after it, and
    with no edge left it returns, so that the run ends COMPLETED.  An
    attempt that returns a result ends the loop at once, also when the
    result reports a failure: the node is attempted once, and with
    [shouldContinue: false] executeNode returns without an error. *)
Theorem C6_three_attempts_then_give_up (node : Node) (config : JsValue) :
  truthy (getProp config "retryOnError") = true ->
  getProp config "maxRetries" = JNum 3 ->
  let schedule :=
    [ Attempt (node_id node) 1; Wait 1000; Attempt (node_id node) 2; Wait 2000;
      Attempt (node_id node) 3 ] in
  let continueOnError := truthy (getProp config "continueOnError") in
  let executed (nodeId : string) (workflow : Workflow) (r : Run) : Prop :=
    findNode workflow nodeId = Some node
    /\ config = orElse (node_config node) (JObj ∅)
    /\ truthy (getProp config "executeWhen")
       && negb (Service.evaluateCondition (getProp config "executeWhen") (variables r))
       = false in
  maxRetriesOf config = 3%Z
  /\ attemptsOn (node_id node) schedule = [1; 2; 3]%Z
  /\ waits schedule = [1000; 2000]%Z
  /\ StronglySorted Z.le (waits schedule)
  /\ ((forall attempt r, exists e, fst (attemptNode node config attempt r) = Throw e) ->
      (forall r : Run,
         exists e,
           retryLoop 3 node config 3 0 None r
           = (if continueOnError
              then Ok (Some (mkResult false None (Some (message e)) true))
              else Throw e,
              mkRun (variables r) (currentNodeId r) (status r) (events r ++ schedule)
                (calls r + 3)))
      /\ (forall (fuel : nat) (nodeId : string) (workflow : Workflow) (r : Run),
            executed nodeId workflow r ->
            let r' :=
              mkRun (variables r) (Some nodeId) (status r) (events r ++ schedule)
                (calls r + 3) in
            let next target := Service.executeNode fuel target workflow in
            (continueOnError = false ->
             exists e, Service.executeNode (S fuel) nodeId workflow r = (Throw e, r'))
            /\ (continueOnError = true ->
                outgoingEdgesOf workflow nodeId = [] ->
                Service.executeNode (S fuel) nodeId workflow r = (Ok (), r'))
            /\ (continueOnError = true ->
                forall edge rest,
                  outgoingEdgesOf workflow nodeId = edge :: rest ->
                  truthy (condition edge) = false ->
                  Service.executeNode (S fuel) nodeId workflow r
                  = (next (targetNodeId edge) ;;; forEdges next rest) r'))
      /\ (forall (fuel : nat) (workflow : Workflow) (r : Run),
            entryNodes workflow = [node] ->
            executed (node_id node) workflow r ->
            let r' :=
              mkRun (variables r) (Some (node_id node)) (status r)
                (events r ++ schedule) (calls r + 3) in
            (continueOnError = false ->
             exists e,
               executeWorkflow (S fuel) workflow r = (Throw e, setStatus r' FAILED))
            /\ (continueOnError = true ->
                outgoingEdgesOf workflow (node_id node) = [] ->
                executeWorkflow (S fuel) workflow r = (Ok (), setStatus r' COMPLETED))))
  /\ (forall (r : Run) (result : NodeExecutionResult),
        fst (attemptNode node config 1 r) = Ok result ->
        exists r',
          retryLoop 3 node config 3 0 None r = (Ok (Some result), r')
          /\ events r' = events r ++ [Attempt (node_id node) 1]
          /\ calls r' = S (calls r))
  /\ (forall (fuel : nat) (nodeId : string) (workflow : Workflow) (r : Run)
        (result : NodeExecutionResult),
        executed nodeId workflow r ->
        fst (attemptNode node config 1 (setCurrentNodeId r (Some nodeId))) = Ok result ->
        shouldContinue result = false ->
        exists r',
          Service.executeNode (S fuel) nodeId workflow r = (Ok (), r')
          /\ events r' = events r ++ [Attempt (node_id node) 1]
          /\ calls r' = S (calls r)).
Proof.
  intros Hretry Hmax schedule continueOnError executed.
  assert (maxRetriesOf config = 3%Z) as Hthree.
  { unfold maxRetriesOf. by rewrite Hretry, Hmax. }
  assert (forall (r : Run) (result : NodeExecutionResult),
            fst (attemptNode node config 1 r) = Ok result ->
            exists r',
              retryLoop 3 node config 3 0 None r = (Ok (Some result), r')
              /\ events r' = events r ++ [Attempt (node_id node) 1]
              /\ calls r' = S (calls r)) as Hreturned.
  { intros r result Hok.
    rewrite (retryLoop_returned_attempt 2 node config 3 0 None r result);
      [|lia|exact Hok].
    eexists. split; [reflexivity|].
    unfold storeResult, modify. simpl. by destruct (data result). }
  split; [exact Hthree|]. split; [|split; [reflexivity|split; [|split; [|split]]]].
  - unfold attemptsOn, schedule. simpl. by rewrite String.eqb_refl.
  - repeat constructor; lia.
  - intros Hfails.
    assert (forall r : Run,
              exists e,
                retryLoop 3 node config 3 0 None r
                = (if continueOnError
                   then Ok (Some (mkResult false None (Some (message e)) true))
                   else Throw e,
                   mkRun (variables r) (currentNodeId r) (status r)
                     (events r ++ schedule) (calls r + 3))) as Hloop.
    { intros r.
      destruct (retryLoop_always_failing node config 3 None Hfails 3 3 0 r)
        as (e & r' & Hrun & Hev & Hvars & Hcur & Hstat & Hcalls); try lia.
      exists e. rewrite Hrun. f_equal.
      apply (run_eq (mkRun _ _ _ _ _)); assumption. }
    assert (forall (fuel : nat) (nodeId : string) (workflow : Workflow) (r : Run),
              executed nodeId workflow r ->
              exists e,
                Service.executeNode (S fuel) nodeId workflow r
                = let r' :=
                    mkRun (variables r) (Some nodeId) (status r) (events r ++ schedule)
                      (calls r + 3) in
                  if continueOnError
                  then forEdges (fun target => Service.executeNode fuel target workflow)
                         (outgoingEdgesOf workflow nodeId) r'
                  else (Throw e, r')) as Hnode.
    { intros fuel nodeId workflow r (Hfind & Hconfig & Hwhen).
      destruct (Hloop (setCurrentNodeId r (Some nodeId))) as (e & Hrun).
      exists e. subst config.
      rewrite (executeNode_after_loop fuel nodeId workflow node r _ _ Hfind Hwhen
                 ltac:(rewrite Hthree; exact Hrun)).
      fold continueOnError. by destruct continueOnError. }
    split; [exact Hloop|]. split.
    + intros fuel nodeId workflow r Hexecuted r' next.
      destruct (Hnode fuel nodeId workflow r Hexecuted) as (e & Hrun).
      cbv zeta in Hrun. fold r' in Hrun. split; [|split].
      * intros Hstop. rewrite Hstop in Hrun. by exists e.
      * intros Hgo Hnone. by rewrite Hrun, Hgo, Hnone.
      * intros Hgo edge rest Hedges Hplain. rewrite Hrun, Hgo, Hedges.
        cbn [forEdges]. unfold bind at 1. unfold gets at 1. cbv beta iota.
        by rewrite Hplain.
    + intros fuel workflow r Hentries Hexecuted r'.
      destruct (Hnode fuel (node_id node) workflow r Hexecuted) as (e & Hrun).
      cbv zeta in Hrun. fold r' in Hrun. split.
      * intros Hstop. rewrite Hstop in Hrun. exists e.
        unfold executeWorkflow, tryCatch. rewrite Hentries.
        cbn [length Nat.eqb forEntries]. unfold bind. by rewrite Hrun.
      * intros Hgo Hnone. rewrite Hgo, Hnone in Hrun.
        unfold executeWorkflow, tryCatch. rewrite Hentries.
        cbn [length Nat.eqb forEntries]. unfold bind. by rewrite Hrun.
  - exact Hreturned.
  - intros fuel nodeId workflow r result (Hfind & Hconfig & Hwhen) Hok Hstop.
    destruct (Hreturned (setCurrentNodeId r (Some nodeId)) result Hok)
      as (r' & Hrun & Hev & Hcalls).
    exists r'. subst config.
    rewrite (executeNode_after_loop fuel nodeId workflow node r _ _ Hfind Hwhen
               ltac:(rewrite Hthree; exact Hrun)).
    rewrite Hstop. auto.
Qed.

End RetryClaim.

(** C6 as the specification states it fails for an execution that fails
    without throwing: an API that answers 500 makes the executor return
    [{success: false, data, shouldContinue: false}]; the node, with
    [retryOnError = true] and [maxRetries = 3], is attempted once, no error
    is propagated, the message after it is not reached, and the run ends
    COMPLETED. *)
Lemma C6_returned_failure_counterexample :
  truthy (getProp (Cases.statusConfig false) "retryOnError") = true
  /\ Service.maxRetriesOf (Cases.statusConfig false) = 3%Z
  /\ (let '(outcome, r') :=
        Service.executeWorkflow (rt := Cases.apiRefuses) 2 (Cases.statusCheck false)
          Sample.freshRun in
      outcome = Ok ()
      /\ Service.events r' = [Service.Attempt "N" 1]
      /\ Service.status r' = COMPLETED
      /\ Service.variables r' !! "statusCode" = Some (JNum 500)).
Proof. vm_compute. repeat split; reflexivity. Qed.

Lemma C6_three_attempts_then_give_up_witness :
  let schedule :=
    [ Service.Attempt "N" 1; Service.Wait 1000; Service.Attempt "N" 2;
      Service.Wait 2000; Service.Attempt "N" 3 ] in
  (exists e,
     Service.executeWorkflow (rt := Cases.apiDown) 2 (Cases.statusCheck false)
       Sample.freshRun
     = (Throw e, Service.mkRun ∅ (Some "N") FAILED schedule 3))
  /\ Service.executeNode (rt := Cases.apiDown) 2 "N" (Cases.statusCheck true)
       Sample.freshRun
     = Service.executeNode (rt := Cases.apiDown) 1 "after" (Cases.statusCheck true)
         (Service.mkRun ∅ (Some "N") RUNNING schedule 3)
  /\ (let '(outcome, r') :=
        Service.executeWorkflow (rt := Cases.apiDown) 2 (Cases.statusCheck true)
          Sample.freshRun in
      outcome = Ok ()
      /\ Service.events r' = schedule ++ [Service.Attempt "after" 1]
      /\ Service.status r' = COMPLETED).
Proof.
  pose proof (C6_three_attempts_then_give_up (rt := Cases.apiDown)
                (Cases.statusNode false) (Cases.statusConfig false)) as Hstop.
  pose proof (C6_three_attempts_then_give_up (rt := Cases.apiDown)
                (Cases.statusNode true) (Cases.statusConfig true)) as Hgo.
  destruct Hstop as (_ & _ & _ & _ & Hstop & _);
    [vm_compute; reflexivity|vm_compute; reflexivity|].
  destruct Hgo as (_ & _ & _ & _ & Hgo & _);
    [vm_compute; reflexivity|vm_compute; reflexivity|].
  destruct Hstop as (_ & _ & Hstop);
    [intros attempt r; eexists; vm_compute; reflexivity|].
  destruct Hgo as (_ & Hgo & _);
    [intros attempt r; eexists; vm_compute; reflexivity|].
  intros schedule. split; [|split].
  - assert (Service.entryNodes (Cases.statusCheck false) = [Cases.statusNode false])
      as Hentries by (vm_compute; reflexivity).
    specialize (Hstop 1%nat (Cases.statusCheck false) Sample.freshRun Hentries).
    cbv zeta in Hstop.
    match type of Hstop with
    | ?P -> _ => assert P as Hexecuted by (repeat split; vm_compute; reflexivity)
    end.
    destruct (Hstop Hexecuted) as [Hfailed _].
    apply Hfailed. vm_compute. reflexivity.
  - specialize (Hgo 1%nat "N" (Cases.statusCheck true) Sample.freshRun).
    cbv zeta in Hgo.
    match type of Hgo with
    | ?P -> _ => assert P as Hexecuted by (repeat split; vm_compute; reflexivity)
    end.
    destruct (Hgo Hexecuted) as (_ & _ & Hedge).
    rewrite (Hedge eq_refl (mkEdge "e1" "N" "after" JNull) []); reflexivity.
  - vm_compute. repeat split; reflexivity.
Defined.

(** ** The loop guard *)

Section LoopGuard.

Import LoopDetector.

(** Within the time limit and below the node limit, a visit adds one to the
    node's count and throws WorkflowLoopError exactly when the new count
    exceeds [maxVisitsPerNode]. *)
Lemma visitNode_counts (d : Detector) (id : string) (now : Z) :
  (now - startTime d <= maxExecutionTime d)%Z ->
  (Z.of_nat (size (visits d)) < maxTotalNodes d)%Z ->
  (1 <= maxVisitsPerNode d)%Z ->
  let '(r, d') := visitNode d id now in
  visitCount d' id = (visitCount d id + 1)%Z
  /\ ((visitCount d id + 1 <= maxVisitsPerNode d)%Z -> r = Ok ())
  /\ ((maxVisitsPerNode d < visitCount d id + 1)%Z ->
      exists m, r = Throw (loopError m)).
Proof.
  intros Htime Hsize Hmax. unfold visitNode, visitCount.
  destruct (Z.ltb_spec (maxExecutionTime d) (now - startTime d)) as [|_]; [lia|].
  destruct (Z.leb_spec (maxTotalNodes d) (Z.of_nat (size (visits d)))) as [|_]; [lia|].
  destruct (visits d !! id) as [existing|] eqn:Hseen.
  - simpl.
    destruct (Z.ltb_spec (maxVisitsPerNode d) (count existing + 1)) as [Hover|Hok];
      simpl; rewrite lookup_insert_eq; simpl.
    + split; [reflexivity|]. split; [lia|]. intros _. eauto.
    + split; [reflexivity|]. split; [reflexivity|lia].
  - simpl. rewrite lookup_insert_eq. simpl.
    split; [reflexivity|]. split; [reflexivity|lia].
Qed.

(** Fed the dispatches of A -> B -> A, the detector with its default limits
    lets twenty visits pass and throws on the twenty-first, the eleventh
    visit of A. *)
Lemma detector_trips_on_eleventh_visit :
  exists d',
    visitAll (create None 0) (map snd (alternating "c1" "A" "B" 22)) 0 0
    = (Throw (loopError ("Infinite loop detected: node " +:+ dq +:+ "A" +:+ dq
                           +:+ " visited 11 times")), 20%nat, d')
    /\ visitCount d' "A" = 11%Z
    /\ visitCount d' "B" = 10%Z.
Proof.
  eexists. split; [vm_compute; reflexivity|]. split; vm_compute; reflexivity.
Qed.

End LoopGuard.

(** ** The claims on runaway runs, terminal states, unknown types and SSRF *)

Section Defects.
Context `{rt : Runtime}.

(** C1.  The persisted engine on a workflow with a cycle and no exit: the
    entry node S leads into A -> B -> A, no edge carries a condition.
    initializeWorkflowForConversation starts the run at S, and
    processNextNode never calls the loop detector, so the run is not
    aborted at the eleventh visit of a node nor at any other: whatever the
    fuel, the burst has neither returned nor thrown, it has dispatched S
    and then one node per unit of fuel, A and B in turn, and the execution
    row still says RUNNING. *)
Theorem C1_cycle_is_never_aborted (fuel : nat) :
  exists w',
    findEntryNode Cases.leadIn
    = Some (mkNode "S" "CONDITION_VARIABLE"
              (Sample.object [("variable", JStr "vip")]) "check")
    /\ initializeWorkflowForConversation (S fuel) "c1" "wf" None
         (Sample.withWorkflow "wf" Cases.leadIn Sample.emptyWorld)
       = (Pending, w')
    /\ dispatched w' = ("c1", "S") :: alternating "c1" "A" "B" fuel
    /\ length (dispatched w') = S fuel
    /\ statusOf w' "exec-0" = Some RUNNING.
Proof.
  set (entry := mkNode "S" "CONDITION_VARIABLE"
                  (Sample.object [("variable", JStr "vip")]) "check").
  set (context := mkContext "c1" "wf" "exec-0" (Some "S") ∅ false None None Cases.leadIn).
  set (w := Sample.withWorkflow "wf" Cases.leadIn Sample.emptyWorld).
  set (w1 := snd (saveContext context (snd (createExecution w)))).
  destruct (closed_region_never_settles (fun node => In node (nodes Cases.leadIn))
              (S fuel) context w1 entry)
    as (w' & Hrun & Hdisp & _ & _ & Hstatus).
  - exact leadIn_closed.
  - intros node Hin. simpl in Hin.
    destruct Hin as [<-|[<-|[<-|[]]]]; intros c v; eexists; reflexivity.
  - simpl. tauto.
  - reflexivity.
  - reflexivity.
  - exists w'. split; [reflexivity|].
    split.
    { unfold initializeWorkflowForConversation.
      unfold bind at 1. unfold getContext, gets. cbn [fst snd].
      change (redisState w !! "c1") with (@None ConversationExecutionContext).
      cbv iota beta. unfold bind at 1. cbv iota beta.
      change (workflowTable w !! "wf") with (Some (mkRow Cases.leadIn true false)).
      cbv iota beta. unfold bind at 1.
      change (createExecution w) with (Ok "exec-0", snd (createExecution w)).
      cbv iota beta.
      change (findEntryNode Cases.leadIn) with (Some entry). cbv iota beta.
      fold context. unfold bind at 1. unfold saveContext at 1, modify.
      cbv iota beta. fold (saveContext context). 
      unfold bind at 1. unfold detached, tryCatch.
      replace (setRedisState (snd (createExecution w)) _) with w1 by reflexivity.
      change (processNextNode (S fuel) _ w1) with (processNextNode (S fuel) context w1).
      by rewrite Hrun. }
    rewrite Hdisp. simpl.
    change (outgoingEdgesOf Cases.leadIn "S") with [mkEdge "e0" "S" "A" JNull].
    simpl. rewrite (proj1 (leadIn_path fuel)).
    split; [reflexivity|]. split; [by rewrite alternating_length|].
    rewrite Hstatus. reflexivity.
Qed.

(** A URL whose host is on the block list, or in one of the private
    ranges the code tests for, is rejected before [fetch] is reached. *)
Lemma blocked_host_is_rejected_before_fetch (config : JsValue) (variables : Vars)
    (w : World) (parsed : Url) :
  let url :=
    interpolateVariables (toStr (orElse (getProp config "url") (JStr ""))) variables in
  parseUrl url = Some parsed ->
  arrayIncludes blockedHosts (toLowerCase (hostname parsed)) = true
  \/ startsWith (hostname parsed) "192.168." = true
  \/ startsWith (hostname parsed) "10." = true
  \/ private172 (hostname parsed) = true
  \/ startsWith (hostname parsed) "169.254." = true ->
  exists e,
    validateApiUrl url = Some e
    /\ startsWith (message e) "Cannot" = true
    /\ executeActionApiCall config variables w = (Throw e, w).
Proof.
  intros url Hparse Hhost. unfold executeActionApiCall. fold url.
  unfold validateApiUrl. rewrite Hparse.
  destruct (arrayIncludes blockedHosts (toLowerCase (hostname parsed))).
  { eexists. split; [reflexivity|]. split; reflexivity. }
  destruct Hhost as [H|[H|[H|[H|H]]]]; [discriminate|..]; rewrite H;
    rewrite ?orb_true_r; simpl;
    (eexists; split; [reflexivity|]; split; reflexivity).
Qed.

(** C9.  A URL that [new URL] parses to the host [[::1]] (the IPv6 loopback,
    which the URL API reports with its brackets) or to [127.0.0.2] (inside
    127.0.0.0/8) passes validateApiUrl, and executeActionApiCall goes on to
    [fetch]. *)
Theorem C9_loopback_hosts_that_pass (config : JsValue) (variables : Vars) (w : World) :
  let url :=
    interpolateVariables (toStr (orElse (getProp config "url") (JStr ""))) variables in
  parseUrl url = Some (mkUrl "http:" "[::1]")
  \/ parseUrl url = Some (mkUrl "http:" "127.0.0.2") ->
  validateApiUrl url = None
  /\ executeActionApiCall config variables w
     = (Ok (fetchJson url config variables), setFetched w (fetched w ++ [url])).
Proof.
  intros url Hparse. unfold executeActionApiCall. fold url.
  assert (validateApiUrl url = None) as Hpass.
  { unfold validateApiUrl. destruct Hparse as [-> | ->]; reflexivity. }
  rewrite Hpass. split; reflexivity.
Qed.

End Defects.

Lemma C9_loopback_hosts_that_pass_witness :
  validateApiUrl (rt := Sample.runtime) "http://[::1]/admin" = None
  /\ executeActionApiCall (rt := Sample.runtime)
       (Sample.object [("url", JStr "http://[::1]/admin")]) ∅ Sample.emptyWorld
     = (Ok {[ "apiSuccess" := JBool true ]},
        setFetched Sample.emptyWorld ["http://[::1]/admin"]).
Proof.
  apply (C9_loopback_hosts_that_pass (rt := Sample.runtime)
           (Sample.object [("url", JStr "http://[::1]/admin")]) ∅ Sample.emptyWorld).
  left. vm_compute. reflexivity.
Defined.

(** The example of the specification: [http://127.0.0.1/admin] is rejected
    and the call throws with no request made. *)
Lemma loopback_example_is_rejected :
  executeActionApiCall (rt := Sample.runtime)
    (Sample.object [("url", JStr "http://127.0.0.1/admin")]) ∅ Sample.emptyWorld
  = (Throw (plainError "Cannot call localhost or internal addresses"), Sample.emptyWorld).
Proof. vm_compute. reflexivity. Qed.

(** C2.  A run that fails: the single node of the workflow is an API call to
    a loopback address, whose handler throws.  The burst's [catch] marks the
    execution FAILED and nothing deletes the context: getWorkflowState still
    returns it. *)
Theorem C2_failed_run_keeps_its_context :
  let '(r, w') :=
    initializeWorkflowForConversation (rt := Sample.runtime) 3 "c1" "wf" None
      (Sample.withWorkflow "wf" Sample.loopbackCall Sample.emptyWorld) in
  r = Ok (Started "exec-0")
  /\ statusOf w' "exec-0" = Some FAILED
  /\ exists context,
       fst (getWorkflowState "c1" w') = Ok (Some context)
       /\ currentNodeId context = Some "call"
       /\ waitingForInput context = false.
Proof.
  vm_compute. split; [reflexivity|]. split; [reflexivity|].
  eexists. split; [reflexivity|]. split; reflexivity.
Qed.

(** ** Node types without a handler *)

Section UnknownTypes.
Context `{rt : Runtime}.

Lemma merged_empty (context : ConversationExecutionContext) :
  merged ∅ context = context.
Proof.
  unfold merged. rewrite (left_id_L ∅ (∪)). by destruct context.
Qed.

(** The persisted engine steps over a node of unknown type onto the
    successor the router picks, with the variables it had. *)
Lemma unknown_type_is_stepped_over (fuel : nat)
    (context : ConversationExecutionContext) (w : World) (node : Node)
    (next : string) :
  currentNodeId context = Some (node_id node) ->
  node_id node <> "" ->
  findNode (workflow context) (node_id node) = Some node ->
  arrayIncludes recognizedTypes (node_type node) = false ->
  waitingForInput context = false ->
  findNextNode node context = Some next ->
  next <> "" ->
  let moved := setCurrentNodeId context (Some next) in
  let recorded :=
    setDispatched (announced context node w)
      (dispatched (announced context node w)
         ++ [(conversationId context, node_id node)]) in
  processNextNode (S fuel) context w
  = match processNextNode fuel moved (snd (saveContext moved recorded)) with
    | (Throw e, w') =>
        (Throw e, snd (addExecutionLog (executionId context) ("Error: " +:+ message e) w'))
    | other => other
    end.
Proof.
  intros Hcur Hne Hfind Hunknown Hwait Hnext Hnext' moved recorded.
  rewrite (processNextNode_continues fuel context context w recorded node ∅ next);
    auto.
  - by rewrite merged_empty.
  - by apply executeNode_default.
  - by rewrite merged_empty.
Qed.

Import Service.

Lemma executeNodeByType_unknown (node : Node) (variables : Vars) (call : nat) :
  arrayIncludes knownTypes (node_type node) = false ->
  executeNodeByType node variables call
  = mkSettled (Throw (workflowError ("Unknown node type: " +:+ node_type node))) 0.
Proof. intros H. unfold executeNodeByType. by rewrite H. Qed.

(** In the synchronous engine a node of unknown type that sets no timeout,
    no retry and no continueOnError is attempted once and fails the run. *)
Lemma unknown_type_fails_sync_run (fuel : nat) (nodeId : string)
    (workflow : Workflow) (node : Node) (r : Run) :
  findNode workflow nodeId = Some node ->
  arrayIncludes knownTypes (node_type node) = false ->
  let config := orElse (node_config node) (JObj ∅) in
  truthy (getProp config "executeWhen") = false ->
  truthy (getProp config "timeout") = false ->
  truthy (getProp config "retryOnError") = false ->
  truthy (getProp config "continueOnError") = false ->
  exists r',
    Service.executeNode (S fuel) nodeId workflow r
    = (Throw (workflowError ("Unknown node type: " +:+ node_type node)), r')
    /\ events r' = events r ++ [Attempt (node_id node) 1].
Proof.
  intros Hfind Hunknown config Hwhen Htimeout Hretry Hcontinue.
  assert (maxRetriesOf config = 1%Z) as Hone.
  { unfold maxRetriesOf. by rewrite Hretry. }
  eexists. split.
  - rewrite (executeNode_after_loop fuel nodeId workflow node r
               (countCall (addEvent (Attempt (node_id node) 1)
                             (setCurrentNodeId r (Some nodeId))))
               (Throw (workflowError ("Unknown node type: " +:+ node_type node)))
               Hfind).
    + reflexivity.
    + fold config. by rewrite Hwhen.
    + fold config. rewrite Hone.
      change (Z.to_nat 1) with 1%nat.
      rewrite (retryLoop_failed_attempt 0 node config 1 0 None
                 (setCurrentNodeId r (Some nodeId))
                 (workflowError ("Unknown node type: " +:+ node_type node))).
      * simpl. by rewrite Hcontinue.
      * lia.
      * unfold attemptNode. rewrite Htimeout.
        by rewrite executeNodeByType_unknown.
  - reflexivity.
Qed.

(** C3 (as the code has it).  A node whose type has no [case]:
    - in the persisted engine, executeNode logs a warning and returns an
      empty object; nothing is thrown, the variables stay as they are, and
      processNextNode goes on to the successor the router picks: the node is
      skipped and the run does not fail;
    - in the synchronous engine, executeNodeByType throws
      [Unknown node type: T]; the error enters the retry loop like any
      other, and a node that sets no timeout, no retryOnError and no
      continueOnError is attempted once and throws it out of executeNode. *)
Theorem C3_unknown_type_by_engine :
  (forall (node : Node) (context : ConversationExecutionContext) (w : World),
     arrayIncludes recognizedTypes (node_type node) = false ->
     Executor.executeNode node context w
     = (Ok (∅, context),
        setDispatched w (dispatched w ++ [(conversationId context, node_id node)])))
  /\ (forall (fuel : nat) (context : ConversationExecutionContext) (w : World)
        (node : Node) (next : string),
        Executor.currentNodeId context = Some (node_id node) ->
        node_id node <> "" ->
        findNode (workflow context) (node_id node) = Some node ->
        arrayIncludes recognizedTypes (node_type node) = false ->
        waitingForInput context = false ->
        findNextNode node context = Some next ->
        next <> "" ->
        let moved := Executor.setCurrentNodeId context (Some next) in
        let recorded :=
          setDispatched (announced context node w)
            (dispatched (announced context node w)
               ++ [(conversationId context, node_id node)]) in
        processNextNode (S fuel) context w
        = match processNextNode fuel moved (snd (saveContext moved recorded)) with
          | (Throw e, w') =>
              (Throw e,
               snd (addExecutionLog (executionId context) ("Error: " +:+ message e) w'))
          | other => other
          end)
  /\ (forall (node : Node) (variables : Vars) (call : nat),
        arrayIncludes knownTypes (node_type node) = false ->
        executeNodeByType node variables call
        = mkSettled (Throw (workflowError ("Unknown node type: " +:+ node_type node))) 0)
  /\ (forall (fuel : nat) (nodeId : string) (workflow : Workflow) (node : Node)
        (r : Run),
        findNode workflow nodeId = Some node ->
        arrayIncludes knownTypes (node_type node) = false ->
        let config := orElse (node_config node) (JObj ∅) in
        truthy (getProp config "executeWhen") = false ->
        truthy (getProp config "timeout") = false ->
        truthy (getProp config "retryOnError") = false ->
        truthy (getProp config "continueOnError") = false ->
        exists r',
          Service.executeNode (S fuel) nodeId workflow r
          = (Throw (workflowError ("Unknown node type: " +:+ node_type node)), r')
          /\ events r' = events r ++ [Attempt (node_id node) 1]).
Proof.
  split; [|split; [|split]].
  - intros. by apply executeNode_default.
  - intros. by apply unknown_type_is_stepped_over.
  - intros. by apply executeNodeByType_unknown.
  - intros. by apply unknown_type_fails_sync_run.
Qed.

End UnknownTypes.

(** C3 as the specification states it fails: [ACTION_DELAY] has no [case] in
    the persisted engine, yet the run that meets it is not failed; the node
    after it is dispatched and the run ends COMPLETED. *)
Lemma C3_unknown_type_counterexample :
  arrayIncludes recognizedTypes "ACTION_DELAY" = false
  /\ (let '(r, w') :=
        initializeWorkflowForConversation (rt := Sample.runtime) 3 "c1" "wf" None
          (Sample.withWorkflow "wf" Sample.delayThenSet Sample.emptyWorld) in
      r = Ok (Started "exec-0")
      /\ statusOf w' "exec-0" = Some COMPLETED
      /\ dispatched w' = [("c1", "X"); ("c1", "Y")]).
Proof. vm_compute. repeat split; reflexivity. Qed.

Lemma C3_unknown_type_by_engine_witness :
  Executor.executeNode (rt := Sample.runtime)
    (mkNode "X" "ACTION_DELAY" (Sample.object [("duration", JNum 1000)]) "delay")
    Sample.lastStep Sample.emptyWorld
  = (Ok (∅, Sample.lastStep), setDispatched Sample.emptyWorld [("c1", "X")])
  /\ exists r',
       Service.executeNode (rt := Sample.runtime) 1 "Z"
         (mkWorkflow [mkNode "Z" "ACTION_WAIT_FOR_INPUT" (Sample.object []) "wait"] [] [])
         Sample.freshRun
       = (Throw (workflowError "Unknown node type: ACTION_WAIT_FOR_INPUT"), r')
       /\ Service.events r' = [Service.Attempt "Z" 1].
Proof.
  destruct (C3_unknown_type_by_engine (rt := Sample.runtime))
    as (Hskip & _ & _ & Hsync).
  split.
  - apply Hskip. vm_compute. reflexivity.
  - apply (Hsync 0 "Z"
             (mkWorkflow [mkNode "Z" "ACTION_WAIT_FOR_INPUT" (Sample.object []) "wait"]
                [] [])
             (mkNode "Z" "ACTION_WAIT_FOR_INPUT" (Sample.object []) "wait")
             Sample.freshRun); vm_compute; reflexivity.
Defined.

(** * Further properties *)

(** ** The lock *)

Section Locks.

(** X1.  [withLock] is scoped.  With the lock free and a callback that
    settles and leaves the lock table alone, the caller gets the callback's
    own outcome, return or throw, the callback ran on the stores with the
    lock held under a fresh token, and afterwards the lock table is what it
    was before the call while everything else is as the callback left it. *)
Theorem withLock_hands_the_lock_back {A} (resource : string) (fn : M A)
    (retries : nat) (w : World) :
  redisLocks w !! lockKey resource = None ->
  let inside :=
    setRedisLocks (setCounter w (S (counter w)))
      (<[lockKey resource := "token-" +:+ pretty (counter w)]> (redisLocks w)) in
  redisLocks (snd (fn inside)) = redisLocks inside ->
  fst (fn inside) <> Pending ->
  let after := snd (withLock resource fn (S retries) w) in
  fst (withLock resource fn (S retries) w) = fst (fn inside)
  /\ redisLocks after = redisLocks w
  /\ redisState after = redisState (snd (fn inside))
  /\ executionTable after = executionTable (snd (fn inside))
  /\ messageTable after = messageTable (snd (fn inside))
  /\ dispatched after = dispatched (snd (fn inside)).
Proof.
  intros Hfree inside Hkeeps _ after. subst after.
  rewrite withLock_free by exact Hfree. fold inside.
  destruct (fn inside) as [r w'] eqn:Hfn. simpl in *.
  pose proof (release_stores (lockKey resource) ("token-" +:+ pretty (counter w)) w')
    as (Hs & _ & He & Hm & _ & Hd & _).
  split; [reflexivity|]. split; [|by auto].
  by apply release_own.
Qed.

End Locks.

(** ** The lock with its expiry *)

Section Timed.

Import TimedLock.

Lemma pendingLags_reach (s : Redis) :
  (clock (reach s) + Survey.pendingLags (reach s) = clock s + Survey.pendingLags s)%Z
  /\ entries (reach s) = entries s
  /\ tokens (reach s) = tokens s
  /\ (clock s <= clock (reach s))%Z.
Proof.
  unfold reach, Survey.pendingLags. destruct s as [e c t [|lag rest]]; simpl.
  - repeat split; lia.
  - repeat split; lia.
Qed.

Lemma pendingLags_nonneg (s : Redis) : (0 <= Survey.pendingLags s)%Z.
Proof.
  unfold Survey.pendingLags. induction (lags s) as [|lag rest IH]; simpl; lia.
Qed.

(** While the key is held by someone else and does not expire, every round
    of the loop is refused: the loop ends with [false], Redis is as it
    was, and only time has passed. *)
Lemma acquireLoop_refused (lock : Lock) (waitMs retries : Z) (e : Entry) (rounds : nat) :
  forall (i : Z) (s : Redis),
    entries s !! lockKey lock = Some e ->
    (clock s + Survey.pendingLags s + Survey.sleepsFrom waitMs retries rounds i
     < expiresAt e)%Z ->
    exists s',
      acquireLoop lock waitMs retries rounds i s = (Ok false, s')
      /\ entries s' = entries s
      /\ tokens s' = tokens s
      /\ (clock s' + Survey.pendingLags s'
          <= clock s + Survey.pendingLags s + Survey.sleepsFrom waitMs retries rounds i)%Z.
Proof.
  induction rounds as [|rounds IH]; intros i s Hheld Hlive.
  { exists s. simpl. repeat split; auto. simpl in Hlive. lia. }
  simpl in Hlive.
  destruct (pendingLags_reach s) as (Hsum & Hent & Htok & Hmono).
  pose proof (pendingLags_nonneg (reach s)) as Hpos.
  assert (forall k, (0 <= Survey.sleepsFrom waitMs retries rounds k)%Z) as Hsleeps.
  { clear. induction rounds as [|n IHn]; intros k; simpl; [lia|].
    specialize (IHn (k + 1)%Z). destruct (k <? retries - 1)%Z; lia. }
  pose proof (Hsleeps (i + 1)%Z) as Hrest.
  assert (acquire lock s = (Ok false, reach s)) as Hacq.
  { unfold acquire. destruct (ttl lock <=? 0)%Z; [reflexivity|].
    unfold get. rewrite Hent, Hheld.
    destruct (Z.ltb_spec (clock (reach s)) (expiresAt e)) as [_|Hge]; [reflexivity|].
    destruct (i <? retries - 1)%Z; lia. }
  cbn [acquireLoop]. unfold bind at 1. rewrite Hacq. cbv iota beta.
  destruct (i <? retries - 1)%Z eqn:Hi.
  - unfold bind at 1. unfold sleep, modify. cbv iota beta.
    set (s1 := elapse (waitMs * (i + 1)) (reach (reach s))).
    destruct (pendingLags_reach (reach s)) as (Hsum2 & Hent2 & Htok2 & Hmono2).
    assert (clock s1 + Survey.pendingLags s1
            = clock s + Survey.pendingLags s + Z.max 0 (waitMs * (i + 1)))%Z as Hs1.
    { unfold s1, elapse, Survey.pendingLags. simpl.
      unfold Survey.pendingLags in Hsum, Hsum2. lia. }
    destruct (IH (i + 1)%Z s1) as (s' & Hrun & He & Ht & Hc).
    + unfold s1. simpl. by rewrite Hent2, Hent.
    + lia.
    + exists s'. rewrite Hrun. split; [reflexivity|].
      split; [by rewrite He; unfold s1; simpl; rewrite Hent2, Hent|].
      split; [by rewrite Ht; unfold s1; simpl; rewrite Htok2, Htok|].
      cbn [Survey.sleepsFrom]. rewrite Hi. lia.
  - unfold bind at 1. unfold ret at 1. cbv iota beta.
    destruct (IH (i + 1)%Z (reach s)) as (s' & Hrun & He & Ht & Hc).
    + by rewrite Hent.
    + lia.
    + exists s'. rewrite Hrun. split; [reflexivity|].
      split; [by rewrite He, Hent|]. split; [by rewrite Ht, Htok|].
      cbn [Survey.sleepsFrom]. rewrite Hi. lia.
Qed.

(** X2.  withLock is not reentrant.  A call of withLock made inside the
    callback of a withLock on the same resource finds the key set; as long
    as the lags to come and the waits of the inner call together are
    shorter than the time to live of the outer key, every round of the
    inner call is refused, it throws "Failed to acquire lock", its callback
    is not run, and the outer call hands the key back. *)
Theorem withLock_is_not_reentrant (resource : string) (outer inner : Options)
    (s : Redis) :
  entries s !! ("lock:" +:+ resource) = None ->
  (0 < default 30 (o_ttl outer))%Z ->
  (0 < default 3 (o_retries outer))%Z ->
  (Survey.pendingLags s + Survey.sleeps inner < 1000 * default 30 (o_ttl outer))%Z ->
  exists s',
    (forall (A : Type) (fn : M A),
       withLock resource (withLock resource fn inner) outer s
       = (Throw (plainError ("Failed to acquire lock for resource: " +:+ resource)), s'))
    /\ entries s' = entries s
    /\ tokens s' = S (S (tokens s)).
Proof.
  intros Hfree Httl Hretries Hshort.
  set (key := "lock:" +:+ resource) in *.
  set (ttl0 := default 30%Z (o_ttl outer)) in *.
  set (lock0 := mkLock key ("token-" +:+ pretty (tokens s)) ttl0).
  set (s0 := mkRedis (entries s) (clock s) (S (tokens s)) (lags s)).
  destruct (pendingLags_reach s0) as (Hsum & Hent & Htok & Hmono).
  set (held := mkEntry (lockValue lock0) (clock (reach s0) + 1000 * ttl0)).
  set (s1 := setEntries (reach s0) (<[key := held]> (entries (reach s0)))).
  set (lock1 := mkLock key ("token-" +:+ pretty (tokens s1))
                  (default 30%Z (o_ttl inner))).
  set (s2 := mkRedis (entries s1) (clock s1) (S (tokens s1)) (lags s1)).
  assert (Survey.pendingLags s0 = Survey.pendingLags s) as Hp0 by reflexivity.
  assert (clock s0 = clock s) as Hc0 by reflexivity.
  pose proof (pendingLags_nonneg (reach s0)) as Hpos.
  destruct (acquireLoop_refused lock1 (default 100%Z (o_waitMs inner))
              (default 3%Z (o_retries inner)) held
              (Z.to_nat (default 3%Z (o_retries inner))) 0 s2)
    as (s3 & Hloop & He3 & Ht3 & Hc3).
  { simpl. by rewrite lookup_insert_eq. }
  { change (clock s2) with (clock (reach s0)).
    change (Survey.pendingLags s2) with (Survey.pendingLags (reach s0)).
    unfold Survey.sleeps in Hshort. simpl expiresAt. lia. }
  change (clock s2) with (clock (reach s0)) in Hc3.
  change (Survey.pendingLags s2) with (Survey.pendingLags (reach s0)) in Hc3.
  destruct (pendingLags_reach s3) as (Hsum3 & Hent3 & Htok3 & Hmono3).
  pose proof (pendingLags_nonneg (reach s3)) as Hpos3.
  exists (setEntries (reach s3) (delete key (entries (reach s3)))).
  split; [|split].
  - intros A fn. unfold withLock at 1. fold ttl0.
    unfold bind at 1. unfold create at 1. cbv iota beta. fold key lock0 s0.
    unfold bind at 1.
    assert (acquireLoop lock0 (default 100%Z (o_waitMs outer))
              (default 3%Z (o_retries outer))
              (Z.to_nat (default 3%Z (o_retries outer))) 0 s0 = (Ok true, s1)) as Hout.
    { destruct (Z.to_nat (default 3%Z (o_retries outer))) as [|rounds] eqn:Hrounds;
        [lia|].
      cbn [acquireLoop]. unfold bind at 1. unfold acquire.
      destruct (Z.leb_spec (ttl lock0) 0) as [Hle|_]; [simpl in Hle; lia|].
      unfold get. simpl lockKey. unfold s1, held. rewrite Hent. simpl entries.
      rewrite Hfree. reflexivity. }
    rewrite Hout. cbv iota beta.
    unfold withLock. unfold bind at 1. unfold create at 1. cbv iota beta.
    fold key lock1 s2. unfold bind at 1. rewrite Hloop. cbv iota beta.
    unfold throw. cbv iota beta.
    unfold release. simpl lockKey. simpl lockValue.
    unfold get. rewrite Hent3, He3. simpl entries. rewrite lookup_insert_eq.
    destruct (Z.ltb_spec (clock (reach s3)) (expiresAt held)) as [_|Hge].
    + simpl value. by rewrite String.eqb_refl.
    + simpl in Hge. unfold Survey.sleeps in Hshort. lia.
  - simpl. rewrite Hent3, He3. simpl. rewrite Hent. simpl.
    rewrite delete_insert_eq. by apply delete_id.
  - simpl. rewrite Htok3, Ht3. simpl. by rewrite Htok.
Qed.

End Timed.

(** Once the outer key has expired the inner call does get in: with the
    default 30 s for the outer call and one wait of 31 s in the inner one,
    the second round of the inner call sets the key and the inner callback
    runs inside the outer one. *)
Lemma withLock_reenters_after_expiry :
  let inner := TimedLock.mkOptions None (Some 31000%Z) (Some 2%Z) in
  let s := TimedLock.mkRedis ∅ 0 0 [] in
  exists s',
    TimedLock.withLock "c1" (TimedLock.withLock "c1" (ret "ran") inner)
      (TimedLock.mkOptions None None None) s
    = (Ok "ran", s')
    /\ TimedLock.clock s' = 31000%Z
    /\ TimedLock.entries s' = ∅.
Proof.
  eexists. split; [vm_compute; reflexivity|]. split; reflexivity.
Qed.

Lemma withLock_hands_the_lock_back_witness :
  let w := Sample.emptyWorld in
  let fn := sendMessageToUser "c1" "hello" in
  fst (withLock "r" fn 3 w) = Ok ()
  /\ redisLocks (snd (withLock "r" fn 3 w)) = redisLocks w
  /\ messageTable (snd (withLock "r" fn 3 w)) = [("c1", "hello")].
Proof.
  destruct (withLock_hands_the_lock_back "r" (sendMessageToUser "c1" "hello") 2
              Sample.emptyWorld) as (Hr & Hl & _ & _ & Hm & _).
  - reflexivity.
  - reflexivity.
  - discriminate.
  - split; [exact Hr|]. split; [exact Hl|exact Hm].
Defined.

Lemma withLock_is_not_reentrant_witness :
  exists s',
    (forall (A : Type) (fn : TimedLock.M A),
       TimedLock.withLock "c1"
         (TimedLock.withLock "c1" fn
            (TimedLock.mkOptions (Some 30%Z) (Some 200%Z) (Some 5%Z)))
         (TimedLock.mkOptions (Some 30%Z) (Some 200%Z) (Some 5%Z))
         (TimedLock.mkRedis ∅ 0 0 [3; 2; 5; 1; 4; 2; 6; 1; 3; 2; 2; 1]%Z)
       = (Throw (plainError "Failed to acquire lock for resource: c1"), s'))
    /\ TimedLock.entries s' = ∅
    /\ TimedLock.tokens s' = 2%nat.
Proof.
  apply (withLock_is_not_reentrant "c1"
           (TimedLock.mkOptions (Some 30%Z) (Some 200%Z) (Some 5%Z))
           (TimedLock.mkOptions (Some 30%Z) (Some 200%Z) (Some 5%Z))
           (TimedLock.mkRedis ∅ 0 0 [3; 2; 5; 1; 4; 2; 6; 1; 3; 2; 2; 1]%Z)).
  - reflexivity.
  - reflexivity.
  - reflexivity.
  - vm_compute. reflexivity.
Defined.

(** ** The loop detector *)

Section Detector.

Import LoopDetector Guard Survey.

(** what one visit that returns does to the detector *)
Lemma visitNode_returns (d d' : Detector) (id : string) (now : Z) (u : unit) :
  visitNode d id now = (Ok u, d') ->
  (Z.of_nat (size (visits d)) < maxTotalNodes d)%Z
  /\ maxVisitsPerNode d' = maxVisitsPerNode d
  /\ maxTotalNodes d' = maxTotalNodes d
  /\ startTime d' = startTime d
  /\ maxExecutionTime d' = maxExecutionTime d
  /\ exists v,
       visits d' = <[id := v]> (visits d)
       /\ (count v <= visitsAllowed d)%Z
       /\ match visits d !! id with
          | Some existing => count v = (count existing + 1)%Z
          | None => count v = 1%Z
          end.
Proof.
  unfold visitNode, visitsAllowed.
  destruct (maxExecutionTime d <? now - startTime d)%Z; [discriminate|].
  destruct (Z.leb_spec (maxTotalNodes d) (Z.of_nat (size (visits d)))) as [|Hsize];
    [discriminate|].
  destruct (visits d !! id) as [existing|] eqn:Hseen.
  - simpl. destruct (Z.ltb_spec (maxVisitsPerNode d) (count existing + 1)) as [|Hok];
      [discriminate|].
    intros [= _ <-]. simpl. repeat split; auto.
    eexists. split; [reflexivity|]. simpl. split; [lia|reflexivity].
  - intros [= _ <-]. simpl. repeat split; auto.
    eexists. split; [reflexivity|]. simpl. split; [lia|reflexivity].
Qed.

Lemma visitsMade_insert_new (d : Detector) (id : string) (v : NodeVisit) :
  visits d !! id = None ->
  visitsMade (withVisits d (<[id := v]> (visits d))) = (count v + visitsMade d)%Z.
Proof.
  intros Hnew. unfold visitsMade. simpl.
  rewrite map_fold_insert_L; [reflexivity| |exact Hnew].
  intros; lia.
Qed.

Lemma visitsMade_delete (m : gmap string NodeVisit) (id : string) (v : NodeVisit) :
  m !! id = Some v ->
  map_fold (fun _ v acc => (count v + acc)%Z) 0%Z m
  = (count v + map_fold (fun _ v acc => (count v + acc)%Z) 0%Z (delete id m))%Z.
Proof.
  intros Hin. rewrite <- (insert_delete_id m id v Hin) at 1.
  rewrite map_fold_insert_L; [reflexivity| |apply lookup_delete_eq].
  intros; lia.
Qed.

Lemma visitsMade_bound (m : gmap string NodeVisit) (limit : Z) :
  (0 <= limit)%Z ->
  (forall id v, m !! id = Some v -> (count v <= limit)%Z) ->
  (map_fold (fun _ v acc => (count v + acc)%Z) 0%Z m <= Z.of_nat (size m) * limit)%Z.
Proof.
  intros Hlimit. induction m as [|id v m Hnew IH] using map_ind; intros Hall.
  - rewrite map_fold_empty, map_size_empty. lia.
  - rewrite map_fold_insert_L; [| intros; lia | exact Hnew].
    rewrite map_size_insert_None by exact Hnew.
    assert (count v <= limit)%Z by (apply (Hall id); apply lookup_insert_eq).
    assert (map_fold (fun _ v acc => (count v + acc)%Z) 0%Z m
            <= Z.of_nat (size m) * limit)%Z.
    { apply IH. intros j x Hj. apply (Hall j).
      rewrite lookup_insert_ne; [exact Hj|]. intros ->. congruence. }
    lia.
Qed.

(** the visits counted so far, while every visit returned *)
Lemma replay_counts (calls : list (string * Z)) :
  forall (d : Detector) (done : nat),
    (forall id v, visits d !! id = Some v -> (count v <= visitsAllowed d)%Z) ->
    (Z.of_nat (size (visits d)) <= Z.max 0 (maxTotalNodes d))%Z ->
    let '(r, n, d') := replay d calls done in
    (Z.of_nat n - Z.of_nat done + visitsMade d
     <= Z.max 0 (maxTotalNodes d) * visitsAllowed d)%Z
    /\ (r = Ok () -> n = (done + length calls)%nat)
    /\ r <> Pending.
Proof.
  induction calls as [|[id now] rest IH]; intros d done Hcounts Hsize.
  - simpl. split; [|split; [intros _; lia|discriminate]].
    pose proof (visitsMade_bound (visits d) (visitsAllowed d)) as Hb.
    unfold visitsMade. unfold visitsAllowed in *.
    specialize (Hb ltac:(lia) Hcounts). nia.
  - simpl. destruct (visitNode d id now) as [[[]|e|] d1] eqn:Hvisit.
    + destruct (visitNode_returns d d1 id now () Hvisit)
        as (Hlt & Hv & Ht & _ & _ & v & Hvisits & Hcount & Hnew).
      assert (visitsMade d1 = visitsMade d + 1)%Z as Hmade.
      { unfold visitsMade. rewrite Hvisits.
        destruct (visits d !! id) as [existing|] eqn:Hseen.
        - rewrite (visitsMade_delete (visits d) id existing Hseen).
          rewrite <- insert_delete_eq.
          rewrite map_fold_insert_L; [lia| intros; lia | apply lookup_delete_eq].
        - rewrite map_fold_insert_L; [lia| intros; lia | exact Hseen]. }
      specialize (IH d1 (S done)).
      destruct (replay d1 rest (S done)) as [[r n] d'].
      unfold visitsAllowed in *. rewrite Hv, Ht in IH.
      destruct IH as (Hbound & Hall & Hpending).
      * intros j x. rewrite Hvisits.
        destruct (decide (j = id)) as [->|Hne].
        -- rewrite lookup_insert_eq. intros [= <-]. exact Hcount.
        -- rewrite lookup_insert_ne by done. apply Hcounts.
      * rewrite Hvisits.
        destruct (visits d !! id) as [existing|] eqn:Hseen.
        -- rewrite map_size_insert_Some by eauto. exact Hsize.
        -- rewrite map_size_insert_None by exact Hseen. lia.
      * split; [lia|]. split; [|exact Hpending].
        intros Hr. rewrite (Hall Hr). simpl. lia.
    + split; [|split; [discriminate|discriminate]].
      pose proof (visitsMade_bound (visits d) (visitsAllowed d)) as Hb.
      unfold visitsMade. unfold visitsAllowed in *.
      specialize (Hb ltac:(lia) Hcounts). nia.
    + exfalso. unfold visitNode in Hvisit.
      repeat match type of Hvisit with
      | context [if ?b then _ else _] => destruct b
      | context [match ?o with Some _ => _ | None => _ end] => destruct o
      end; discriminate.
Qed.

(** X3.  What the guard guarantees to a run that calls it before every
    node: however the run goes on, and whatever the clock shows at each
    call, at most [maxTotalNodes] times [max 1 maxVisitsPerNode] visits
    return before one throws.  A longer sequence of visits is always cut short by
    a WorkflowLoopError. *)
Theorem detector_bounds_every_run (options : option Options) (start : Z)
    (calls : list (string * Z)) :
  let d := create options start in
  let bound := (Z.max 0 (maxTotalNodes d) * visitsAllowed d)%Z in
  let '(r, returned, _) := replay d calls 0 in
  (Z.of_nat returned <= bound)%Z
  /\ ((bound < Z.of_nat (length calls))%Z -> exists e, r = Throw e).
Proof.
  intros d bound.
  pose proof (replay_counts calls d 0) as H.
  destruct (replay d calls 0) as [[r n] d'].
  destruct H as (Hbound & Hall & Hpending).
  - intros id v. subst d. unfold create. simpl. by rewrite lookup_empty.
  - subst d. unfold create. simpl. rewrite map_size_empty. lia.
  - assert (visitsMade d = 0%Z) as Hzero
      by (subst d; unfold visitsMade, create; simpl; apply map_fold_empty).
    rewrite Hzero in Hbound. subst bound.
    split; [lia|]. intros Hlong.
    destruct r as [[]|e|]; [|by eauto|by destruct Hpending].
    specialize (Hall eq_refl). lia.
Qed.

(** X4.  A guard that has thrown keeps throwing: once a visit of a node
    was refused, for the time, for the number of nodes or for the visits of
    that node, every later visit of the same node is refused too, so a
    caller that swallows the error cannot go on along the same node. *)
Theorem detector_stays_tripped (d d' : Detector) (id : string) (now later : Z)
    (e : Error) :
  visitNode d id now = (Throw e, d') ->
  (now <= later)%Z ->
  exists e' d'', visitNode d' id later = (Throw e', d'').
Proof.
  unfold visitNode. intros Hvisit Hlater.
  destruct (Z.ltb_spec (maxExecutionTime d) (now - startTime d)) as [Hlate|Hintime].
  { injection Hvisit as _ <-.
    destruct (Z.ltb_spec (maxExecutionTime d) (later - startTime d)); [eauto|lia]. }
  destruct (Z.leb_spec (maxTotalNodes d) (Z.of_nat (size (visits d)))) as [Hfull|Hroom].
  { injection Hvisit as _ <-.
    destruct (maxExecutionTime d <? later - startTime d)%Z; [eauto|].
    destruct (Z.leb_spec (maxTotalNodes d) (Z.of_nat (size (visits d)))); [eauto|lia]. }
  destruct (visits d !! id) as [existing|] eqn:Hseen; [|discriminate].
  simpl in Hvisit.
  destruct (Z.ltb_spec (maxVisitsPerNode d) (count existing + 1)) as [Hover|];
    [|discriminate].
  injection Hvisit as _ <-. simpl.
  destruct (maxExecutionTime d <? later - startTime d)%Z; [eauto|].
  destruct (maxTotalNodes d <=? _)%Z; [eauto|].
  rewrite lookup_insert_eq. simpl.
  destruct (Z.ltb_spec (maxVisitsPerNode d) (count existing + 1 + 1)); [eauto|lia].
Qed.

(** X5.  [reset] re-arms the guard: whatever it had counted and whether or
    not it had tripped, after a reset the next visit within the time limit
    returns and is counted as the first visit of its node, provided the
    guard allows any node at all. *)
Theorem reset_rearms_the_detector (d : Detector) (id : string) (at_reset now : Z) :
  (1 <= maxTotalNodes d)%Z ->
  (now - at_reset <= maxExecutionTime d)%Z ->
  let '(r, d') := visitNode (reset d at_reset) id now in
  r = Ok ()
  /\ visitCount d' id = 1%Z
  /\ size (visits d') = 1%nat.
Proof.
  intros Hnodes Htime. unfold visitNode, reset, visitCount. simpl.
  destruct (Z.ltb_spec (maxExecutionTime d) (now - at_reset)) as [|_]; [lia|].
  rewrite map_size_empty.
  destruct (Z.leb_spec (maxTotalNodes d) (Z.of_nat 0)) as [|_]; [lia|].
  rewrite lookup_empty. simpl. rewrite lookup_insert_eq. simpl.
  split; [reflexivity|]. split; [reflexivity|].
  rewrite insert_empty. apply map_size_singleton.
Qed.

(** a visit of a node seen before, within the time and node limits *)
Lemma visitNode_again (d : Detector) (id : string) (now : Z) (v : NodeVisit) :
  visits d !! id = Some v ->
  (Z.of_nat (size (visits d)) < maxTotalNodes d)%Z ->
  (now - startTime d <= maxExecutionTime d)%Z ->
  visitNode d id now
  = (if (maxVisitsPerNode d <? count v + 1)%Z
     then Throw (loopError ("Infinite loop detected: node " +:+ dq +:+ id +:+ dq
                              +:+ " visited " +:+ pretty (count v + 1)%Z
                              +:+ " times"))
     else Ok (),
     withVisits d (<[id := mkVisit (nodeId v) now (count v + 1)]> (visits d))).
Proof.
  intros Hseen Hsize Htime. unfold visitNode.
  destruct (Z.ltb_spec (maxExecutionTime d) (now - startTime d)) as [|_]; [lia|].
  destruct (Z.leb_spec (maxTotalNodes d) (Z.of_nat (size (visits d)))) as [|_]; [lia|].
  rewrite Hseen. simpl. by destruct (_ <? _)%Z.
Qed.

(** revisits of one node, up to the one that is refused *)
Lemma replay_same_node (id : string) (now : Z) (k : nat) :
  forall (d : Detector) (done : nat) (v : NodeVisit),
    visits d !! id = Some v ->
    size (visits d) = 1%nat ->
    (2 <= maxTotalNodes d)%Z ->
    (now - startTime d <= maxExecutionTime d)%Z ->
    (count v + Z.of_nat k = maxVisitsPerNode d)%Z ->
    exists d',
      replay d (repeat (id, now) (S k)) done
      = (Throw (loopError ("Infinite loop detected: node " +:+ dq +:+ id +:+ dq
                             +:+ " visited " +:+ pretty (maxVisitsPerNode d + 1)%Z
                             +:+ " times")),
         (done + k)%nat, d').
Proof.
  induction k as [|k IH]; intros d done v Hseen Hsize Hnodes Htime Hcount.
  - change (repeat (id, now) 1) with [(id, now)]. cbn [replay].
    rewrite (visitNode_again d id now v) by (auto; lia).
    destruct (Z.ltb_spec (maxVisitsPerNode d) (count v + 1)) as [_|]; [|lia].
    eexists. rewrite Nat.add_0_r. repeat f_equal. lia.
  - change (repeat (id, now) (S (S k))) with ((id, now) :: repeat (id, now) (S k)).
    cbn [replay].
    rewrite (visitNode_again d id now v) by (auto; lia).
    destruct (Z.ltb_spec (maxVisitsPerNode d) (count v + 1)) as [|_]; [lia|].
    destruct (IH (withVisits d
                    (<[id := mkVisit (nodeId v) now (count v + 1)]> (visits d)))
                (S done) (mkVisit (nodeId v) now (count v + 1)))
      as [d' Hd'];
      [ apply lookup_insert_eq
      | simpl; rewrite map_size_insert_Some by eauto; exact Hsize
      | simpl; lia | simpl; lia | simpl; lia | ].
    exists d'. rewrite Hd'. simpl. repeat f_equal. lia.
Qed.

(** X28.  The limit on the visits of one node is exact.  A guard that
    allows at least two nodes lets a node be visited [maxVisitsPerNode]
    times within the time limit and refuses the next visit with [Infinite
    loop detected], naming the node and the count it has reached. *)
Theorem per_node_limit_is_exact (options : option Options) (start now : Z)
    (id : string) :
  let d := create options start in
  (1 <= maxVisitsPerNode d)%Z ->
  (2 <= maxTotalNodes d)%Z ->
  (now - start <= maxExecutionTime d)%Z ->
  exists d',
    replay d (repeat (id, now) (S (Z.to_nat (maxVisitsPerNode d)))) 0
    = (Throw (loopError ("Infinite loop detected: node " +:+ dq +:+ id +:+ dq
                           +:+ " visited " +:+ pretty (maxVisitsPerNode d + 1)%Z
                           +:+ " times")),
       Z.to_nat (maxVisitsPerNode d), d').
Proof.
  intros d Hvisits Hnodes Htime.
  destruct (Z.to_nat (maxVisitsPerNode d)) as [|k] eqn:Hk; [lia|].
  change (repeat (id, now) (S (S k))) with ((id, now) :: repeat (id, now) (S k)).
  cbn [replay].
  assert (visitNode d id now
          = (Ok (), withVisits d (<[id := mkVisit id now 1]> (visits d)))) as ->.
  { unfold visitNode. change (startTime d) with start.
    destruct (Z.ltb_spec (maxExecutionTime d) (now - start)) as [|_]; [lia|].
    change (visits d) with (∅ : gmap string NodeVisit).
    rewrite map_size_empty, lookup_empty.
    by destruct (Z.leb_spec (maxTotalNodes d) (Z.of_nat 0)) as [|_]; [lia|]. }
  destruct (replay_same_node id now k
              (withVisits d (<[id := mkVisit id now 1]> (visits d))) 1
              (mkVisit id now 1))
    as [d' Hd'];
    [ apply lookup_insert_eq
    | simpl; rewrite insert_empty; apply map_size_singleton
    | exact Hnodes
    | exact Htime
    | change (1 + Z.of_nat k = maxVisitsPerNode d)%Z; lia
    | ].
  exists d'. rewrite Hd'. reflexivity.
Qed.

End Detector.

Lemma detector_stays_tripped_witness :
  exists e' d'',
    LoopDetector.visitNode
      (snd (LoopDetector.visitNode
              (LoopDetector.create (Some (LoopDetector.mkOptions None (Some 0%Z) None)) 0)
              "A" 5))
      "A" 7
    = (Throw e', d'').
Proof.
  apply (detector_stays_tripped
           (LoopDetector.create (Some (LoopDetector.mkOptions None (Some 0%Z) None)) 0)
           _ "A" 5 7 (loopError "Workflow node limit exceeded: visited 0 nodes")).
  - vm_compute. reflexivity.
  - lia.
Defined.

Lemma reset_rearms_the_detector_witness :
  let '(r, d') :=
    LoopDetector.visitNode
      (Guard.reset
         (snd (LoopDetector.visitNode
                 (LoopDetector.create
                    (Some (LoopDetector.mkOptions None (Some 1%Z) None)) 0) "A" 5))
         10)
      "B" 12 in
  r = Ok () /\ LoopDetector.visitCount d' "B" = 1%Z /\ size (LoopDetector.visits d') = 1%nat.
Proof.
  apply (reset_rearms_the_detector
           (snd (LoopDetector.visitNode
                   (LoopDetector.create
                      (Some (LoopDetector.mkOptions None (Some 1%Z) None)) 0) "A" 5))
           "B" 10 12).
  - vm_compute. discriminate.
  - vm_compute. discriminate.
Defined.

Lemma per_node_limit_is_exact_witness :
  exists d',
    Guard.replay (LoopDetector.create None 0) (repeat ("A", 5%Z) 11) 0
    = (Throw (loopError ("Infinite loop detected: node " +:+ LoopDetector.dq +:+ "A"
                           +:+ LoopDetector.dq +:+ " visited 11 times")),
       10%nat, d').
Proof.
  apply (per_node_limit_is_exact None 0 5 "A"); vm_compute; discriminate.
Defined.
(** ** Starting and stopping a run *)

Section Starting.
Context `{rt : Runtime}.

Import Survey.

Lemma findEntryNode_allTargeted (wf : Workflow) :
  allTargeted wf -> findEntryNode wf = None.
Proof.
  intros Hall. unfold findEntryNode.
  destruct (find _ (nodes wf)) as [node|] eqn:Hfind; [|reflexivity].
  apply find_some in Hfind as [Hin Hfree].
  destruct (Hall node Hin) as (edge & Hedge & Htarget).
  apply negb_true_iff in Hfree.
  assert (existsb (fun edge => String.eqb (targetNodeId edge) (node_id node)) (edges wf)
          = true) as Hex.
  { apply existsb_exists. exists edge. split; [exact Hedge|].
    by apply String.eqb_eq. }
  congruence.
Qed.

(** X6.  initializeWorkflowForConversation refuses a workflow that is
    missing, inactive or deleted with [Workflow not found or inactive], and
    in that case it has written nothing: no execution row, no context. *)
Theorem initialize_refuses_without_workflow (fuel : nat)
    (conversation workflowId : string) (initialData : option Vars) (w : World) :
  redisState w !! conversation = None ->
  match workflowTable w !! workflowId with
  | Some row => isActive row = false \/ deleted row = true
  | None => True
  end ->
  initializeWorkflowForConversation fuel conversation workflowId initialData w
  = (Throw (executorError "Workflow not found or inactive"), w).
Proof.
  intros Hnone Hrow.
  unfold initializeWorkflowForConversation, bind, getContext, gets. simpl.
  rewrite Hnone.
  destruct (workflowTable w !! workflowId) as [[wf active gone]|]; [|reflexivity].
  simpl in Hrow. destruct active, gone; try reflexivity.
  destruct Hrow; discriminate.
Qed.

(** X7.  A workflow in which every node is the target of some edge, a pure
    cycle for one, has no entry node.  initializeWorkflowForConversation
    then throws [No entry node found in workflow], but only after it has
    created the execution row: the row stays behind with status RUNNING,
    and no context is saved and no node dispatched. *)
Theorem initialize_without_entry_node (fuel : nat)
    (conversation workflowId : string) (initialData : option Vars) (w : World)
    (wf : Workflow) :
  redisState w !! conversation = None ->
  workflowTable w !! workflowId = Some (mkRow wf true false) ->
  allTargeted wf ->
  let '(r, w') :=
    initializeWorkflowForConversation fuel conversation workflowId initialData w in
  r = Throw (executorError "No entry node found in workflow")
  /\ executionTable w'
     = <["exec-" +:+ pretty (counter w) := mkExecution RUNNING None []]>
         (executionTable w)
  /\ redisState w' = redisState w
  /\ dispatched w' = dispatched w
  /\ messageTable w' = messageTable w.
Proof.
  intros Hnone Hrow Hall.
  unfold initializeWorkflowForConversation, bind, getContext, gets. simpl.
  rewrite Hnone, Hrow. simpl.
  rewrite (findEntryNode_allTargeted wf Hall). simpl. auto.
Qed.

(** X8.  stopWorkflowForConversation only deletes the context.  The
    conversation is no longer listed as active and the next message finds
    no workflow, but the execution rows are as they were, so the row of the
    stopped run keeps the status it had; other conversations are not
    affected. *)
Theorem stop_only_deletes_the_context (fuel : nat) (conversation message : string)
    (messageMetadata : JsValue) (w : World) :
  redisLocks w !! lockOf conversation = None ->
  let stopped := snd (stopWorkflowForConversation conversation w) in
  fst (stopWorkflowForConversation conversation w) = Ok ()
  /\ fst (StateManager.hasContext conversation stopped) = Ok false
  /\ executionTable stopped = executionTable w
  /\ (forall other, other <> conversation ->
        fst (getWorkflowState other stopped) = fst (getWorkflowState other w))
  /\ (forall before after,
        fst (StateManager.getActiveConversations w) = Ok before ->
        fst (StateManager.getActiveConversations stopped) = Ok after ->
        forall id, In id after <-> In id before /\ id <> conversation)
  /\ handleMessageInWorkflow fuel conversation message messageMetadata stopped
     = (Ok None, setCounter stopped (S (counter stopped))).
Proof.
  intros Hfree stopped. subst stopped.
  unfold stopWorkflowForConversation, deleteContext, modify. simpl.
  split; [reflexivity|]. split.
  { unfold StateManager.hasContext, gets. simpl. by rewrite lookup_delete_eq. }
  split; [reflexivity|]. split.
  { intros other Hne. unfold getWorkflowState, getContext, gets. simpl.
    by rewrite lookup_delete_ne. }
  split.
  { unfold StateManager.getActiveConversations, gets. simpl.
    intros before after [= <-] [= <-] id.
    rewrite <- !list_elem_of_In, !list_elem_of_fmap. split.
    - intros ([k c] & -> & Hin). apply elem_of_map_to_list in Hin. simpl.
      apply lookup_delete_Some in Hin as [Hne Hin]. split; [|done].
      exists (k, c). split; [reflexivity|]. by apply elem_of_map_to_list.
    - intros (([k c] & -> & Hin) & Hne). apply elem_of_map_to_list in Hin.
      exists (k, c). split; [reflexivity|]. apply elem_of_map_to_list.
      apply lookup_delete_Some. by split. }
  rewrite handleMessage_no_context;
    [reflexivity|apply lookup_delete_eq|exact Hfree].
Qed.

End Starting.

Lemma initialize_refuses_without_workflow_witness :
  initializeWorkflowForConversation (rt := Sample.runtime) 5 "c1" "wf" None
    Sample.emptyWorld
  = (Throw (executorError "Workflow not found or inactive"), Sample.emptyWorld).
Proof.
  apply (initialize_refuses_without_workflow (rt := Sample.runtime) 5 "c1" "wf" None
           Sample.emptyWorld).
  - reflexivity.
  - exact I.
Defined.

Lemma cycle_allTargeted : Survey.allTargeted Sample.cycle.
Proof.
  intros node Hin. simpl in Hin.
  destruct Hin as [<-|[<-|[]]].
  - exists (mkEdge "e2" "B" "A" JNull). split; [simpl; tauto|reflexivity].
  - exists (mkEdge "e1" "A" "B" JNull). split; [simpl; tauto|reflexivity].
Qed.

Lemma initialize_without_entry_node_witness :
  let '(r, w') :=
    initializeWorkflowForConversation (rt := Sample.runtime) 5 "c1" "wf" None
      (Sample.withWorkflow "wf" Sample.cycle Sample.emptyWorld) in
  r = Throw (executorError "No entry node found in workflow")
  /\ executionTable w'
     = <["exec-" +:+ pretty (counter (Sample.withWorkflow "wf" Sample.cycle
                                          Sample.emptyWorld))
         := mkExecution RUNNING None []]>
         (executionTable (Sample.withWorkflow "wf" Sample.cycle Sample.emptyWorld))
  /\ redisState w' = redisState (Sample.withWorkflow "wf" Sample.cycle Sample.emptyWorld)
  /\ dispatched w' = dispatched (Sample.withWorkflow "wf" Sample.cycle Sample.emptyWorld)
  /\ messageTable w'
     = messageTable (Sample.withWorkflow "wf" Sample.cycle Sample.emptyWorld).
Proof.
  apply (initialize_without_entry_node (rt := Sample.runtime) 5 "c1" "wf" None
           (Sample.withWorkflow "wf" Sample.cycle Sample.emptyWorld) Sample.cycle).
  - reflexivity.
  - reflexivity.
  - exact cycle_allTargeted.
Defined.

Lemma stop_only_deletes_the_context_witness :
  handleMessageInWorkflow (rt := Sample.runtime) 5 "c1" "hello" JNull
    (snd (stopWorkflowForConversation "c1" Sample.waitingWorld))
  = (Ok None,
     setCounter (snd (stopWorkflowForConversation "c1" Sample.waitingWorld))
       (S (counter (snd (stopWorkflowForConversation "c1" Sample.waitingWorld))))).
Proof.
  apply (stop_only_deletes_the_context (rt := Sample.runtime) 5 "c1" "hello" JNull
           Sample.waitingWorld).
  reflexivity.
Defined.
(** ** Routing *)

Section Guards.
Context `{rt : Runtime}.

Import Survey.




(** X10.  Nothing a handler returns can stop a run.  When the handler of
    the current node returns, whatever object it returns ([success: false],
    [conditionMet: false], ...), and has not asked to wait, a first
    outgoing edge without condition is followed: the result is merged into
    the variables, the context is saved at the edge's target and the burst
    goes on there. *)
Theorem handler_result_never_stops_a_run (fuel : nat)
    (context context' : ConversationExecutionContext) (w w2 : World)
    (node : Node) (result : Vars) (edge : Edge) (rest : list Edge) :
  currentNodeId context = Some (node_id node) ->
  node_id node <> "" ->
  findNode (workflow context) (node_id node) = Some node ->
  executeNode node context (announced context node w) = (Ok (result, context'), w2) ->
  waitingForInput context' = false ->
  outgoingEdgesOf (workflow context) (node_id node) = edge :: rest ->
  truthy (condition edge) = false ->
  targetNodeId edge <> "" ->
  let moved := setCurrentNodeId (merged result context') (Some (targetNodeId edge)) in
  processNextNode (S fuel) context w
  = match processNextNode fuel moved (snd (saveContext moved w2)) with
    | (Throw e, w') =>
        (Throw e, snd (addExecutionLog (executionId context) ("Error: " +:+ message e) w'))
    | other => other
    end.
Proof.
  intros Hcur Hne Hfind Hexec Hwait Hout Hopen Htarget moved.
  apply (processNextNode_continues fuel context context' w w2 node result
           (targetNodeId edge)); auto.
  destruct (executeNode_context _ _ _ _ _ _ Hexec) as (_ & _ & _ & _ & _ & _ & Hwf).
  rewrite findNextNode_firstMatch. simpl workflow. rewrite Hwf, Hout. simpl.
  by rewrite Hopen.
Qed.

(** X11.  validateApiUrl as a [try] with its [catch]: of the errors raised
    inside the [try], only the two whose message starts with [Cannot] leave
    the function as they are; the TypeError of [new URL] and [Only HTTP(S)
    URLs allowed] are both replaced by [Invalid URL format], so a caller can
    never see either. *)
Theorem validateApiUrl_catch (url : string) :
  validateApiUrl url = validateApiUrlCatch <$> validateApiUrlTry url
  /\ (forall e, validateApiUrl url = Some e ->
        e = plainError "Cannot call localhost or internal addresses"
        \/ e = plainError "Cannot call private networks"
        \/ e = plainError "Invalid URL format").
Proof.
  unfold validateApiUrl, validateApiUrlTry.
  destruct (parseUrl url) as [parsed|]; [|split; [reflexivity|intros e [= <-]; tauto]].
  destruct (arrayIncludes blockedHosts _);
    [split; [reflexivity|intros e [= <-]; tauto]|].
  destruct (_ || _); [split; [reflexivity|intros e [= <-]; tauto]|].
  destruct (negb _); [split; [reflexivity|intros e [= <-]; tauto]|].
  split; [reflexivity|discriminate].
Qed.

End Guards.


Lemma handler_result_never_stops_a_run_witness :
  let w := Sample.worldOf Sample.lastStep in
  let context :=
    mkContext "c1" "wf" "exec-0" (Some "X") ∅ false None None Sample.delayThenSet in
  let node := mkNode "X" "ACTION_DELAY" (Sample.object [("duration", JNum 1000)]) "delay" in
  let moved := setCurrentNodeId (merged ∅ context) (Some "Y") in
  let w2 := snd (executeNode (rt := Sample.runtime) node context (announced context node w)) in
  processNextNode (rt := Sample.runtime) 2 context w
  = match processNextNode (rt := Sample.runtime) 1 moved (snd (saveContext moved w2)) with
    | (Throw e, w') =>
        (Throw e, snd (addExecutionLog (executionId context) ("Error: " +:+ message e) w'))
    | other => other
    end.
Proof.
  apply (handler_result_never_stops_a_run (rt := Sample.runtime) 1
           (mkContext "c1" "wf" "exec-0" (Some "X") ∅ false None None Sample.delayThenSet)
           (mkContext "c1" "wf" "exec-0" (Some "X") ∅ false None None Sample.delayThenSet)
           (Sample.worldOf Sample.lastStep)
           (snd (executeNode (rt := Sample.runtime)
                   (mkNode "X" "ACTION_DELAY" (Sample.object [("duration", JNum 1000)])
                      "delay")
                   (mkContext "c1" "wf" "exec-0" (Some "X") ∅ false None None
                      Sample.delayThenSet)
                   (announced
                      (mkContext "c1" "wf" "exec-0" (Some "X") ∅ false None None
                         Sample.delayThenSet)
                      (mkNode "X" "ACTION_DELAY"
                         (Sample.object [("duration", JNum 1000)]) "delay")
                      (Sample.worldOf Sample.lastStep))))
           (mkNode "X" "ACTION_DELAY" (Sample.object [("duration", JNum 1000)]) "delay")
           ∅ (mkEdge "e1" "X" "Y" JNull) []);
    try (vm_compute; reflexivity); vm_compute; discriminate.
Defined.
(** ** What a burst touches *)

Section Bursts.
Context `{rt : Runtime}.

Import Survey.

(** one level of processNextNode *)
Lemma processNextNode_step (fuel : nat) (context : ConversationExecutionContext)
    (w : World) :
  processNextNode (S fuel) context w
  = if noNode (currentNodeId context) then
      (markExecutionCompleted (executionId context) ;;;
       deleteContext (conversationId context)) w
    else
      match findNode (workflow context) (default "" (currentNodeId context)) with
      | None =>
          (Throw (executorError
                    ("Node " +:+ default "" (currentNodeId context) +:+ " not found")), w)
      | Some node =>
          match executeNode node context (announced context node w) with
          | (Ok (result, context'), w2) =>
              if waitingForInput context' then
                (Ok (),
                 snd (saveContext (merged result context')
                        (snd (addExecutionLog (executionId context')
                                "Waiting for user input" w2))))
              else if noNode (findNextNode node (merged result context')) then
                match (markExecutionCompleted (executionId context') ;;;
                       deleteContext (conversationId context')) w2 with
                | (Throw e, w3) =>
                    (Throw e,
                     snd (addExecutionLog (executionId context)
                            ("Error: " +:+ message e) w3))
                | other => other
                end
              else
                let moved :=
                  setCurrentNodeId (merged result context')
                    (findNextNode node (merged result context')) in
                match processNextNode fuel moved (snd (saveContext moved w2)) with
                | (Throw e, w3) =>
                    (Throw e,
                     snd (addExecutionLog (executionId context)
                            ("Error: " +:+ message e) w3))
                | other => other
                end
          | (Throw e, w2) =>
              (Throw e,
               snd (addExecutionLog (executionId context) ("Error: " +:+ message e) w2))
          | (Pending, w2) => (Pending, w2)
          end
      end.
Proof.
  simpl. destruct (noNode (currentNodeId context)); [reflexivity|].
  destruct (findNode _ _) as [node|]; [|reflexivity].
  unfold bind at 1. rewrite addExecutionLog_ok.
  unfold tryCatch. unfold bind at 1. fold (announced context node w).
  destruct (executeNode node context (announced context node w))
    as [[[result context']|e|] w2];
    [|unfold bind, throw; by rewrite addExecutionLog_ok|reflexivity].
  unfold merged.
  destruct (waitingForInput context').
  { unfold bind. rewrite addExecutionLog_ok. reflexivity. }
  destruct (noNode (findNextNode node _)).
  { destruct (bind _ _ w2) as [[u|e|] w3]; try reflexivity.
    unfold bind, throw. by rewrite addExecutionLog_ok. }
  unfold bind at 1. unfold saveContext at 1, modify. cbv beta iota zeta.
  destruct (processNextNode fuel _ _) as [[u|e|] w3]; try reflexivity.
  unfold bind, throw. by rewrite addExecutionLog_ok.
Qed.

Lemma touchesOnly_refl (conversation execution : string) (w : World) :
  touchesOnly conversation execution w w.
Proof.
  unfold touchesOnly. repeat split; auto.
  - exists []. by rewrite app_nil_r.
  - exists []. by rewrite app_nil_r.
  - exists []. by rewrite app_nil_r.
Qed.

Lemma touchesOnly_trans (conversation execution : string) (w1 w2 w3 : World) :
  touchesOnly conversation execution w1 w2 ->
  touchesOnly conversation execution w2 w3 ->
  touchesOnly conversation execution w1 w3.
Proof.
  intros (Hr1 & Hl1 & Hw1 & Hc1 & He1 & Hs1 & (i1 & Hd1) & (t1 & Hm1) & (u1 & Hf1 & Hu1))
         (Hr2 & Hl2 & Hw2 & Hc2 & He2 & Hs2 & (i2 & Hd2) & (t2 & Hm2) & (u2 & Hf2 & Hu2)).
  unfold touchesOnly. repeat split.
  - intros c Hc. by rewrite Hr2, Hr1.
  - congruence.
  - congruence.
  - congruence.
  - intros e He. by rewrite He2, He1.
  - auto.
  - exists (i1 ++ i2). by rewrite Hd2, Hd1, map_app, app_assoc.
  - exists (t1 ++ t2). by rewrite Hm2, Hm1, map_app, app_assoc.
  - exists (u1 ++ u2). split; [by rewrite Hf2, Hf1, app_assoc|].
    by apply Forall_app.
Qed.

Lemma touchesOnly_updateExecution (conversation execution : string)
    (f : WorkflowExecution -> WorkflowExecution) (w : World) :
  touchesOnly conversation execution w (snd (updateExecution execution f w)).
Proof.
  unfold updateExecution.
  destruct (executionTable w !! execution) as [row|] eqn:Hrow;
    [|apply touchesOnly_refl].
  unfold touchesOnly. simpl. repeat split; auto.
  - intros e He. by rewrite lookup_insert_ne.
  - intros e He. apply lookup_insert_is_Some'. by right.
  - exists []. by rewrite app_nil_r.
  - exists []. by rewrite app_nil_r.
  - exists []. by rewrite app_nil_r.
Qed.

Lemma touchesOnly_addExecutionLog (conversation execution msg : string) (w : World) :
  touchesOnly conversation execution w (snd (addExecutionLog execution msg w)).
Proof.
  unfold addExecutionLog.
  destruct (executionTable w !! execution) as [row|] eqn:Hrow;
    [apply touchesOnly_updateExecution|apply touchesOnly_refl].
Qed.

Lemma touchesOnly_saveContext (execution : string)
    (context : ConversationExecutionContext) (w : World) :
  touchesOnly (conversationId context) execution w (snd (saveContext context w)).
Proof.
  unfold touchesOnly, saveContext, modify. simpl. repeat split; auto.
  - intros c Hc. by rewrite lookup_insert_ne.
  - exists []. by rewrite app_nil_r.
  - exists []. by rewrite app_nil_r.
  - exists []. by rewrite app_nil_r.
Qed.

Lemma touchesOnly_deleteContext (conversation execution : string) (w : World) :
  touchesOnly conversation execution w (snd (deleteContext conversation w)).
Proof.
  unfold touchesOnly, deleteContext, modify. simpl. repeat split; auto.
  - intros c Hc. by rewrite lookup_delete_ne.
  - exists []. by rewrite app_nil_r.
  - exists []. by rewrite app_nil_r.
  - exists []. by rewrite app_nil_r.
Qed.

(** the messages a handler sends go to the conversation of its context *)
Lemma executeNode_sends (node : Node) (context : ConversationExecutionContext)
    (w : World) :
  exists texts,
    messageTable (snd (executeNode node context w))
    = messageTable w ++ map (pair (conversationId context)) texts.
Proof.
  unfold executeNode.
  repeat match goal with
  | |- context [if String.eqb ?a ?b then _ else _] => destruct (String.eqb a b)
  | |- context [if arrayIncludes ?a ?b then _ else _] => destruct (arrayIncludes a b)
  end;
  unfold executeTriggerUserInput, executeActionMessage, executeActionWaitForInput,
    executeActionApiCall, executeExternal, sendMessageToUser;
  unfold_monad;
  repeat match goal with
  | |- context [sendAll ?c ?t ?w] => rewrite (sendAll_ok c t w); simpl
  | |- context [if ?b then _ else _] => destruct b; simpl
  | |- context [match validateApiUrl ?u with _ => _ end] =>
      destruct (validateApiUrl u); simpl
  | |- context [match returned ?e with _ => _ end] => destruct (returned e); simpl
  end;
  first [ by (exists []; simpl; rewrite app_nil_r)
        | by (eexists [_]; simpl)
        | by eexists ].
Qed.

(** the only URL a handler fetches is one that validateApiUrl let pass *)
Lemma executeNode_fetches (node : Node) (context : ConversationExecutionContext)
    (w : World) :
  exists urls,
    fetched (snd (executeNode node context w)) = fetched w ++ urls
    /\ Forall (fun u => validateApiUrl u = None) urls.
Proof.
  unfold executeNode.
  repeat match goal with
  | |- context [if String.eqb ?a ?b then _ else _] => destruct (String.eqb a b)
  | |- context [if arrayIncludes ?a ?b then _ else _] => destruct (arrayIncludes a b)
  end;
  unfold executeTriggerUserInput, executeActionMessage, executeActionWaitForInput,
    executeActionApiCall, executeExternal, sendMessageToUser;
  unfold_monad;
  repeat match goal with
  | |- context [sendAll ?c ?t ?w] => rewrite (sendAll_ok c t w); simpl
  | |- context [if ?b then _ else _] => destruct b; simpl
  | |- context [match returned ?e with _ => _ end] => destruct (returned e); simpl
  end;
  try (exists []; split; [by rewrite app_nil_r|constructor]).
  match goal with
  | |- context [validateApiUrl ?u] => destruct (validateApiUrl u) eqn:Hvalid; simpl
  end.
  - exists []. split; [by rewrite app_nil_r|constructor].
  - eexists [_]. split; [reflexivity|]. by repeat constructor.
Qed.

Lemma touchesOnly_executeNode (execution : string) (node : Node)
    (context : ConversationExecutionContext) (w : World) :
  touchesOnly (conversationId context) execution w (snd (executeNode node context w)).
Proof.
  destruct (executeNode_stores node context w) as (Hr & Hl & Hw & He & Hc & Hd).
  unfold touchesOnly. repeat split; auto.
  - intros c _. by rewrite Hr.
  - intros e _. by rewrite He.
  - intros e. by rewrite He.
  - by exists [node_id node].
  - apply executeNode_sends.
  - apply executeNode_fetches.
Qed.

(** A burst touches nothing but what belongs to its conversation and its
    execution. *)
Lemma processNextNode_touchesOnly (fuel : nat) :
  forall (context : ConversationExecutionContext) (w : World),
    touchesOnly (conversationId context) (executionId context) w
      (snd (processNextNode fuel context w)).
Proof.
  induction fuel as [|fuel IH]; intros context w; [apply touchesOnly_refl|].
  rewrite processNextNode_step.
  assert (forall c e w0,
            touchesOnly c e w0
              (snd ((markExecutionCompleted e ;;; deleteContext c) w0))) as Hend.
  { intros c e w0. unfold bind, markExecutionCompleted.
    pose proof (touchesOnly_updateExecution c e
                  (fun e => mkExecution COMPLETED (exec_error e) (logs e)) w0) as Hu.
    destruct (updateExecution _ _ w0) as [[u|err|] w1]; simpl in *; try exact Hu.
    eapply touchesOnly_trans; [exact Hu|apply touchesOnly_deleteContext]. }
  destruct (noNode (currentNodeId context)); [apply Hend|].
  destruct (findNode _ _) as [node|]; [|apply touchesOnly_refl].
  pose proof (touchesOnly_addExecutionLog (conversationId context) (executionId context)
                ("Executing: " +:+ node_label node +:+ " (" +:+ node_type node +:+ ")") w)
    as Hlog.
  fold (announced context node w) in Hlog.
  pose proof (touchesOnly_executeNode (executionId context) node context
                (announced context node w)) as Hexec.
  pose proof (touchesOnly_trans _ _ _ _ _ Hlog Hexec) as Hboth. clear Hlog Hexec.
  destruct (executeNode node context (announced context node w))
    as [[[result context']|e|] w2] eqn:Hrun; simpl in Hboth.
  - destruct (executeNode_context _ _ _ _ _ _ Hrun) as (Hc & _ & He & _).
    destruct (waitingForInput context').
    { simpl. eapply touchesOnly_trans; [exact Hboth|].
      eapply touchesOnly_trans;
        [apply (touchesOnly_addExecutionLog _ _ "Waiting for user input")|].
      rewrite He.
      pose proof (touchesOnly_saveContext (executionId context) (merged result context')
                    (snd (addExecutionLog (executionId context)
                            "Waiting for user input" w2))) as Hsave.
      change (conversationId (merged result context'))
        with (conversationId context') in Hsave.
      rewrite Hc in Hsave. exact Hsave. }
    destruct (noNode (findNextNode node (merged result context'))).
    { specialize (Hend (conversationId context) (executionId context) w2).
      rewrite Hc, He.
      destruct (bind _ _ w2) as [[u|e|] w3]; simpl in *;
        try (eapply touchesOnly_trans; [exact Hboth|exact Hend]).
      eapply touchesOnly_trans; [exact Hboth|].
      eapply touchesOnly_trans; [exact Hend|apply touchesOnly_addExecutionLog]. }
    cbv zeta.
    set (moved := setCurrentNodeId (merged result context') _).
    specialize (IH moved (snd (saveContext moved w2))).
    change (conversationId moved) with (conversationId context') in IH.
    change (executionId moved) with (executionId context') in IH.
    rewrite Hc, He in IH.
    pose proof (touchesOnly_saveContext (executionId context) moved w2) as Hsave.
    change (conversationId moved) with (conversationId context') in Hsave.
    rewrite Hc in Hsave.
    destruct (processNextNode fuel moved _) as [[u|e|] w3]; simpl in *;
      try (eapply touchesOnly_trans; [exact Hboth|];
           eapply touchesOnly_trans; [exact Hsave|exact IH]).
    eapply touchesOnly_trans; [exact Hboth|].
    eapply touchesOnly_trans; [exact Hsave|].
    eapply touchesOnly_trans; [exact IH|apply touchesOnly_addExecutionLog].
  - simpl. eapply touchesOnly_trans; [exact Hboth|apply touchesOnly_addExecutionLog].
  - exact Hboth.
Qed.

Lemma detached_touchesOnly (fuel : nat) (context : ConversationExecutionContext)
    (w : World) :
  touchesOnly (conversationId context) (executionId context) w
    (snd (detached fuel context w)).
Proof.
  unfold detached, tryCatch.
  pose proof (processNextNode_touchesOnly fuel context w) as Hburst.
  destruct (processNextNode fuel context w) as [[u|e|] w1]; simpl in *; try exact Hburst.
  eapply touchesOnly_trans; [exact Hburst|].
  apply touchesOnly_updateExecution.
Qed.

End Bursts.
(** ** What a burst leaves in Redis *)

Section Leaves.
Context `{rt : Runtime}.

Import Survey.

Lemma sameRun_refl (a : ConversationExecutionContext) : sameRun a a.
Proof. by repeat split. Qed.

Lemma sameRun_trans (a b c : ConversationExecutionContext) :
  sameRun a b -> sameRun b c -> sameRun a c.
Proof.
  intros (H1 & H2 & H3 & H4 & H5) (G1 & G2 & G3 & G4 & G5).
  repeat split; congruence.
Qed.

Lemma completion_redis (conversation execution : string) (w : World) :
  let '(r, w') :=
    (markExecutionCompleted execution ;;; deleteContext conversation) w in
  (r = Ok () /\ redisState w' = delete conversation (redisState w))
  \/ ((exists e, r = Throw e) /\ redisState w' = redisState w).
Proof.
  unfold bind, markExecutionCompleted, updateExecution, deleteContext, modify.
  destruct (executionTable w !! execution); simpl; [by left|right; eauto].
Qed.

(** What a burst leaves of its context: nothing new, nothing at all, or a
    context of the same run; when it returned, nothing or a waiting one. *)
Lemma processNextNode_redis (fuel : nat) :
  forall (context : ConversationExecutionContext) (w : World),
    let '(r, w') := processNextNode fuel context w in
    (r <> Ok () /\ redisState w' = redisState w)
    \/ (r = Ok () /\ redisState w' = delete (conversationId context) (redisState w))
    \/ (exists saved,
          redisState w' = <[conversationId context := saved]> (redisState w)
          /\ sameRun context saved
          /\ (r = Ok () -> waitingForInput saved = true)).
Proof.
  induction fuel as [|fuel IH]; intros context w.
  { simpl. unfold pending. by left. }
  rewrite processNextNode_step.
  destruct (noNode (currentNodeId context)).
  { pose proof (completion_redis (conversationId context) (executionId context) w) as H.
    destruct (bind _ _ w) as [r w'].
    destruct H as [[-> H]|[[e ->] H]]; [right; by left|left; by split]. }
  destruct (findNode _ _) as [node|]; [|by left].
  pose proof (executeNode_stores node context (announced context node w)) as Hst.
  pose proof (addExecutionLog_stores (executionId context)
    ("Executing: " +:+ node_label node +:+ " (" +:+ node_type node +:+ ")") w)
    as (Hr0 & _).
  fold (announced context node w) in Hr0.
  destruct (executeNode node context (announced context node w))
    as [[[result context']|e|] w2] eqn:Hrun; simpl in Hst;
    destruct Hst as (Hr2 & _); rewrite Hr0 in Hr2.
  - destruct (executeNode_context _ _ _ _ _ _ Hrun)
      as (Hc & Hwid & He & _ & _ & Hv & Hwf).
    assert (sameRun context (merged result context')) as Hsame
      by (by repeat split).
    destruct (waitingForInput context') eqn:Hwait.
    { right; right. exists (merged result context'). split; [|by split].
      unfold saveContext, modify. simpl.
      pose proof (addExecutionLog_stores (executionId context')
                    "Waiting for user input" w2) as (Hr3 & _).
      by rewrite Hr3, Hr2, Hc. }
    destruct (noNode (findNextNode node (merged result context'))).
    { pose proof (completion_redis (conversationId context') (executionId context') w2)
        as H.
      destruct (bind _ _ w2) as [r w3].
      destruct H as [[-> H]|[[e ->] H]].
      - right; left. split; [reflexivity|]. by rewrite H, Hr2, Hc.
      - left. split; [discriminate|].
        pose proof (addExecutionLog_stores (executionId context)
                      ("Error: " +:+ message e) w3) as (Hr3 & _).
        by rewrite Hr3, H. }
    cbv zeta.
    set (moved := setCurrentNodeId (merged result context') _).
    assert (sameRun context moved) as Hmoved by exact Hsame.
    specialize (IH moved (snd (saveContext moved w2))).
    destruct (processNextNode fuel moved _) as [r w3].
    assert (redisState (snd (saveContext moved w2))
            = <[conversationId context := moved]> (redisState w)) as Hsaved.
    { unfold saveContext, modify. simpl. by rewrite Hr2, Hc. }
    change (conversationId moved) with (conversationId context') in IH.
    rewrite Hc, Hsaved in IH.
    assert (forall e w0,
              redisState (snd (addExecutionLog (executionId context)
                                 ("Error: " +:+ message e) w0))
              = redisState w0) as Hlog.
    { intros e w0. apply addExecutionLog_stores. }
    destruct r as [[]|e|]; simpl; rewrite ?Hlog;
      (destruct IH as [[Hnot H]|[[Heq H]|(saved & H & Hs & Hw)]];
       [ right; right; exists moved;
         split; [exact H|split; [exact Hmoved|intros Hr; try discriminate; by destruct Hnot]]
       | first [ discriminate Heq
               | right; left; split; [reflexivity|]; by rewrite H, delete_insert_eq ]
       | right; right; exists saved; rewrite insert_insert_eq in H;
         split; [exact H|split; [by apply (sameRun_trans context moved saved)|]];
         intros Hr; try discriminate; exact (Hw Hr) ]).
  - left. split; [discriminate|].
    pose proof (addExecutionLog_stores (executionId context)
                  ("Error: " +:+ message e) w2) as (Hr3 & _).
    by rewrite Hr3.
  - left. by split.
Qed.

Lemma detached_redis (fuel : nat) (context : ConversationExecutionContext) (w : World) :
  let w' := snd (detached fuel context w) in
  redisState w' = redisState w
  \/ redisState w' = delete (conversationId context) (redisState w)
  \/ exists saved,
       redisState w' = <[conversationId context := saved]> (redisState w)
       /\ sameRun context saved.
Proof.
  unfold detached, tryCatch.
  pose proof (processNextNode_redis fuel context w) as H.
  destruct (processNextNode fuel context w) as [[u|e|] w1]; simpl.
  - destruct H as [[_ H]|[[_ H]|(saved & H & Hs & _)]]; eauto.
  - assert (redisState (snd (markExecutionFailed (executionId context) (message e) w1))
            = redisState w1) as Hkeep.
    { unfold markExecutionFailed, updateExecution.
      by destruct (executionTable w1 !! executionId context). }
    rewrite Hkeep.
    destruct H as [[_ H]|[[_ H]|(saved & H & Hs & _)]]; eauto.
  - destruct H as [[_ H]|[[_ H]|(saved & H & Hs & _)]]; eauto.
Qed.

(** X12.  A burst that returns has either ended the run or suspended it:
    Redis then holds no context for the conversation, or one that waits for
    input and belongs to the same run.  A burst never returns leaving a
    context behind that is not waiting. *)
Theorem returned_burst_ended_or_waits (fuel : nat)
    (context : ConversationExecutionContext) (w w' : World) :
  processNextNode fuel context w = (Ok (), w') ->
  redisState w' !! conversationId context = None
  \/ exists saved,
       redisState w' !! conversationId context = Some saved
       /\ waitingForInput saved = true
       /\ sameRun context saved.
Proof.
  intros Hrun. pose proof (processNextNode_redis fuel context w) as H.
  rewrite Hrun in H.
  destruct H as [[Hnot _]|[[_ H]|(saved & H & Hs & Hw)]].
  - by destruct Hnot.
  - left. rewrite H. apply lookup_delete_eq.
  - right. exists saved. rewrite H, lookup_insert_eq. auto.
Qed.

(** handleMessageInWorkflow on a context that is not waiting: the message
    is ignored *)
Lemma handleMessage_not_waiting (fuel : nat) (conversation message : string)
    (messageMetadata : JsValue) (w : World)
    (context : ConversationExecutionContext) :
  redisState w !! conversation = Some context ->
  waitingForInput context = false ->
  redisLocks w !! lockOf conversation = None ->
  handleMessageInWorkflow fuel conversation message messageMetadata w
  = (Ok None, setCounter w (S (counter w))).
Proof.
  intros Hctx Hwait Hfree. unfold handleMessageInWorkflow.
  rewrite withLock_free by exact Hfree.
  unfold bind, getContext, gets. simpl. rewrite Hctx. simpl. rewrite Hwait. simpl.
  unfold release, modify. simpl.
  unfold lockOf in Hfree.
  rewrite lookup_insert_eq, String.eqb_refl. simpl.
  rewrite delete_insert_eq, delete_id by exact Hfree.
  by destruct w.
Qed.

(** The stores after handleMessageInWorkflow: only a token was drawn, or a
    waiting context was cleared, saved and run under the lock. *)
Lemma handleMessage_cases (fuel : nat) (conversation message : string)
    (messageMetadata : JsValue) (w : World) :
  snd (handleMessageInWorkflow fuel conversation message messageMetadata w)
  = setCounter w (S (counter w))
  \/ exists context validated,
       redisState w !! conversation = Some context
       /\ waitingForInput context = true
       /\ redisLocks w !! lockOf conversation = None
       /\ snd (handleMessageInWorkflow fuel conversation message messageMetadata w)
          = snd (release (lockOf conversation) ("token-" +:+ pretty (counter w))
                   (snd (detached fuel
                           (cleared message messageMetadata validated context)
                           (snd (saveContext
                                   (cleared message messageMetadata validated context)
                                   (locked conversation w)))))).
Proof.
  destruct (redisLocks w !! lockOf conversation) as [owner|] eqn:Hlock.
  { left. rewrite handleMessage_lock_busy by eauto. reflexivity. }
  destruct (redisState w !! conversation) as [context|] eqn:Hctx;
    [|left; by rewrite handleMessage_no_context].
  destruct (waitingForInput context) eqn:Hwait;
    [|left; by rewrite (handleMessage_not_waiting _ _ _ _ _ context)].
  destruct (expectedInputValidation context) as [expected|] eqn:Hexp.
  - destruct (validateInput_pure message expected) as [r Hr].
    destruct r as [v|e|].
    + destruct (valid v) eqn:Hvalid.
      * right. exists context, (Some (extractedData v)).
        repeat split; auto.
        rewrite (handleMessage_resumes fuel conversation message messageMetadata w
                   context (Some (extractedData v))); auto.
        rewrite Hexp. exists v. by rewrite Hr.
      * left.
        rewrite (handleMessage_invalid fuel conversation message messageMetadata w
                   context expected v); auto.
        by rewrite Hr.
    + left.
      rewrite (handleMessage_validation_throws fuel conversation message
                 messageMetadata w context expected); auto.
      intros v. by rewrite Hr.
    + left.
      rewrite (handleMessage_validation_throws fuel conversation message
                 messageMetadata w context expected); auto.
      intros v. by rewrite Hr.
  - right. exists context, None. repeat split; auto.
    rewrite (handleMessage_resumes fuel conversation message messageMetadata w
               context None); auto.
    by rewrite Hexp.
Qed.

(** An invariant on the contexts in Redis that the contexts of one run
    share, that a new context has and that clearing the waiting state
    establishes, is kept by every entry point. *)
Lemma perform_everyContext (P : string -> ConversationExecutionContext -> Prop)
    (fuel : nat) (call : Call) (w : World) :
  (forall c a b, sameRun a b -> P c a -> P (conversationId a) b) ->
  (forall conversation workflowId execution node variables wf,
     P conversation
       (mkContext conversation workflowId execution node variables false None None wf)) ->
  (forall c message messageMetadata validated context,
     P c context ->
     P (conversationId context) (cleared message messageMetadata validated context)) ->
  everyContext P w ->
  everyContext P (perform fuel call w).
Proof.
  intros Hsame Hnew Hclear Hinv.
  assert (forall w1 w2, redisState w2 = redisState w1 ->
            everyContext P w1 -> everyContext P w2) as Hkeep.
  { intros w1 w2 Heq H c ctx. rewrite Heq. apply H. }
  assert (forall context w1 c0,
            P c0 context ->
            everyContext P w1 ->
            everyContext P
              (snd (detached fuel context (snd (saveContext context w1))))) as Hburst.
  { intros context w1 c0 Hctx H1.
    pose proof (detached_redis fuel context (snd (saveContext context w1))) as Hd.
    simpl in Hd. unfold saveContext, modify in *. simpl in *.
    intros c ctx.
    destruct Hd as [Hd|[Hd|(saved & Hd & Hs)]]; rewrite Hd.
    - intros Hl. apply lookup_insert_Some in Hl as [[<- <-]|[_ Hl]]; [|by apply H1].
      apply (Hsame c0 context context (sameRun_refl context) Hctx).
    - intros Hl. apply lookup_delete_Some in Hl as [_ Hl].
      apply lookup_insert_Some in Hl as [[<- <-]|[_ Hl]]; [|by apply H1].
      apply (Hsame c0 context context (sameRun_refl context) Hctx).
    - rewrite insert_insert_eq.
      intros Hl. apply lookup_insert_Some in Hl as [[<- <-]|[_ Hl]]; [|by apply H1].
      apply (Hsame c0 context saved Hs Hctx). }
  destruct call as [conversation wfid initialData|conversation message meta
                   |conversation|conversation]; simpl.
  - unfold initializeWorkflowForConversation, bind, getContext, gets. simpl.
    destruct (redisState w !! conversation) as [existing|]; [exact Hinv|].
    destruct (workflowTable w !! wfid) as [[wf [] []]|]; simpl; try exact Hinv.
    destruct (findEntryNode wf) as [entryNode|]; simpl.
    + unfold ret.
      match goal with
      | |- context [detached fuel ?c (setRedisState ?w1 _)] =>
          pose proof (Hburst c w1 conversation (Hnew _ _ _ _ _ _)) as Hb;
          unfold saveContext, modify in Hb; simpl in Hb
      end.
      destruct (detached fuel _ _) as [[u|e|] w3]; simpl in *;
        apply Hb; by apply (Hkeep w).
    + by apply (Hkeep w).
  - destruct (handleMessage_cases fuel conversation message meta w)
      as [->|(context & validated & Hctx & Hwait & Hlock & ->)];
      [by apply (Hkeep w)|].
    eapply Hkeep; [apply release_stores|].
    apply (Hburst _ _ (conversationId context)).
    + apply (Hclear conversation). by apply Hinv.
    + by apply (Hkeep w).
  - exact Hinv.
  - unfold stopWorkflowForConversation, deleteContext, modify. simpl.
    intros c ctx Hl. simpl in Hl.
    apply lookup_delete_Some in Hl as [_ Hl]. by apply Hinv.
Qed.

(** X13.  The engine never asks for validated input.  If no context in
    Redis carries an expected validation, none does after any call of an
    entry point, whatever the workflow: no handler and no entry point sets
    [expectedInputValidation], so the validation of handleMessageInWorkflow
    only ever runs on contexts that something else wrote. *)
Theorem engine_never_asks_for_validation (fuel : nat) (call : Call) (w : World) :
  noValidationAsked w ->
  noValidationAsked (perform fuel call w).
Proof.
  apply (perform_everyContext (fun _ context => expectedInputValidation context = None)).
  - intros _ a b (_ & _ & _ & _ & H) Ha. congruence.
  - reflexivity.
  - reflexivity.
Qed.

End Leaves.
(** ** What an entry point touches *)

Section Confinement.
Context `{rt : Runtime}.

Import Survey.

Lemma confined_stores (conversation : string) (w w' : World) :
  redisState w' = redisState w ->
  workflowTable w' = workflowTable w ->
  (forall e, is_Some (executionTable w !! e) -> is_Some (executionTable w' !! e)) ->
  messageTable w' = messageTable w ->
  fetched w' = fetched w ->
  dispatched w' = dispatched w ->
  confined conversation w w'.
Proof.
  intros Hr Hw He Hm Hf Hd. unfold confined. repeat split; auto.
  - intros c _. by rewrite Hr.
  - exists []. by rewrite Hd, app_nil_r.
  - exists []. by rewrite Hm, app_nil_r.
  - exists []. by rewrite Hf, app_nil_r.
Qed.

Lemma confined_refl (conversation : string) (w : World) : confined conversation w w.
Proof. by apply confined_stores. Qed.

Lemma confined_trans (conversation : string) (w1 w2 w3 : World) :
  confined conversation w1 w2 ->
  confined conversation w2 w3 ->
  confined conversation w1 w3.
Proof.
  intros (Hr1 & Hw1 & Hs1 & (i1 & Hd1) & (t1 & Hm1) & (u1 & Hf1 & Hu1))
         (Hr2 & Hw2 & Hs2 & (i2 & Hd2) & (t2 & Hm2) & (u2 & Hf2 & Hu2)).
  unfold confined. repeat split.
  - intros c Hc. by rewrite Hr2, Hr1.
  - congruence.
  - auto.
  - exists (i1 ++ i2). by rewrite Hd2, Hd1, map_app, app_assoc.
  - exists (t1 ++ t2). by rewrite Hm2, Hm1, map_app, app_assoc.
  - exists (u1 ++ u2). split; [by rewrite Hf2, Hf1, app_assoc|].
    by apply Forall_app.
Qed.

Lemma touchesOnly_confined (conversation execution : string) (w w' : World) :
  touchesOnly conversation execution w w' -> confined conversation w w'.
Proof.
  intros (Hr & _ & Hw & _ & _ & Hs & Hd & Hm & Hf). by repeat split.
Qed.

(** Every entry point is confined to one conversation, the one it is
    called for when the contexts are stored under their own ids, and leaves
    the lock table as it found it. *)
Lemma perform_confined (fuel : nat) (call : Call) (w : World) :
  exists c,
    (wellKeyed w -> c = conversationOf call)
    /\ confined c w (perform fuel call w)
    /\ redisLocks (perform fuel call w) = redisLocks w.
Proof.
  destruct call as [conversation wfid initialData|conversation message meta
                   |conversation|conversation]; simpl.
  - exists conversation. split; [reflexivity|].
    unfold initializeWorkflowForConversation, bind, getContext, gets. simpl.
    destruct (redisState w !! conversation) as [existing|];
      [split; [apply confined_refl|reflexivity]|].
    destruct (workflowTable w !! wfid) as [[wf [] []]|]; simpl;
      try (split; [apply confined_refl|reflexivity]).
    assert (confined conversation w (snd (createExecution w))) as Hcreate.
    { apply confined_stores; try reflexivity.
      intros e He. simpl. apply lookup_insert_is_Some'. by right. }
    destruct (findEntryNode wf) as [entryNode|]; simpl;
      [|split; [exact Hcreate|reflexivity]].
    set (context := mkContext conversation wfid _ _ _ _ _ _ _).
    pose proof (touchesOnly_saveContext (executionId context) context
                  (snd (createExecution w))) as Hsave.
    pose proof (detached_touchesOnly fuel context
                  (snd (saveContext context (snd (createExecution w))))) as Hrun.
    pose proof (touchesOnly_trans _ _ _ _ _ Hsave Hrun) as Hboth.
    unfold createExecution, saveContext, modify in Hboth. simpl in Hboth.
    destruct (detached fuel context _) as [[u|e|] w3]; simpl in *;
      (split;
       [ eapply confined_trans;
           [exact Hcreate|eapply touchesOnly_confined; exact Hboth]
       | by destruct Hboth as (_ & -> & _) ]).
  - destruct (handleMessage_cases fuel conversation message meta w)
      as [->|(context & validated & Hctx & Hwait & Hlock & ->)].
    { exists conversation. split; [reflexivity|].
      split; [by apply confined_stores|reflexivity]. }
    exists (conversationId context). split; [intros Hkeyed; by apply Hkeyed|].
    set (next := cleared message meta validated context).
    pose proof (touchesOnly_saveContext (executionId next) next
                  (locked conversation w)) as Hsave.
    pose proof (detached_touchesOnly fuel next
                  (snd (saveContext next (locked conversation w)))) as Hrun.
    pose proof (touchesOnly_trans _ _ _ _ _ Hsave Hrun) as Hboth.
    change (conversationId next) with (conversationId context) in Hboth.
    pose proof (release_stores (lockOf conversation) ("token-" +:+ pretty (counter w))
                  (snd (detached fuel next
                          (snd (saveContext next (locked conversation w))))))
      as (Hs1 & Hs2 & Hs3 & Hs4 & Hs5 & Hs6 & _).
    split.
    + eapply confined_trans; [|eapply confined_trans].
      * apply (confined_stores _ w (locked conversation w)); by auto.
      * eapply touchesOnly_confined; exact Hboth.
      * apply confined_stores; auto. intros e. by rewrite Hs3.
    + apply release_own; [exact Hlock|].
      by destruct Hboth as (_ & -> & _).
  - exists conversation. split; [reflexivity|].
    split; [apply confined_refl|reflexivity].
  - exists conversation. split; [reflexivity|]. split; [|reflexivity].
    apply (touchesOnly_confined conversation "").
    apply touchesOnly_deleteContext.
Qed.

(** X14.  Every entry point of the engine is confined to its conversation.
    With the contexts stored under their own conversation ids, a call for a
    conversation leaves the contexts of all other conversations alone,
    appends dispatches and messages for that conversation only, removes no
    execution row, leaves the workflow definitions and the lock table as
    they were, and the contexts are again stored under their own ids. *)
Theorem entry_points_are_confined (fuel : nat) (call : Call) (w : World) :
  wellKeyed w ->
  confined (conversationOf call) w (perform fuel call w)
  /\ redisLocks (perform fuel call w) = redisLocks w
  /\ wellKeyed (perform fuel call w).
Proof.
  intros Hkeyed.
  destruct (perform_confined fuel call w) as (c & Hc & Hconf & Hlocks).
  rewrite (Hc Hkeyed) in Hconf. split; [exact Hconf|]. split; [exact Hlocks|].
  revert Hkeyed.
  apply (perform_everyContext
           (fun conversation context => conversationId context = conversation)).
  - intros _ a b (H & _) _. exact H.
  - reflexivity.
  - reflexivity.
Qed.

(** X15.  No entry point ever hands a URL to [fetch] that validateApiUrl
    rejects: whatever the workflow, the variables and the stores, the URLs
    fetched during a call are appended to those fetched before and each of
    them passed validateApiUrl. *)
Theorem only_validated_urls_are_fetched (fuel : nat) (call : Call) (w : World) :
  exists urls,
    fetched (perform fuel call w) = fetched w ++ urls
    /\ Forall (fun url => validateApiUrl url = None) urls.
Proof.
  destruct (perform_confined fuel call w) as (c & _ & Hconf & _).
  by destruct Hconf as (_ & _ & _ & _ & _ & Hfetch).
Qed.

End Confinement.

Lemma wellKeyed_worldOf (context : ConversationExecutionContext) :
  Survey.wellKeyed (Sample.worldOf context).
Proof.
  intros c ctx H. simpl in H.
  apply lookup_singleton_Some in H as [<- <-]. reflexivity.
Qed.

Lemma returned_burst_ended_or_waits_witness :
  let w' :=
    snd (processNextNode (rt := Sample.runtime) 3 Sample.asking
           (Sample.worldOf Sample.asking)) in
  redisState w' !! conversationId Sample.asking = None
  \/ exists saved,
       redisState w' !! conversationId Sample.asking = Some saved
       /\ waitingForInput saved = true
       /\ Survey.sameRun Sample.asking saved.
Proof.
  apply (returned_burst_ended_or_waits (rt := Sample.runtime) 3 Sample.asking
           (Sample.worldOf Sample.asking)
           (snd (processNextNode (rt := Sample.runtime) 3 Sample.asking
                   (Sample.worldOf Sample.asking)))).
  vm_compute. reflexivity.
Defined.

Lemma engine_never_asks_for_validation_witness :
  Survey.noValidationAsked
    (perform (rt := Sample.runtime) 3 (InboundMessage "c1" "Ann" JNull)
       (Sample.worldOf Cases.waitingForName)).
Proof.
  apply (engine_never_asks_for_validation (rt := Sample.runtime) 3
           (InboundMessage "c1" "Ann" JNull) (Sample.worldOf Cases.waitingForName)).
  intros c ctx H. simpl in H.
  apply lookup_singleton_Some in H as [_ <-]. reflexivity.
Defined.

Lemma entry_points_are_confined_witness :
  let w := Sample.worldOf Cases.waitingForName in
  let w' := perform (rt := Sample.runtime) 3 (InboundMessage "c1" "Ann" JNull) w in
  Survey.confined (rt := Sample.runtime) "c1" w w'
  /\ redisLocks w' = redisLocks w
  /\ Survey.wellKeyed w'.
Proof.
  apply (entry_points_are_confined (rt := Sample.runtime) 3
           (InboundMessage "c1" "Ann" JNull) (Sample.worldOf Cases.waitingForName)).
  apply wellKeyed_worldOf.
Defined.
(** ** Runs that cannot advance and runs that cannot stop *)

Section Stuck.
Context `{rt : Runtime}.

Import Survey.

Lemma executeNode_alwaysWaits (node : Node) (context : ConversationExecutionContext)
    (w : World) :
  alwaysWaits node = true ->
  exists result context' w2,
    executeNode node context w = (Ok (result, context'), w2)
    /\ waitingForInput context' = true.
Proof.
  unfold alwaysWaits, executeNode. intros Hwaits.
  destruct (String.eqb_spec (node_type node) "TRIGGER_USER_INPUT") as [_|_].
  { unfold executeTriggerUserInput, sendMessageToUser. unfold_monad.
    destruct (truthy _); simpl; eauto 6. }
  destruct (String.eqb_spec (node_type node) "ACTION_MESSAGE") as [Htype|_].
  { rewrite Htype in Hwaits. simpl in Hwaits.
    unfold executeActionMessage, sendMessageToUser. unfold_monad.
    rewrite Hwaits. simpl. eauto 6. }
  destruct (String.eqb_spec (node_type node) "ACTION_WAIT_FOR_INPUT") as [_|_];
    [|discriminate].
  unfold executeActionWaitForInput, sendMessageToUser. unfold_monad.
  destruct (truthy _); simpl; eauto 6.
Qed.

(** one accepted message on a context that waits at a node that always asks
    to wait *)
Lemma resume_at_waiting_node (fuel : nat) (conversation message : string)
    (messageMetadata : JsValue) (w : World)
    (context : ConversationExecutionContext) (node : Node) :
  redisState w !! conversation = Some context ->
  conversationId context = conversation ->
  waitingForInput context = true ->
  expectedInputValidation context = None ->
  currentNodeId context = Some (node_id node) ->
  node_id node <> "" ->
  findNode (workflow context) (node_id node) = Some node ->
  alwaysWaits node = true ->
  redisLocks w !! lockOf conversation = None ->
  exists saved w',
    handleMessageInWorkflow (S fuel) conversation message messageMetadata w
    = (Ok (Some (mkMessageResult false None true)), w')
    /\ redisState w' !! conversation = Some saved
    /\ conversationId saved = conversation
    /\ waitingForInput saved = true
    /\ expectedInputValidation saved = None
    /\ currentNodeId saved = Some (node_id node)
    /\ workflow saved = workflow context
    /\ redisLocks w' = redisLocks w
    /\ dispatched w' = dispatched w ++ [(conversation, node_id node)].
Proof.
  intros Hctx Hconv Hwait Hval Hcur Hne Hfind Hwaits Hfree.
  rewrite (handleMessage_resumes (S fuel) conversation message messageMetadata w
             context None); auto; [|by rewrite Hval].
  set (next := cleared message messageMetadata None context).
  set (ws := snd (saveContext next (locked conversation w))).
  destruct (executeNode_alwaysWaits node next (announced next node ws) Hwaits)
    as (result & context' & w2 & Hexec & Hwait').
  unfold detached, tryCatch.
  rewrite (processNextNode_suspends fuel next context' ws w2 (node_id node) node result);
    auto.
  destruct (executeNode_context _ _ _ _ _ _ Hexec)
    as (Hc & _ & _ & Hn & _ & Hv & Hwf).
  pose proof (executeNode_stores node next (announced next node ws)) as Hst.
  rewrite Hexec in Hst. simpl in Hst.
  destruct Hst as (Hr2 & Hl2 & _ & _ & _ & Hd2).
  pose proof (addExecutionLog_stores (executionId next)
    ("Executing: " +:+ node_label node +:+ " (" +:+ node_type node +:+ ")") ws)
    as (Hr1 & Hl1 & _ & _ & _ & Hd1 & _).
  fold (announced next node ws) in Hr1, Hl1, Hd1.
  pose proof (addExecutionLog_stores (executionId context')
    "Waiting for user input" w2) as (Hr3 & Hl3 & _ & _ & _ & Hd3 & _).
  exists (merged result context'). eexists. split; [reflexivity|].
  match goal with
  | |- context [release ?k ?t ?x] =>
      pose proof (release_stores k t x) as (Hs1 & _ & _ & _ & _ & Hs6 & _)
  end.
  rewrite Hs1, Hs6.
  change (conversationId next) with (conversationId context) in Hc.
  rewrite Hconv in Hc.
  split.
  { unfold saveContext, modify. simpl. rewrite Hc. apply lookup_insert_eq. }
  change (currentNodeId next) with (currentNodeId context) in Hn.
  rewrite Hcur in Hn.
  split; [exact Hc|]. split; [exact Hwait'|]. split; [exact Hv|].
  split; [exact Hn|]. split; [exact Hwf|]. split.
  - apply release_own; [exact Hfree|].
    unfold saveContext, modify. simpl. by rewrite Hl3, Hl2, Hl1.
  - unfold saveContext, modify. simpl. rewrite Hd3, Hd2, Hd1.
    change (conversationId next) with (conversationId context). by rewrite Hconv.
Qed.

(** X16.  A run never gets past a node that asks for input.  On every
    accepted message handleMessageInWorkflow runs processNextNode on the
    context as saved, whose current node is still the node that asked, so
    that node is dispatched again and asks again.  Hence after any series
    of visitor messages the context still waits at the same node, and that
    node has been dispatched once per message: for TRIGGER_USER_INPUT,
    ACTION_WAIT_FOR_INPUT and ACTION_MESSAGE with [waitForResponse: true]
    alike. *)
Theorem waiting_node_is_never_passed (fuel : nat) (conversation : string)
    (messages : list (string * JsValue)) (node : Node) :
  forall (w : World) (context : ConversationExecutionContext),
    redisState w !! conversation = Some context ->
    conversationId context = conversation ->
    waitingForInput context = true ->
    expectedInputValidation context = None ->
    currentNodeId context = Some (node_id node) ->
    node_id node <> "" ->
    findNode (workflow context) (node_id node) = Some node ->
    alwaysWaits node = true ->
    redisLocks w !! lockOf conversation = None ->
    let w' := deliverAll (S fuel) conversation messages w in
    exists saved,
      redisState w' !! conversation = Some saved
      /\ waitingForInput saved = true
      /\ currentNodeId saved = Some (node_id node)
      /\ dispatched w'
         = dispatched w ++ repeat (conversation, node_id node) (length messages)
      /\ redisLocks w' = redisLocks w.
Proof.
  induction messages as [|[message meta] rest IH];
    intros w context Hctx Hconv Hwait Hval Hcur Hne Hfind Hwaits Hfree.
  { simpl. exists context. rewrite app_nil_r. auto. }
  destruct (resume_at_waiting_node fuel conversation message meta w context node)
    as (saved & w1 & Hrun & Hs & Hc1 & Hw1 & Hv1 & Hn1 & Hwf1 & Hl1 & Hd1); auto.
  simpl. rewrite Hrun. simpl.
  destruct (IH w1 saved) as (last & Hlast & Hwl & Hnl & Hdl & Hll); auto.
  - by rewrite Hwf1.
  - by rewrite Hl1.
  - exists last. repeat split; auto.
    + rewrite Hdl, Hd1. by rewrite <- app_assoc.
    + by rewrite Hll.
Qed.

Lemma firstEdgePath_length (wf : Workflow) (region : Node -> Prop) (n : nat) :
  Survey.closedRegion wf region ->
  forall node, region node ->
    length (Survey.firstEdgePath wf (node_id node) n) = n.
Proof.
  intros Hclosed. induction n as [|n IH]; intros node Hin; [reflexivity|].
  destruct (Hclosed node Hin) as (_ & _ & edge & rest & next & Hout & _ & Htarget & Hnext).
  simpl. rewrite Hout, Htarget. by rewrite (IH next Hnext).
Qed.

(** X17.  A run that enters a region of inert nodes whose first edges
    carry no condition and stay in the region never settles and is never
    aborted: for every amount of fuel the burst is still pending, it has
    dispatched one node per unit of fuel, along the first edges, and it
    has sent no message.  Nothing in processNextNode bounds the number of
    steps of a burst. *)
Theorem inert_region_is_never_left (region : Node -> Prop) (fuel : nat) :
  forall (context : ConversationExecutionContext) (w : World) (node : Node),
    Survey.inertRegion (workflow context) region ->
    region node ->
    currentNodeId context = Some (node_id node) ->
    waitingForInput context = false ->
    exists w',
      processNextNode fuel context w = (Pending, w')
      /\ dispatched w'
         = dispatched w
           ++ map (pair (conversationId context))
                (Survey.firstEdgePath (workflow context) (node_id node) fuel)
      /\ length (dispatched w') = (length (dispatched w) + fuel)%nat
      /\ messageTable w' = messageTable w
      /\ fetched w' = fetched w.
Proof.
  intros context w node [Hclosed Hinert] Hin Hcur Hwait.
  destruct (closed_region_never_settles region fuel context w node)
    as (w' & Hrun & Hdisp & Hmsg & Hfetch & _); auto.
  { intros n Hn. apply inert_returnsAtOnce. by apply Hinert. }
  exists w'. repeat split; auto.
  rewrite Hdisp, length_app, length_map.
  by rewrite (firstEdgePath_length _ region fuel Hclosed node Hin).
Qed.

End Stuck.

(** ** services/chat.service *)

Section ChatService.
Context `{rt : Runtime}.

Import Chat.

(** X18.  A context that is not waiting, as a failed burst leaves it,
    shuts the conversation out of its workflow.  The workflow step of
    sendMessage gets [null] from handleMessageInWorkflow, its recovery
    calls initializeWorkflowForConversation, which finds the context and
    starts nothing, the second handleMessageInWorkflow returns [null]
    again, and the message goes on to the AI response: no node is
    dispatched, no context or execution row is written, and since the
    context is still there the same happens on the next message. *)
Theorem stale_context_blocks_recovery (fuel : nat) (conversation : Conversation)
    (workflowId content : string) (currentPageUrl : JsValue) (w : World)
    (context : ConversationExecutionContext) :
  agentWorkflowId conversation = Some workflowId ->
  workflowId <> "" ->
  redisState w !! conversation_id conversation = Some context ->
  waitingForInput context = false ->
  redisLocks w !! lockOf (conversation_id conversation) = None ->
  workflowStep fuel conversation content currentPageUrl true w
  = (Ok NotHandled, setCounter w (S (S (counter w)))).
Proof.
  intros Hagent Hid Hctx Hwait Hfree. unfold workflowStep. rewrite Hagent.
  destruct (String.eqb_spec workflowId "") as [|_]; [done|]. simpl.
  unfold bind at 1.
  rewrite (handleMessage_not_waiting _ _ _ _ _ context) by assumption.
  unfold bind at 1. unfold tryCatch. unfold bind at 1.
  unfold initializeWorkflowForConversation at 1.
  unfold bind at 1. unfold getContext at 1, gets. cbv beta iota.
  change (redisState (setCounter w (S (counter w))) !! conversation_id conversation)
    with (redisState w !! conversation_id conversation).
  rewrite Hctx. unfold ret at 1. cbv beta iota.
  rewrite (handleMessage_not_waiting _ _ _ _ _ context) by assumption.
  by destruct w.
Qed.

Lemma orText_text (a : option string) (d : string) :
  d <> "" -> orText a d <> "".
Proof.
  intros Hd. unfold orText. destruct a as [s|]; [|exact Hd].
  by destruct (String.eqb_spec s "").
Qed.

(** X19.  A message that the validation of a waiting context rejects is
    answered by the workflow step of sendMessage with the validation's own
    error text, or with [Invalid input. Please try again.] when it has
    none; the fallback [Error processing your request] is never used, the
    recovery is not attempted and the stores are untouched. *)
Theorem rejected_input_is_answered (fuel : nat) (conversation : Conversation)
    (workflowId content : string) (currentPageUrl : JsValue) (w : World)
    (context : ConversationExecutionContext) (expected : Validation)
    (v : ValidationResult) :
  agentWorkflowId conversation = Some workflowId ->
  workflowId <> "" ->
  redisState w !! conversation_id conversation = Some context ->
  waitingForInput context = true ->
  expectedInputValidation context = Some expected ->
  redisLocks w !! lockOf (conversation_id conversation) = None ->
  fst (validateInput content expected w) = Ok v ->
  valid v = false ->
  workflowStep fuel conversation content currentPageUrl true w
  = (Ok (Replied (orText (errorMessage v) "Invalid input. Please try again.")),
     setCounter w (S (counter w))).
Proof.
  intros Hagent Hid Hctx Hwait Hexp Hfree Hval Hinvalid.
  unfold workflowStep. rewrite Hagent.
  destruct (String.eqb_spec workflowId "") as [|_]; [done|]. simpl.
  unfold bind at 1.
  rewrite (handleMessage_invalid _ _ _ _ _ context expected v) by assumption.
  unfold bind, ret. simpl. f_equal. f_equal. f_equal.
  pose proof (orText_text (errorMessage v) "Invalid input. Please try again.") as Hne.
  destruct (String.eqb_spec (orText (errorMessage v) "Invalid input. Please try again.")
              "") as [Hempty|_]; [|reflexivity].
  destruct Hne; [discriminate|exact Hempty].
Qed.

End ChatService.
Lemma waiting_node_is_never_passed_witness :
  let w := Sample.worldOf Cases.waitingForName in
  let w' :=
    Survey.deliverAll (rt := Sample.runtime) 3 "c1"
      [("Ann", JNull); ("Ann again", JNull)] w in
  exists saved,
    redisState w' !! "c1" = Some saved
    /\ waitingForInput saved = true
    /\ currentNodeId saved = Some "name"
    /\ dispatched w' = dispatched w ++ repeat ("c1", "name") 2
    /\ redisLocks w' = redisLocks w.
Proof.
  apply (waiting_node_is_never_passed (rt := Sample.runtime) 2 "c1"
           [("Ann", JNull); ("Ann again", JNull)]
           (mkNode "name" "TRIGGER_USER_INPUT"
              (Sample.object [("prompt", JStr "Your name?")]) "name")
           (Sample.worldOf Cases.waitingForName) Cases.waitingForName);
    try reflexivity.
  discriminate.
Defined.

Lemma idle_inertRegion :
  Survey.inertRegion Cases.idle (fun node => In node (nodes Cases.idle)).
Proof.
  split.
  - intros node Hin. simpl in Hin.
    destruct Hin as [<-|[<-|[<-|[]]]];
      (split; [discriminate|]; split; [reflexivity|]).
    + exists (mkEdge "e0" "S" "P" JNull), [],
        (mkNode "P" "ACTION_DELAY" (Sample.object [("duration", JNum 1000)]) "pause").
      repeat split; try reflexivity. simpl. tauto.
    + exists (mkEdge "e1" "P" "Q" JNull), [],
        (mkNode "Q" "FLOW_LOOP" (Sample.object []) "again").
      repeat split; try reflexivity. simpl. tauto.
    + exists (mkEdge "e2" "Q" "P" JNull), [],
        (mkNode "P" "ACTION_DELAY" (Sample.object [("duration", JNum 1000)]) "pause").
      repeat split; try reflexivity. simpl. tauto.
  - intros node Hin. simpl in Hin.
    destruct Hin as [<-|[<-|[<-|[]]]]; vm_compute; reflexivity.
Qed.

Lemma inert_region_is_never_left_witness :
  let context := mkContext "c1" "wf" "exec-0" (Some "S") ∅ false None None Cases.idle in
  exists w',
    processNextNode (rt := Sample.runtime) 25 context (Sample.worldOf context)
    = (Pending, w')
    /\ dispatched w'
       = dispatched (Sample.worldOf context)
         ++ map (pair "c1") (Survey.firstEdgePath Cases.idle "S" 25)
    /\ length (dispatched w') = (length (dispatched (Sample.worldOf context)) + 25)%nat
    /\ messageTable w' = messageTable (Sample.worldOf context)
    /\ fetched w' = fetched (Sample.worldOf context).
Proof.
  apply (inert_region_is_never_left (rt := Sample.runtime)
           (fun node => In node (nodes Cases.idle)) 25
           (mkContext "c1" "wf" "exec-0" (Some "S") ∅ false None None Cases.idle)
           (Sample.worldOf
              (mkContext "c1" "wf" "exec-0" (Some "S") ∅ false None None Cases.idle))
           (mkNode "S" "CONDITION_VARIABLE" (Sample.object [("variable", JStr "vip")])
              "check")).
  - exact idle_inertRegion.
  - simpl. tauto.
  - reflexivity.
  - reflexivity.
Defined.

Lemma stale_context_blocks_recovery_witness :
  Chat.workflowStep (rt := Sample.runtime) 5 Cases.visitor "hello" JNull true
    (Sample.worldOf Cases.stale)
  = (Ok Chat.NotHandled,
     setCounter (Sample.worldOf Cases.stale)
       (S (S (counter (Sample.worldOf Cases.stale))))).
Proof.
  apply (stale_context_blocks_recovery (rt := Sample.runtime) 5 Cases.visitor "wf"
           "hello" JNull (Sample.worldOf Cases.stale) Cases.stale);
    try reflexivity.
  discriminate.
Defined.

Lemma rejected_input_is_answered_witness :
  Chat.workflowStep (rt := Sample.runtime) 5 Cases.visitor "not an address" JNull true
    Sample.waitingWorld
  = (Ok (Chat.Replied "Please enter a valid email address"),
     setCounter Sample.waitingWorld (S (counter Sample.waitingWorld))).
Proof.
  apply (rejected_input_is_answered (rt := Sample.runtime) 5 Cases.visitor "wf"
           "not an address" JNull Sample.waitingWorld Sample.waitingContext
           (mkValidation (Some "email") None None)
           (mkValidationResult false (Some "Please enter a valid email address")
              (JStr "not an address")));
    try reflexivity.
  discriminate.
Defined.
(** ** The synchronous engine *)

Section Conditions.
Context `{rt : Runtime}.

Import Survey.

Lemma splitDots_dotFree (s : string) :
  dotFree s = true -> Service.splitDots s = [s].
Proof.
  induction s as [|c rest IH]; [reflexivity|].
  simpl. destruct (Ascii.eqb c "."); [discriminate|]. simpl.
  intros Hrest. by rewrite (IH Hrest).
Qed.

Lemma splitDots_dotted (a path : string) :
  dotFree a = true ->
  Service.splitDots (a +:+ "." +:+ path) = a :: Service.splitDots path.
Proof.
  induction a as [|c rest IH]; [reflexivity|].
  simpl. destruct (Ascii.eqb c "."); [discriminate|]. simpl.
  intros Hrest. by rewrite (IH Hrest).
Qed.

Lemma splitDots_nonempty (path : string) : Service.splitDots path <> [].
Proof.
  destruct path as [|c path]; [discriminate|]. simpl.
  destruct (Ascii.eqb c "."); [discriminate|].
  by destruct (Service.splitDots path).
Qed.

(** X20.  getVariableValue reads a path step by step through the
    properties the values have of their own.  A name without a dot that is
    a variable gives its value, and one that is neither a variable nor a
    name that objects inherit gives [undefined]; a path [a.rest] on a
    variable [a] that is an object is the path [rest] inside that object; a
    step through [null], a boolean, a number or a string, and a step that
    an object has not and does not inherit, give [undefined] rather than an
    error. *)
Theorem getVariableValue_paths (variables : Vars) (a path : string) :
  dotFree a = true ->
  (forall v, variables !! a = Some v -> Service.getVariableValue variables a = v)
  /\ (variables !! a = None -> ~ In a Strict.objectPrototypeNames ->
      Service.getVariableValue variables a = JUndefined)
  /\ (forall fields, variables !! a = Some (JObj fields) ->
        Service.getVariableValue variables (a +:+ "." +:+ path)
        = Service.getVariableValue fields path)
  /\ (forall inner, variables !! a = Some inner -> primitive inner = true ->
        Service.getVariableValue variables (a +:+ "." +:+ path) = JUndefined)
  /\ (forall fields key, variables !! a = Some (JObj fields) ->
        dotFree key = true ->
        fields !! key = None ->
        ~ In key Strict.objectPrototypeNames ->
        Service.getVariableValue variables (a +:+ "." +:+ key) = JUndefined
        /\ Service.getVariableValue variables (a +:+ "." +:+ key +:+ "." +:+ path)
           = JUndefined).
Proof.
  intros Ha. unfold Service.getVariableValue.
  split; [|split; [|split; [|split]]].
  - intros v Hv. rewrite (splitDots_dotFree a Ha). simpl. by rewrite Hv.
  - intros Hv _. rewrite (splitDots_dotFree a Ha). simpl. by rewrite Hv.
  - intros fields Hv. rewrite (splitDots_dotted a path Ha). simpl. by rewrite Hv.
  - intros inner Hv Hprim. rewrite (splitDots_dotted a path Ha). simpl. rewrite Hv.
    destruct (Service.splitDots path) as [|key keys] eqn:Hkeys;
      [by apply splitDots_nonempty in Hkeys|by destruct inner].
  - intros fields key Hv Hkey Hmissing _. split.
    + rewrite (splitDots_dotted a _ Ha), (splitDots_dotFree key Hkey). simpl.
      rewrite Hv. simpl. by rewrite Hmissing.
    + rewrite (splitDots_dotted a _ Ha), (splitDots_dotted key path Hkey). simpl.
      rewrite Hv. simpl. by rewrite Hmissing.
Qed.

(** X21.  On the conditions both engines know, they agree.  For a
    condition on a [field] without dots, with one of the operators equals,
    notEquals, contains, greaterThan, lessThan and exists, and with neither
    [variable] nor [negate], the evaluateCondition of workflow.service and
    the one of workflowExecutor.service give the same answer on the same
    variables. *)
Theorem evaluators_agree_on_shared_conditions (condition : JsValue)
    (variables : Vars) (field operator : string) :
  getProp condition "field" = JStr field ->
  dotFree field = true ->
  getProp condition "operator" = JStr operator ->
  In operator sharedOperators ->
  truthy (getProp condition "variable") = false ->
  truthy (getProp condition "negate") = false ->
  Service.evaluateCondition condition variables
  = Executor.evaluateCondition condition variables.
Proof.
  intros Hfield Hdots Hop Hshared Hvariable Hnegate.
  assert (truthy condition = true) as Hobj
    by (destruct condition; simpl in *; try discriminate; reflexivity).
  unfold Service.evaluateCondition, Executor.evaluateCondition.
  rewrite Hobj, Hnegate. unfold orElse. rewrite Hvariable, Hfield, Hop. simpl.
  destruct (String.eqb field ""); [reflexivity|]. simpl.
  destruct (String.eqb operator ""); [reflexivity|]. simpl.
  assert (Service.getVariableValue variables field = getVar variables (JStr field))
    as ->.
  { unfold Service.getVariableValue, getVar. rewrite (splitDots_dotFree field Hdots).
    simpl. by destruct (variables !! field). }
  simpl in Hshared.
  destruct Hshared as [<-|[<-|[<-|[<-|[<-|[<-|[]]]]]]]; reflexivity.
Qed.

(** X22.  [negate] in the evaluateCondition of workflow.service.  A
    condition that lacks a variable name or an operator is true, negated or
    not.  Otherwise a truthy [negate] inverts the answer of the condition
    without it, so that an operator the evaluator does not know, true by
    default, becomes false under [negate]. *)
Theorem negate_inverts_wellformed_conditions (fields : gmap string JsValue)
    (variables : Vars) :
  truthy (getProp (JObj fields) "negate") = true ->
  let named :=
    truthy (orElse (getProp (JObj fields) "variable") (getProp (JObj fields) "field"))
    && truthy (getProp (JObj fields) "operator") in
  Service.evaluateCondition (JObj fields) variables
  = if named
    then negb (Service.evaluateCondition (JObj (delete "negate" fields)) variables)
    else true.
Proof.
  intros Hnegate named. subst named.
  assert (forall k, k <> "negate" ->
            getProp (JObj (delete "negate" fields)) k = getProp (JObj fields) k) as Hkeep.
  { intros k Hk. simpl. by rewrite lookup_delete_ne. }
  assert (getProp (JObj (delete "negate" fields)) "negate" = JUndefined) as Hgone.
  { simpl. by rewrite lookup_delete_eq. }
  unfold Service.evaluateCondition.
  change (truthy (JObj fields)) with true.
  change (truthy (JObj (delete "negate" fields))) with true.
  cbn [negb]. cbv iota.
  rewrite Hgone, !Hkeep by discriminate. rewrite Hnegate.
  change (truthy JUndefined) with false. cbv iota.
  destruct (truthy (orElse _ _)); [|reflexivity].
  destruct (truthy (getProp (JObj fields) "operator")); reflexivity.
Qed.

End Conditions.

Lemma evaluators_agree_on_shared_conditions_witness :
  Service.evaluateCondition (rt := Sample.runtime) Sample.planGuard {[ "plan" := JStr "pro" ]}
  = Executor.evaluateCondition (rt := Sample.runtime) Sample.planGuard
      {[ "plan" := JStr "pro" ]}.
Proof.
  apply (evaluators_agree_on_shared_conditions (rt := Sample.runtime) Sample.planGuard
           {[ "plan" := JStr "pro" ]} "plan" "equals"); try reflexivity.
  simpl. tauto.
Defined.

Lemma getVariableValue_paths_witness :
  let variables : Vars :=
    {[ "visitor" := JObj {[ "name" := JStr "Ann" ]} ]} in
  Service.getVariableValue variables "visitor" = JObj {[ "name" := JStr "Ann" ]}
  /\ Service.getVariableValue variables "visitor.name" = JStr "Ann"
  /\ Service.getVariableValue variables "visitor.address.city" = JUndefined.
Proof.
  destruct (getVariableValue_paths {[ "visitor" := JObj {[ "name" := JStr "Ann" ]} ]}
              "visitor" "name") as (Hown & _ & Hpath & _); [reflexivity|].
  destruct (getVariableValue_paths {[ "visitor" := JObj {[ "name" := JStr "Ann" ]} ]}
              "visitor" "city") as (_ & _ & _ & _ & Hmissing); [reflexivity|].
  split; [by apply Hown|]. split.
  - transitivity (Service.getVariableValue {[ "name" := JStr "Ann" ]} "name");
      [|reflexivity].
    apply (Hpath {[ "name" := JStr "Ann" ]}). reflexivity.
  - apply (Hmissing {[ "name" := JStr "Ann" ]} "address"); try reflexivity.
    unfold Strict.objectPrototypeNames. simpl. intros H.
    repeat (destruct H as [H|H]; [discriminate H|]). exact H.
Defined.

Lemma negate_inverts_wellformed_conditions_witness :
  Service.evaluateCondition (rt := Sample.runtime)
    (JObj (<["negate" := JBool true]>
             (<["field" := JStr "plan"]> {[ "operator" := JStr "between" ]})))
    ∅
  = false.
Proof.
  rewrite (negate_inverts_wellformed_conditions (rt := Sample.runtime)
             (<["negate" := JBool true]>
                (<["field" := JStr "plan"]> {[ "operator" := JStr "between" ]})) ∅).
  - vm_compute. reflexivity.
  - vm_compute. reflexivity.
Defined.
(** ** Retries and the status of a synchronous run *)

Section Attempts.
Context `{rt : Runtime}.

Import Service Survey.

Lemma retryLoop_then_succeeds (node : Node) (config : JsValue) (maxRetries : Z)
    (nodeResult : option NodeExecutionResult) (result : NodeExecutionResult)
    (variables0 : Vars) (calls0 : nat) :
  (forall r', Service.variables r' = variables0 -> (calls r' < calls0)%nat ->
     forall attempt, exists e, fst (attemptNode node config attempt r') = Throw e) ->
  (forall r', Service.variables r' = variables0 -> calls r' = calls0 ->
     forall attempt, fst (attemptNode node config attempt r') = Ok result) ->
  forall (n fuel : nat) (attempts : Z) (r : Run),
    (n < fuel)%nat ->
    (attempts + Z.of_nat n < maxRetries)%Z ->
    Service.variables r = variables0 ->
    (calls r + n)%nat = calls0 ->
    exists r',
      retryLoop fuel node config maxRetries attempts nodeResult r
      = (Ok (Some result), r')
      /\ events r' = events r ++ attemptsInARow (node_id node) attempts (S n)
      /\ Service.variables r' = Service.variables (snd (storeResult config result r))
      /\ calls r' = S calls0
      /\ Service.status r' = Service.status r
      /\ Service.currentNodeId r' = Service.currentNodeId r.
Proof.
  intros Hfail Hok.
  induction n as [|n IH]; intros fuel attempts r Hfuel Hmax Hvars Hcalls.
  - destruct fuel as [|fuel]; [lia|]. simpl.
    destruct (Z.ltb_spec attempts maxRetries) as [_|]; [|lia].
    pose proof (attemptNode_run node config (attempts + 1) r) as Hrun.
    assert (calls r = calls0) as Hnow by lia.
    pose proof (Hok r Hvars Hnow (attempts + 1)%Z) as Hres.
    destruct (attemptNode node config (attempts + 1) r) as [o r1].
    simpl in Hrun, Hres. subst o r1.
    eexists. split; [reflexivity|].
    unfold storeResult, modify, bind, ret. simpl.
    destruct (data result); simpl; repeat split; auto; lia.
  - destruct fuel as [|fuel]; [lia|].
    assert (calls r < calls0)%nat as Hbefore by lia.
    destruct (Hfail r Hvars Hbefore (attempts + 1)%Z) as [e He].
    rewrite (retryLoop_failed_attempt fuel node config maxRetries attempts nodeResult r e)
      by (auto; lia).
    destruct (Z.leb_spec maxRetries (attempts + 1)) as [|_]; [lia|].
    destruct (IH fuel (attempts + 1)%Z
                (addEvent (Wait (1000 * (attempts + 1)))
                   (countCall (addEvent (Attempt (node_id node) (attempts + 1)) r))))
      as (r' & Hloop & Hev & Hv & Hc & Hs & Hn); auto; try (simpl; lia).
    exists r'. split; [exact Hloop|].
    split; [|split; [|split; [exact Hc|split; [exact Hs|exact Hn]]]].
    + rewrite Hev. simpl events. rewrite <- !app_assoc. reflexivity.
    + rewrite Hv. unfold storeResult, modify. simpl. by destruct (data result).
Qed.

(** X23.  A node that fails [n] times and then answers is retried until
    it answers, as long as [n] is below [maxRetries]: the attempts are
    numbered from 1, the failed attempt [k] is followed by a wait of [k]
    seconds, the answer of attempt [n + 1] leaves the loop and its
    data is stored once, as for a node that answers at once.  Whether an
    attempt fails depends on the variables and on the number of executor
    calls made before it. *)
Theorem retry_until_success (node : Node) (config : JsValue) (maxRetries : Z)
    (result : NodeExecutionResult) (n : nat) (r : Run) :
  (Z.of_nat n < maxRetries)%Z ->
  (forall r', Service.variables r' = Service.variables r ->
     (calls r' < calls r + n)%nat ->
     forall attempt, exists e, fst (attemptNode node config attempt r') = Throw e) ->
  (forall r', Service.variables r' = Service.variables r ->
     calls r' = (calls r + n)%nat ->
     forall attempt, fst (attemptNode node config attempt r') = Ok result) ->
  exists r',
    retryLoop (Z.to_nat maxRetries) node config maxRetries 0 None r
    = (Ok (Some result), r')
    /\ events r' = events r ++ attemptsInARow (node_id node) 0 (S n)
    /\ Service.variables r' = Service.variables (snd (storeResult config result r))
    /\ calls r' = S (calls r + n).
Proof.
  intros Hmax Hfail Hok.
  destruct (retryLoop_then_succeeds node config maxRetries None result
              (Service.variables r) (calls r + n) Hfail Hok n (Z.to_nat maxRetries) 0 r)
    as (r' & Hloop & Hev & Hv & Hc & _); auto; try lia.
  exists r'. auto.
Qed.

(** X24.  What a node that answers leaves in the variables: the fields of
    its data, and under [saveResultAs] the data as a whole, unless the data
    has a field of that very name, which then wins; every other variable is
    kept.  A result without data changes nothing. *)
Theorem storeResult_merges_data (config : JsValue) (result : NodeExecutionResult)
    (r : Run) (key : string) :
  let after := Service.variables (snd (storeResult config result r)) in
  match data result with
  | None => after = Service.variables r
  | Some d =>
      after !! key
      = match d !! key with
        | Some v => Some v
        | None =>
            if truthy (getProp config "saveResultAs")
               && String.eqb key (toStr (getProp config "saveResultAs"))
            then Some (JObj d)
            else Service.variables r !! key
        end
  end.
Proof.
  unfold storeResult, modify. simpl.
  destruct (data result) as [d|]; [|reflexivity]. simpl.
  destruct (d !! key) as [v|] eqn:Hd.
  { by apply lookup_union_Some_l. }
  rewrite lookup_union_r by exact Hd.
  destruct (truthy (getProp config "saveResultAs")); simpl; [|reflexivity].
  destruct (String.eqb_spec key (toStr (getProp config "saveResultAs"))) as [->|Hne].
  - by rewrite lookup_insert_eq.
  - by rewrite lookup_insert_ne.
Qed.

(** X25.  A negative [maxRetries] on a node with [retryOnError] means that
    the node is never attempted: the loop is not entered, [nodeResult]
    stays unassigned, and executeNode ends in a TypeError on reading its
    [shouldContinue], whether or not [continueOnError] is set.  A
    [maxRetries] of zero does not switch the attempts off either: it counts
    as missing and gives three attempts. *)
Theorem negative_maxRetries_skips_the_node (fuel : nat) (nodeId : string)
    (workflow : Workflow) (node : Node) (r : Run) (limit : Z) :
  findNode workflow nodeId = Some node ->
  let config := orElse (node_config node) (JObj ∅) in
  truthy (getProp config "executeWhen")
    && negb (Service.evaluateCondition (getProp config "executeWhen")
               (Service.variables r))
  = false ->
  truthy (getProp config "retryOnError") = true ->
  getProp config "maxRetries" = JNum limit ->
  (limit <= 0)%Z ->
  if (limit =? 0)%Z then maxRetriesOf config = 3%Z
  else
    Service.executeNode (S fuel) nodeId workflow r
    = (Throw (mkError "TypeError" "Cannot read properties of undefined"),
       setCurrentNodeId r (Some nodeId)).
Proof.
  intros Hfind config Hwhen Hretry Hlimit Hneg.
  assert (maxRetriesOf config = if (limit =? 0)%Z then 3%Z else limit) as Hmax.
  { unfold maxRetriesOf, orElse. rewrite Hretry, Hlimit. simpl.
    by destruct (limit =? 0)%Z. }
  destruct (Z.eqb_spec limit 0) as [|Hne]; [exact Hmax|].
  rewrite (executeNode_after_loop fuel nodeId workflow node r
             (setCurrentNodeId r (Some nodeId)) (Ok None)); auto.
  fold config. rewrite Hmax.
  destruct (Z.to_nat limit) eqn:Hfuel; [|lia]. simpl.
  destruct (Z.ltb_spec 0 limit); [lia|reflexivity].
Qed.

End Attempts.

(** ** The status of a synchronous run and its entry nodes *)

Section Status.
Context `{rt : Runtime}.

Import Service.

Lemma retryLoop_status (node : Node) (config : JsValue) (maxRetries : Z)
    (nodeResult : option NodeExecutionResult) (fuel : nat) :
  forall (attempts : Z) (r : Run),
    Service.status (snd (retryLoop fuel node config maxRetries attempts nodeResult r))
    = Service.status r.
Proof.
  induction fuel as [|fuel IH]; intros attempts r; simpl.
  { by destruct (attempts <? maxRetries)%Z. }
  destruct (attempts <? maxRetries)%Z; [|reflexivity].
  pose proof (attemptNode_run node config (attempts + 1) r) as Hrun.
  destruct (attemptNode node config (attempts + 1) r) as [[result|e|] r1];
    simpl in Hrun; subst r1.
  - unfold storeResult, modify, bind, ret. simpl. by destruct (data result).
  - destruct (maxRetries <=? attempts + 1)%Z.
    + by destruct (truthy _).
    + by rewrite IH.
  - reflexivity.
Qed.

Lemma forEdges_status (run : string -> M unit) (outgoingEdges : list Edge) :
  (forall target r, Service.status (snd (run target r)) = Service.status r) ->
  forall r, Service.status (snd (forEdges run outgoingEdges r)) = Service.status r.
Proof.
  intros Hrun. induction outgoingEdges as [|edge rest IH]; intros r; [reflexivity|].
  simpl. unfold bind at 1. unfold gets at 1. cbv beta iota.
  destruct (_ && _); [apply IH|].
  unfold bind. pose proof (Hrun (targetNodeId edge) r) as H.
  destruct (run (targetNodeId edge) r) as [[u|e|] r1]; simpl in *; try exact H.
  by rewrite IH.
Qed.

Lemma executeNode_status (fuel : nat) :
  forall (nodeId : string) (workflow : Workflow) (r : Run),
    Service.status (snd (Service.executeNode fuel nodeId workflow r)) = Service.status r.
Proof.
  induction fuel as [|fuel IH]; intros nodeId workflow r; [reflexivity|].
  simpl. destruct (findNode workflow nodeId) as [node|]; [|reflexivity].
  unfold bind at 1. unfold gets at 1. cbv beta iota.
  destruct (_ && _); [reflexivity|].
  unfold bind at 1. unfold modify at 1. cbv beta iota.
  unfold bind at 1.
  pose proof (retryLoop_status node (orElse (node_config node) (JObj ∅))
                (maxRetriesOf (orElse (node_config node) (JObj ∅))) None
                (Z.to_nat (maxRetriesOf (orElse (node_config node) (JObj ∅)))) 0
                (setCurrentNodeId r (Some nodeId))) as Hloop.
  destruct (retryLoop _ _ _ _ _ _ _) as [[[nodeResult|]|e|] r1]; simpl in Hloop;
    try exact Hloop.
  destruct (shouldContinue nodeResult); simpl; [|exact Hloop].
  rewrite forEdges_status; [exact Hloop|].
  intros target r2. apply IH.
Qed.

Lemma forEntries_status (run : string -> M unit) (entries : list Node) :
  (forall target r, Service.status (snd (run target r)) = Service.status r) ->
  forall r, Service.status (snd (forEntries run entries r)) = Service.status r.
Proof.
  intros Hrun. induction entries as [|entry rest IH]; intros r; [reflexivity|].
  simpl. unfold bind. pose proof (Hrun (node_id entry) r) as H.
  destruct (run (node_id entry) r) as [[u|e|] r1]; simpl in *; try exact H.
  by rewrite IH.
Qed.

(** X26.  The status that executeWorkflow leaves tells how it ended: it
    is COMPLETED exactly when the run of all entry nodes returned, FAILED
    exactly when an error left executeWorkflow, and nothing below
    executeWorkflow ever writes the status; a workflow without entry node
    fails at once with [No entry node found in workflow]. *)
Theorem executeWorkflow_status_tells_the_outcome (fuel : nat) (workflow : Workflow)
    (r : Run) :
  let '(outcome, r') := executeWorkflow fuel workflow r in
  match outcome with
  | Ok _ => Service.status r' = COMPLETED
  | Throw e =>
      Service.status r' = FAILED
      /\ (entryNodes workflow = [] ->
          e = workflowError "No entry node found in workflow" /\ events r' = events r)
  | Pending => Service.status r' = Service.status r
  end.
Proof.
  unfold executeWorkflow, tryCatch.
  destruct (entryNodes workflow) as [|entry rest] eqn:Hentries; simpl.
  { unfold bind, modify, throw. simpl. auto. }
  unfold bind at 1.
  pose proof (forEntries_status (fun id => Service.executeNode fuel id workflow)
                (entry :: rest) (fun target r0 => executeNode_status fuel target workflow r0)
                r) as Hrun.
  simpl forEntries in Hrun.
  destruct (bind _ _ r) as [[u|e|] r1]; simpl in *.
  - reflexivity.
  - split; [reflexivity|discriminate].
  - exact Hrun.
Qed.

Lemma find_head_filter {A} (p : A -> bool) (l : list A) :
  List.find p l = head (List.filter p l).
Proof.
  induction l as [|x l IH]; [reflexivity|]. simpl. by destruct (p x).
Qed.

(** X27.  On a workflow without [startNodeIds] the two engines look for
    entry nodes in the same way, the nodes no edge leads to, but the
    persisted engine starts only the first of them where executeWorkflow
    runs them all; and the persisted engine has an entry node exactly when
    executeWorkflow has one. *)
Theorem persisted_engine_starts_first_entry_node (workflow : Workflow) :
  startNodeIds workflow = [] ->
  findEntryNode workflow = head (entryNodes workflow)
  /\ (findEntryNode workflow = None <-> entryNodes workflow = []).
Proof.
  intros Hstart. unfold findEntryNode, entryNodes. rewrite Hstart. simpl.
  rewrite find_head_filter. split; [reflexivity|].
  by destruct (List.filter _ _).
Qed.

End Status.
Lemma retry_until_success_witness :
  let node :=
    mkNode "N" "ACTION_API_CALL"
      (Sample.object [("retryOnError", JBool true); ("maxRetries", JNum 3)]) "call" in
  exists r',
    Service.retryLoop (rt := Cases.flaky) 3 node (node_config node) 3 0 None
      Sample.freshRun
    = (Ok (Some (mkResult true (Some {[ "answer" := JNum 42 ]}) None true)), r')
    /\ Service.events r'
       = [ Service.Attempt "N" 1; Service.Wait 1000; Service.Attempt "N" 2;
           Service.Wait 2000; Service.Attempt "N" 3 ]
    /\ Service.variables r' !! "answer" = Some (JNum 42)
    /\ Service.calls r' = 3%nat.
Proof.
  destruct (retry_until_success (rt := Cases.flaky)
              (mkNode "N" "ACTION_API_CALL"
                 (Sample.object [("retryOnError", JBool true); ("maxRetries", JNum 3)])
                 "call")
              (Sample.object [("retryOnError", JBool true); ("maxRetries", JNum 3)])
              3 (mkResult true (Some {[ "answer" := JNum 42 ]}) None true) 2
              Sample.freshRun)
    as (r' & Hloop & Hevents & Hvariables & Hcalls).
  - lia.
  - intros r' _ Hcalls attempt. unfold Service.attemptNode. simpl in *.
    destruct (Service.calls r') as [|[|n]]; [eexists; reflexivity..|lia].
  - intros r' _ Hcalls attempt. unfold Service.attemptNode. simpl in *.
    by rewrite Hcalls.
  - exists r'. split; [exact Hloop|]. split; [exact Hevents|].
    split; [by rewrite Hvariables|exact Hcalls].
Defined.

Lemma negative_maxRetries_skips_the_node_witness :
  let workflow :=
    mkWorkflow
      [ mkNode "N" "ACTION_API_CALL"
          (Sample.object [("retryOnError", JBool true); ("maxRetries", JNum (-1));
                          ("continueOnError", JBool true)]) "call" ]
      [] [] in
  Service.executeNode (rt := Sample.runtime) 1 "N" workflow Sample.freshRun
  = (Throw (mkError "TypeError" "Cannot read properties of undefined"),
     Service.setCurrentNodeId Sample.freshRun (Some "N")).
Proof.
  apply (negative_maxRetries_skips_the_node (rt := Sample.runtime) 0 "N"
           (mkWorkflow
              [ mkNode "N" "ACTION_API_CALL"
                  (Sample.object [("retryOnError", JBool true); ("maxRetries", JNum (-1));
                                  ("continueOnError", JBool true)]) "call" ]
              [] [])
           (mkNode "N" "ACTION_API_CALL"
              (Sample.object [("retryOnError", JBool true); ("maxRetries", JNum (-1));
                              ("continueOnError", JBool true)]) "call")
           Sample.freshRun (-1)); try reflexivity.
  lia.
Defined.

Lemma persisted_engine_starts_first_entry_node_witness :
  findEntryNode Sample.branching = head (Service.entryNodes Sample.branching)
  /\ (findEntryNode Sample.branching = None <-> Service.entryNodes Sample.branching = []).
Proof.
  apply (persisted_engine_starts_first_entry_node Sample.branching). reflexivity.
Defined.
